(** * Proximity analysis data preparation: the [PrepareData] pipeline

    A shallow embedding of [src/components/data_prepper.py] (the class
    [PrepareData]) and of its caller [src/data_prep.py].

    The program is a batch pipeline over an external geometry store (arcpy)
    and in-memory tables (pandas).  The store's feature classes, layers and
    log are an explicit world state threaded through a small state-and-error
    monad; the geometry engine's tools whose results the code only passes on
    (Identity, SpatialJoin, the interior point of a polygon, the spatial join
    of two tables) are parameters of the development, and the tabular
    operations the code performs itself (sort, drop duplicates, rename, column
    selection, merge, list comprehensions) are written out. *)

From stdpp Require Import gmap strings pretty.
From Stdlib Require Import ZArith List Bool Lia Permutation Sorted String.
Import ListNotations.
Open Scope string_scope.
Open Scope list_scope.
Open Scope Z_scope.

(** ** Python outcomes *)

(** The exceptions the modelled code can raise.  [SystemExit] is what
    [sys.exit()] raises: nothing in the program catches it, so it ends the
    process (with status 0) without a traceback. *)
Inductive exn : Type :=
  | KeyError (k : string)
  | ValueError (msg : string)
  | NameError (name : string)
  | ExecuteError (msg : string)
  | TypeError (msg : string)
  | PyException (msg : string)
  | SystemExit.

Inductive outcome (A : Type) : Type :=
  | Ok (a : A)
  | Raise (e : exn).
Arguments Ok {A} a.
Arguments Raise {A} e.

(** The values a module-level name can be bound to, as far as the program
    looks at them. *)
Inductive pyobj : Type :=
  | PyStr (s : string)
  | PyInt (z : Z)
  | PyImported (what : string)
  | PyClass (name : string).

(** The values a caller can pass for a parameter, as far as [isinstance]
    and [type] tell them apart: a [str], an [int], a [bool] (a subclass of
    [int]), [None], or an instance of any other class that is neither a
    string nor an integer, given by the name [type] prints for that
    class. *)
Inductive pyarg : Type :=
  | ArgStr (s : string)
  | ArgInt (z : Z)
  | ArgBool (b : bool)
  | ArgNone
  | ArgOther (class_name : string).

(** [isinstance(x, str)] *)
Definition isinstance_str (x : pyarg) : bool :=
  match x with ArgStr _ => true | _ => false end.

(** [isinstance(x, int)]: [True] and [False] are integers too. *)
Definition isinstance_int (x : pyarg) : bool :=
  match x with ArgInt _ | ArgBool _ => true | _ => false end.

(** [f"{type(x)}"] *)
Definition type_repr (x : pyarg) : string :=
  match x with
  | ArgStr _ => "<class 'str'>"
  | ArgInt _ => "<class 'int'>"
  | ArgBool _ => "<class 'bool'>"
  | ArgNone => "<class 'NoneType'>"
  | ArgOther class_name => "<class '" ++ class_name ++ "'>"
  end.

(** Membership in a list, as a decidable proposition. *)
#[global] Instance In_decision {A : Type} `{EqDecision A} (x : A) (l : list A) :
  Decision (In x l) := in_dec (fun a b => decide (a = b)) x l.


Section Model.

Context {geometry : Type} `{EqDecision geometry}.

(** ** Tables (pandas) *)

(** A cell of an attribute table or data frame. [VNull] is a missing value
    (NaN / None), [VGeom] a geometry object of the SHAPE column. *)
Inductive value : Type :=
  | VInt (z : Z)
  | VStr (s : string)
  | VNull
  | VGeom (g : geometry).

#[global] Instance value_eq_dec : EqDecision value.
Proof. solve_decision. Defined.

(** A data frame: ordered column labels and rows of cells, one cell per
    column. *)
Record DataFrame : Type := mkDataFrame {
  columns : list string;
  rows : list (list value)
}.

(** A feature: its attribute cells (one per field of its feature class) and
    its geometry. *)
Record feature : Type := mkFeature {
  attrs : list value;
  shape : geometry
}.

Record FeatureClass : Type := mkFC {
  fc_fields : list string;
  fc_features : list feature
}.

(** *** What the program runs on *)

(** What pandas, numpy and the geometry engine compute is outside the
    program; it is a parameter of the development.

    - pandas sorts with numpy's argsort, and [sort_values] leaves [kind] at
      its default (quicksort), which fixes no order among equal keys:
      [argsort_desc] is any function returning its input in descending key
      order (see [lawful_sort]);
    - whether DeleteField fails on a field name the table does not have
      (ERROR 000728) or skips it differs between releases of the engine:
      [delete_missing_fails];
    - the overlay of two polygon classes, the spatial join of two classes
      (which adds the field Join_Count), the spatial predicate, the interior
      point and the true centroid of a polygon, the spatial join of two data
      frames and the conversion of a frame to a feature class. *)
Record Runtime : Type := mkRuntime {
  argsort_desc : (list value -> option Z) -> list (list value) -> list (list value);
  delete_missing_fails : bool;
  Identity_tool : FeatureClass -> FeatureClass -> FeatureClass;
  SpatialJoin_tool : FeatureClass -> FeatureClass -> FeatureClass;
  intersects : geometry -> geometry -> bool;
  inside_point : geometry -> geometry;
  centroid_point : geometry -> geometry;
  spatial_join : DataFrame -> DataFrame -> string -> DataFrame;
  frame_to_fc : DataFrame -> FeatureClass
}.

Variable R : Runtime.

(** [positions c cols]: every index at which the label [c] occurs. *)
Fixpoint positions_from (i : nat) (c : string) (cols : list string) : list nat :=
  match cols with
  | [] => []
  | x :: t => if decide (x = c) then i :: positions_from (S i) c t
              else positions_from (S i) c t
  end.

Definition positions (c : string) (cols : list string) : list nat :=
  positions_from 0 c cols.

(** [c in df.columns.tolist()] *)
Definition has_column (df : DataFrame) (c : string) : bool :=
  bool_decide (In c (columns df)).

(** The cell of row [r] under the (first) column labelled [c]. *)
Definition cell (cols : list string) (c : string) (r : list value) : value :=
  match positions c cols with
  | i :: _ => nth i r VNull
  | [] => VNull
  end.

(** [df[c].tolist()] / [df[c].to_list()]: [KeyError] when the label is
    absent. *)
Definition column_tolist (df : DataFrame) (c : string) : outcome (list value) :=
  if has_column df c then Ok (map (cell (columns df) c) (rows df))
  else Raise (KeyError c).

(** *** sort_values(by=..., ascending=False) *)

(** The sort key of a cell: integers order numerically, anything else is
    treated as missing and goes last (pandas' [na_position='last']). *)
Definition sort_key (v : value) : option Z :=
  match v with VInt z => Some z | _ => None end.

(** [key_ge a b]: key [a] may stand before key [b] in descending order. *)
Definition key_ge (a b : option Z) : bool :=
  match a, b with
  | Some x, Some y => y <=? x
  | Some _, None => true
  | None, Some _ => false
  | None, None => true
  end.

Definition desc_by (key : list value -> option Z) (a b : list value) : Prop :=
  key_ge (key a) (key b) = true.

(** What every sorting algorithm guarantees. *)
Definition lawful_sort
    (sort : (list value -> option Z) -> list (list value) -> list (list value)) : Prop :=
  forall key l, Permutation (sort key l) l /\ StronglySorted (desc_by key) (sort key l).

Definition sort_values_desc (by_ : string) (df : DataFrame) : outcome DataFrame :=
  if has_column df by_ then
    Ok (mkDataFrame (columns df)
          (argsort_desc R (fun r => sort_key (cell (columns df) by_ r)) (rows df)))
  else Raise (KeyError by_).

(** A stable descending insertion sort: one admissible [argsort_desc] (it is
    what numpy's quicksort does on short arrays, and what kind='stable'
    does on all). *)
Fixpoint insert_desc (key : list value -> option Z) (r : list value)
    (l : list (list value)) : list (list value) :=
  match l with
  | [] => [r]
  | x :: t => if key_ge (key r) (key x) then r :: x :: t
              else x :: insert_desc key r t
  end.

Fixpoint stable_sort_desc (key : list value -> option Z)
    (l : list (list value)) : list (list value) :=
  match l with
  | [] => []
  | r :: t => insert_desc key r (stable_sort_desc key t)
  end.

(** The same sort run on the table read backwards: as admissible an
    [argsort_desc], in which rows with equal keys come out in the reverse
    of their order in the table. *)
Definition later_first_sort (key : list value -> option Z)
    (l : list (list value)) : list (list value) :=
  stable_sort_desc key (rev l).

(** *** drop_duplicates(subset=c, keep='first') *)

(** Rows are scanned in order; a row is kept when its key was not seen
    before. *)
Fixpoint keep_first (key : list value -> value) (seen : list value)
    (l : list (list value)) : list (list value) :=
  match l with
  | [] => []
  | r :: t => if bool_decide (In (key r) seen) then keep_first key seen t
              else r :: keep_first key (key r :: seen) t
  end.

Definition drop_duplicates (subset : string) (df : DataFrame) : outcome DataFrame :=
  if has_column df subset then
    Ok (mkDataFrame (columns df)
          (keep_first (cell (columns df) subset) [] (rows df)))
  else Raise (KeyError subset).

(** *** rename(columns={a: b}, inplace=True) *)

(** Labels equal to [a] become [b]; a label that is absent is ignored. *)
Definition rename (a b : string) (df : DataFrame) : DataFrame :=
  mkDataFrame (map (fun c => if decide (c = a) then b else c) (columns df))
              (rows df).

(** *** df[[l1, l2, ...]] *)

(** Column selection by a list of labels: every column carrying a requested
    label, in the order of the request; [KeyError] when a label is absent. *)
Definition take_positions (ps : list nat) (r : list value) : list value :=
  map (fun i => nth i r VNull) ps.

Definition select_positions (labels cols : list string) : list nat :=
  flat_map (fun c => positions c cols) labels.

Fixpoint first_missing (labels : list string) (df : DataFrame) : option string :=
  match labels with
  | [] => None
  | c :: t => if has_column df c then first_missing t df else Some c
  end.

Definition select (labels : list string) (df : DataFrame) : outcome DataFrame :=
  match first_missing labels df with
  | Some c => Raise (KeyError c)
  | None =>
      let ps := select_positions labels (columns df) in
      Ok (mkDataFrame (map (fun i => nth i (columns df) "") ps)
                      (map (take_positions ps) (rows df)))
  end.

(** *** left.merge(right, on=key) *)

(** The cells of a row outside the key column(s). *)
Fixpoint drop_label (c : string) (cols : list string) (r : list value) : list value :=
  match cols, r with
  | x :: cs, v :: vs => if decide (x = c) then drop_label c cs vs
                        else v :: drop_label c cs vs
  | _, _ => []
  end.

Definition other_labels (c : string) (cols : list string) : list string :=
  filter (fun x => negb (bool_decide (x = c))) cols.

(** Overlapping non-key labels get the suffixes "_x" (left) and "_y"
    (right). *)
Definition suffixed (sfx : string) (key : string) (others cols : list string) : list string :=
  map (fun c => if bool_decide (c <> key /\ In c others) then (c ++ sfx)%string else c) cols.

(** The rows of the right frame whose key equals that of the left row [l]. *)
Definition matches (key : string) (lcols rcols : list string) (l : list value)
    (rrows : list (list value)) : list (list value) :=
  filter (fun r => bool_decide (cell rcols key r = cell lcols key l)) rrows.

(** The default [how='inner']: for each left row in order, one output row
    per right row with an equal key; a left row without a match yields no
    output row.  The key label has to be present, and unique, on both
    sides. *)
Definition merge (left right : DataFrame) (on : string) : outcome DataFrame :=
  match positions on (columns left), positions on (columns right) with
  | [], _ => Raise (KeyError on)
  | _, [] => Raise (KeyError on)
  | [_], [_] =>
      Ok (mkDataFrame
            (suffixed "_x" on (other_labels on (columns right)) (columns left)
             ++ suffixed "_y" on (columns left) (other_labels on (columns right)))
            (flat_map
               (fun l => map (fun r => l ++ drop_label on (columns right) r)
                             (matches on (columns left) (columns right) l (rows right)))
               (rows left)))
  | _, _ => Raise (ValueError ("The column label '" ++ on ++ "' is not unique."))
  end.

(** ** The Consistency Checker *)

(** Python's [f in l] for an element [f] and a list [l] that come from
    two [tolist()] calls: some element of [l] is equal ([==]) to [f].  A
    missing value of an identifier column is a NaN, which is equal to
    nothing, itself included, and each [tolist()] makes its own NaN
    objects: a missing [f] is in no list, and a missing element of [l]
    matches no [f]. *)
Definition py_in (f : value) (l : list value) : bool :=
  match f with
  | VNull => false
  | _ => bool_decide (In f l)
  end.

(** [check_site_id_exists]:
    [[f for f in in_ids if f not in site_p_sdf[site_fld].tolist()]].
    The registry column is looked up once per element of [in_ids], so an
    empty [in_ids] returns [[]] even when the column is absent. *)
Fixpoint check_site_id_exists (in_ids : list value) (site_p_sdf : DataFrame)
    (site_fld : string) : outcome (list value) :=
  match in_ids with
  | [] => Ok []
  | f :: t =>
      match column_tolist site_p_sdf site_fld with
      | Raise e => Raise e
      | Ok registry =>
          match check_site_id_exists t site_p_sdf site_fld with
          | Raise e => Raise e
          | Ok rest => Ok (if py_in f registry then rest else f :: rest)
          end
      end
  end.

(** ** The geometry store (arcpy) *)

(** A feature layer: the feature class it reads and its selection, a mask
    over that class's features ([None]: nothing was selected yet, every
    feature takes part). *)
Record Layer : Type := mkLayer {
  source : string;
  selection : option (list bool)
}.

Inductive log_entry : Type :=
  | Info (msg : string)
  | InfoColumns (cols : list string)
  | InfoIds (ids : list value).

(** The world outside the Python process: the workspaces that exist, the
    feature classes by path, the layers by name, and the log written so
    far (oldest entry first). *)
Record World : Type := mkWorld {
  gdbs : list string;
  fcs : gmap string FeatureClass;
  layers : gmap string Layer;
  log : list log_entry
}.

Definition set_fcs (f : gmap string FeatureClass) (w : World) : World :=
  mkWorld (gdbs w) f (layers w) (log w).

Definition set_layers (l : gmap string Layer) (w : World) : World :=
  mkWorld (gdbs w) (fcs w) l (log w).

(** Computations that read and write the world and may raise. *)
Definition M (A : Type) : Type := World -> outcome A * World.

Definition ret {A : Type} (a : A) : M A := fun w => (Ok a, w).

Definition bind {A B : Type} (c : M A) (k : A -> M B) : M B :=
  fun w => match c w with
           | (Ok a, w') => k a w'
           | (Raise e, w') => (Raise e, w')
           end.

Definition raise {A : Type} (e : exn) : M A := fun w => (Raise e, w).

Definition lift {A : Type} (o : outcome A) : M A := fun w => (o, w).

Definition get_world : M World := fun w => (Ok w, w).

Definition logger_info (e : log_entry) : M unit :=
  fun w => (Ok tt, mkWorld (gdbs w) (fcs w) (layers w) (log w ++ [e])).

Notation "x <- c ;; k" := (bind c (fun x => k))
  (at level 100, c at next level, right associativity, only parsing).
Notation "c ;;; k" := (bind c (fun _ => k))
  (at level 100, k at level 200, right associativity, only parsing).

(** [os.path.join(a, b)] for a workspace path [a] without a trailing
    separator and a relative name [b]. *)
Definition path_join (a b : string) : string := (a ++ "\" ++ b)%string.

(** [arcpy.Exists] *)
Definition Exists (p : string) : M bool :=
  fun w => (Ok (bool_decide (In p (gdbs w)) || bool_decide (is_Some (fcs w !! p))), w).

Definition read_fc (p : string) : M FeatureClass :=
  fun w => match fcs w !! p with
           | Some fc => (Ok fc, w)
           | None => (Raise (ExecuteError ("Dataset " ++ p ++ " does not exist")), w)
           end.

(** Outputs replace what is there: [env.overwriteOutput = True]. *)
Definition write_fc (p : string) (fc : FeatureClass) : M unit :=
  fun w => (Ok tt, set_fcs (<[p := fc]> (fcs w)) w).

Definition read_layer (name : string) : M Layer :=
  fun w => match layers w !! name with
           | Some l => (Ok l, w)
           | None => (Raise (ExecuteError ("Layer " ++ name ++ " does not exist")), w)
           end.

(** The features a tool sees through a layer: the selected ones. *)
Fixpoint masked {A : Type} (mask : list bool) (l : list A) : list A :=
  match mask, l with
  | b :: m, x :: t => if b then x :: masked m t else masked m t
  | _, _ => []
  end.

Definition selected (sel : option (list bool)) (fc : FeatureClass) : list feature :=
  match sel with
  | None => fc_features fc
  | Some mask => masked mask (fc_features fc)
  end.

Definition layer_features (name : string) : M FeatureClass :=
  l <- read_layer name ;;
  fc <- read_fc (source l) ;;
  ret (mkFC (fc_fields fc) (selected (selection l) fc)).

(** [ListFields(p)]: the attribute fields and the geometry field. *)
Definition field_names (fc : FeatureClass) : list string := fc_fields fc ++ ["Shape"].

Definition ListFields (p : string) : M (list string) :=
  fc <- read_fc p ;; ret (field_names fc).

(** [MakeFeatureLayer(p, name)]: the result names the layer. *)
Definition MakeFeatureLayer (p name : string) : M string :=
  _fc <- read_fc p ;;
  fun w => (Ok name, set_layers (<[name := mkLayer p None]> (layers w)) w).

(** [CreateFileGDB(folder, name)] *)
Definition CreateFileGDB (p : string) : M unit :=
  fun w => (Ok tt, mkWorld (p :: gdbs w) (fcs w) (layers w) (log w)).

(** [GeoAccessor.from_featureclass(p)]: the attribute table with the
    geometry as the column SHAPE. *)
Definition to_frame (fc : FeatureClass) : DataFrame :=
  mkDataFrame (fc_fields fc ++ ["SHAPE"])
              (map (fun f => attrs f ++ [VGeom (shape f)]) (fc_features fc)).

Definition from_featureclass (p : string) : M DataFrame :=
  fc <- read_fc p ;; ret (to_frame fc).

(** [AddField(p, name, 'LONG')]: a field that exists already is left as it
    is (the tool warns and succeeds). *)
Definition add_field (name : string) (fc : FeatureClass) : FeatureClass :=
  if bool_decide (In name (fc_fields fc)) then fc
  else mkFC (fc_fields fc ++ [name])
            (map (fun f => mkFeature (attrs f ++ [VNull]) (shape f)) (fc_features fc)).

Definition AddField (p name : string) : M unit :=
  fc <- read_fc p ;; write_fc p (add_field name fc).

(** The update cursor of [add_site_id]: the rows are visited in order and
    row number [row_int], counted from 1, is stored in the field. *)
Definition set_cell (cols : list string) (c : string) (v : value) (r : list value) : list value :=
  match positions c cols with
  | i :: _ => <[i := v]> r
  | [] => r
  end.

Fixpoint number_rows (cols : list string) (c : string) (row_int : Z)
    (l : list feature) : list feature :=
  match l with
  | [] => []
  | f :: t => mkFeature (set_cell cols c (VInt row_int) (attrs f)) (shape f)
              :: number_rows cols c (row_int + 1) t
  end.

Definition UpdateCursor_row_number (p name : string) : M unit :=
  fc <- read_fc p ;;
  if bool_decide (In name (fc_fields fc)) then
    write_fc p (mkFC (fc_fields fc) (number_rows (fc_fields fc) name 1 (fc_features fc)))
  else raise (ExecuteError ("Cannot find field '" ++ name ++ "'")).

Definition delete_fields (drop : list string) (fc : FeatureClass) : FeatureClass :=
  mkFC (filter (fun c => negb (bool_decide (In c drop))) (fc_fields fc))
       (map (fun f => mkFeature
                        (map snd (filter (fun cv => negb (bool_decide (In (fst cv) drop)))
                                         (combine (fc_fields fc) (attrs f))))
                        (shape f))
            (fc_features fc)).

Definition DeleteField (p : string) (drop : list string) : M unit :=
  fc <- read_fc p ;;
  if delete_missing_fails R && negb (forallb (fun c => bool_decide (In c (field_names fc))) drop)
  then raise (ExecuteError "ERROR 000728: Field does not exist within table")
  else write_fc p (delete_fields drop fc).

(** *** The engine's tools *)

(** [Identity(in_features, identity_features, out)] *)
Definition Identity (target_lyr site_lyr out : string) : M unit :=
  t <- read_fc target_lyr ;;
  s <- read_fc site_lyr ;;
  write_fc out (Identity_tool R t s).

(** [SpatialJoin(target, join_layer, out)] *)
Definition SpatialJoin (target join_lyr out : string) : M unit :=
  t <- read_fc target ;;
  j <- layer_features join_lyr ;;
  write_fc out (SpatialJoin_tool R t j).

(** [SelectLayerByLocation(lyr, "INTERSECT", select_lyr)]: a new selection
    of the features of [lyr] that intersect a feature seen through
    [select_lyr]. *)
Definition SelectLayerByLocation (lyr select_lyr : string) : M unit :=
  l <- read_layer lyr ;;
  fc <- read_fc (source l) ;;
  sel <- layer_features select_lyr ;;
  fun w =>
    (Ok tt,
     set_layers
       (<[lyr := mkLayer (source l)
                   (Some (map (fun f => existsb (fun p => intersects R (shape f) (shape p))
                                                (fc_features sel))
                              (fc_features fc)))]> (layers w)) w).

(** [SelectLayerByAttribute(lyr, "SWITCH_SELECTION")] *)
Definition switch_mask (sel : option (list bool)) (fc : FeatureClass) : list bool :=
  match sel with
  | None => map (fun _ => true) (fc_features fc)
  | Some mask => map negb mask
  end.

Definition SelectLayerByAttribute_switch (lyr : string) : M unit :=
  l <- read_layer lyr ;;
  fc <- read_fc (source l) ;;
  fun w =>
    (Ok tt,
     set_layers (<[lyr := mkLayer (source l) (Some (switch_mask (selection l) fc))]> (layers w)) w).

(** [int(GetCount(lyr)[0])] *)
Definition GetCount (lyr : string) : M Z :=
  fc <- layer_features lyr ;; ret (Z.of_nat (List.length (fc_features fc))).

(** [FeatureToPoint(lyr, out, point_location)]: one point per feature seen
    through the layer, carrying the feature's attributes; "INSIDE" asks
    for a point inside the polygon, anything else for the centroid. *)
Definition FeatureToPoint (lyr out point_location : string) : M unit :=
  fc <- layer_features lyr ;;
  let locate := if bool_decide (point_location = "INSIDE") then inside_point R
                else centroid_point R in
  write_fc out (mkFC (fc_fields fc)
                     (map (fun f => mkFeature (attrs f) (locate (shape f))) (fc_features fc))).

(** [ExportFeatures(lyr, out)] *)
Definition ExportFeatures (lyr out : string) : M unit :=
  fc <- layer_features lyr ;; write_fc out fc.

(** [Append(inputs=[input], target=target, schema_type="NO_TEST")]: the
    input's features are added after the target's; a target field takes the
    input's value of the same name, or null when the input has no such
    field. *)
Definition conform (in_fields target_fields : list string) (f : feature) : feature :=
  mkFeature (map (fun c => if bool_decide (In c in_fields) then cell in_fields c (attrs f)
                           else VNull) target_fields)
            (shape f).

Definition Append (input target : string) : M unit :=
  i <- read_fc input ;;
  t <- read_fc target ;;
  write_fc target (mkFC (fc_fields t)
                        (fc_features t ++ map (conform (fc_fields i) (fc_fields t)) (fc_features i))).

(** [df.drop(columns=[c], inplace=True)] *)
Definition drop_columns (c : string) (df : DataFrame) : outcome DataFrame :=
  if has_column df c then
    Ok (mkDataFrame (other_labels c (columns df))
                    (map (drop_label c (columns df)) (rows df)))
  else Raise (KeyError c).

(** ** The Identifier Propagator *)

(** Lines 80-85 of [add_site_id]: for each of the two names that is a field
    of the scratch class, [DeleteField] is called, with [fld_nme] both
    times. *)
Fixpoint delete_stale (scratch_fc_path fld_nme : string) (flds : list string) : M unit :=
  match flds with
  | [] => ret tt
  | fld :: rest =>
      names <- ListFields scratch_fc_path ;;
      (if bool_decide (In fld names) then
         logger_info (Info (fld ++ " already in target layer. Deleting existing field")) ;;;
         DeleteField scratch_fc_path [fld_nme]
       else ret tt) ;;;
      delete_stale scratch_fc_path fld_nme rest
  end.

(** The feature class at [p] has the field [f]. *)
Definition still_has (p f : string) (w : World) : Prop :=
  exists fc, fcs w !! p = Some fc /\ In f (fc_fields fc).

(** Lines 68-96: the temporary key, the stale fields, the overlay, the
    point count; the result is the table read from the second scratch
    class. *)
Definition overlay_table (target_lyr site_lyr : string) (non_ess_fields : list string)
    (bldp_lyr fld_nme out_fld_nme scratch_gdb_path scratch_fc_nme : string) : M DataFrame :=
  let scratch_fc_path := path_join scratch_gdb_path scratch_fc_nme in
  let temp_id := "temp_id" in
  AddField target_lyr temp_id ;;;
  UpdateCursor_row_number target_lyr temp_id ;;;
  ex <- Exists scratch_fc_path ;;
  (if ex then delete_stale scratch_fc_path fld_nme [fld_nme; out_fld_nme] else ret tt) ;;;
  Identity target_lyr site_lyr scratch_fc_path ;;;
  DeleteField scratch_fc_path non_ess_fields ;;;
  SpatialJoin scratch_fc_path bldp_lyr (scratch_fc_path ++ "_2")%string ;;;
  from_featureclass (scratch_fc_path ++ "_2")%string.

(** Line 99: [sdf.sort_values(by='Join_Count', ascending=False)
    .drop_duplicates(subset=temp_id, keep='first')]. *)
Definition tie_break (sdf : DataFrame) : outcome DataFrame :=
  match sort_values_desc "Join_Count" sdf with
  | Raise e => Raise e
  | Ok sorted => drop_duplicates "temp_id" sorted
  end.

(** Lines 98-116: tie-break, the check of the identifier field, the rename
    and the merge onto the working table. *)
Definition resolve_and_merge (sdf orig_sdf : DataFrame) (fld_nme out_fld_nme link_fld : string)
    : M DataFrame :=
  sdf <- lift (tie_break sdf) ;;
  if negb (has_column sdf fld_nme) then
    logger_info (Info (fld_nme ++ " not in the output dataframe error")) ;;;
    logger_info (InfoColumns (columns sdf)) ;;;
    raise SystemExit
  else
    let sdf := rename fld_nme out_fld_nme sdf in
    if negb (has_column sdf out_fld_nme) then
      logger_info (Info (out_fld_nme ++ " not in the output dataframe error")) ;;;
      raise SystemExit
    else
      right <- lift (select [link_fld; out_fld_nme] sdf) ;;
      lift (merge orig_sdf right link_fld).

Definition add_site_id (target_lyr site_lyr : string) (non_ess_fields : list string)
    (bldp_lyr : string) (orig_sdf : DataFrame)
    (fld_nme out_fld_nme scratch_gdb_path scratch_fc_nme link_fld : string) : M DataFrame :=
  sdf <- overlay_table target_lyr site_lyr non_ess_fields bldp_lyr fld_nme out_fld_nme
           scratch_gdb_path scratch_fc_nme ;;
  resolve_and_merge sdf orig_sdf fld_nme out_fld_nme link_fld.

(** The mapping that [resolve_and_merge] merges onto the working table:
    the join key and the renamed identifier of the rows that survive the
    tie-break. *)
Definition resolved_mapping (sdf : DataFrame) (fld_nme out_fld_nme link_fld : string)
    : outcome DataFrame :=
  match tie_break sdf with
  | Raise e => Raise e
  | Ok t => select [link_fld; out_fld_nme] (rename fld_nme out_fld_nme t)
  end.

(** Every row of a frame has one cell per column. *)
Definition well_formed (df : DataFrame) : Prop :=
  Forall (fun r => List.length r = List.length (columns df)) (rows df).

(** What [arcpy.Exists] answers for the path [p] in the world [w]. *)
Definition path_exists (w : World) (p : string) : bool :=
  bool_decide (In p (gdbs w)) || bool_decide (is_Some (fcs w !! p)).

(** Two worlds that differ at most in their log. *)
Definition same_store (w w' : World) : Prop :=
  gdbs w' = gdbs w /\ fcs w' = fcs w /\ layers w' = layers w.

(** ** The pipeline object *)

(** The attributes of a [PrepareData] instance that the steps read or
    assign. *)
Record PrepareData : Type := mkPrepareData {
  ia_a_nme : string;
  bld_p_nme : string;
  spatial_relationship : string;
  pd_sid_fld_nme : string;
  adv_sid_fld_nme : string;
  out_fc_nme : string;
  default_gdb : string;
  scratch_gdb : string;
  site_a_pth : string;
  site_p_pth : string;
  adv_pd_pth : string;
  sr : Z;
  ia_a_pth : string;
  bld_p_pth : string;
  indig_sdf : DataFrame;
  site_a_fields : list string;
  advpd_fields : list string;
  ia_flyr : string;
  bld_p_flyr : string
}.

Definition set_bld_p (nme pth flyr : string) (self : PrepareData) : PrepareData :=
  mkPrepareData (ia_a_nme self) nme (spatial_relationship self) (pd_sid_fld_nme self)
    (adv_sid_fld_nme self) (out_fc_nme self) (default_gdb self) (scratch_gdb self)
    (site_a_pth self) (site_p_pth self) (adv_pd_pth self) (sr self) (ia_a_pth self)
    pth (indig_sdf self) (site_a_fields self) (advpd_fields self) (ia_flyr self) flyr.

Definition set_indig_sdf (df : DataFrame) (self : PrepareData) : PrepareData :=
  mkPrepareData (ia_a_nme self) (bld_p_nme self) (spatial_relationship self) (pd_sid_fld_nme self)
    (adv_sid_fld_nme self) (out_fc_nme self) (default_gdb self) (scratch_gdb self)
    (site_a_pth self) (site_p_pth self) (adv_pd_pth self) (sr self) (ia_a_pth self)
    (bld_p_pth self) df (site_a_fields self) (advpd_fields self) (ia_flyr self)
    (bld_p_flyr self).

(** [is_valid]: the four paths have to exist, then the two names and the
    scratch path have to be strings and [sr] an integer; the first check
    that fails raises.  The scratch path is not asked to exist. *)
Definition is_valid (default_gdb : string) (scratch_gdb : pyarg)
    (site_a_path site_p_path adv_pd_path : string) (ia_a_nme out_fc_nme sr : pyarg)
    : M unit :=
  e <- Exists default_gdb ;;
  if negb e then raise (PyException "Parameter default_gdb: Does not exist and should exist before processing begins") else
  e <- Exists site_a_path ;;
  if negb e then raise (PyException "Parameter site_a_path: Must be a valid link to the data and must exist before processing begins.") else
  e <- Exists site_p_path ;;
  if negb e then raise (PyException "Parameter site_p_path: Must be a valid link to the data and must exist before processing begins.") else
  e <- Exists adv_pd_path ;;
  if negb e then raise (PyException "Parameter adv_pd_path: Must be a valid link to the data and must exist before processing begins.") else
  if negb (isinstance_str ia_a_nme) then
    raise (PyException "Parameter ia_a_nme: Must be of type string.") else
  if negb (isinstance_str scratch_gdb) then
    raise (PyException (" Parameter 'scratch_gdb' is of type " ++ type_repr scratch_gdb
                        ++ ". This parameter must be a string.")) else
  if negb (isinstance_str out_fc_nme) then
    raise (PyException "Parameter out_fc_nme: Must be of type string.") else
  if negb (isinstance_int sr) then
    raise (PyException ("Parameter sr: Must be an integer matching a projections WKID. Is currently type: "
                        ++ type_repr sr)) else
  ret tt.

(** ** The Gap Filler *)

Definition step_1 (self : PrepareData) : M PrepareData :=
  SelectLayerByLocation "ia_a" "bld_p" ;;;
  SelectLayerByAttribute_switch "ia_a" ;;;
  no_points_cnt <- GetCount (ia_flyr self) ;;
  logger_info (Info ("Number of indigneous polygons with no BLDING_P points = "
                     ++ pretty no_points_cnt)) ;;;
  if 0 <? no_points_cnt then
    let centroids_path := path_join (scratch_gdb self) "ia_centroids" in
    FeatureToPoint (ia_flyr self) centroids_path "INSIDE" ;;;
    let bld_p_nme' := (bld_p_nme self ++ "_ap")%string in
    let bld_p_pth' := path_join (scratch_gdb self) bld_p_nme' in
    ExportFeatures (bld_p_flyr self) bld_p_pth' ;;;
    Append centroids_path bld_p_pth' ;;;
    flyr <- MakeFeatureLayer bld_p_pth' "bld_p" ;;
    ret (set_bld_p bld_p_nme' bld_p_pth' flyr self)
  else ret self.

(** The polygons that intersect no point: what the selection of the
    polygon layer holds after the switch in [step_1]. *)
Definition polygons_without_points (polys points : FeatureClass) : list feature :=
  filter (fun f => negb (existsb (fun p => intersects R (shape f) (shape p))
                                 (fc_features points)))
         (fc_features polys).

(** The point that [step_1] appends for the polygon [f]. *)
Definition synthesized_point (polys points : FeatureClass) (f : feature) : feature :=
  conform (fc_fields polys) (fc_fields points)
          (mkFeature (attrs f) (inside_point R (shape f))).

(** The state in which [__init__] calls [step_1]: the two layers were just
    made, without a selection, over the polygon class [polys] and the point
    class [points]. *)
Definition ready_for_step_1 (self : PrepareData) (w : World)
    (polys points : FeatureClass) : Prop :=
  ia_flyr self = "ia_a" /\ bld_p_flyr self = "bld_p" /\
  layers w !! "ia_a" = Some (mkLayer (ia_a_pth self) None) /\
  layers w !! "bld_p" = Some (mkLayer (bld_p_pth self) None) /\
  fcs w !! ia_a_pth self = Some polys /\
  fcs w !! bld_p_pth self = Some points.

(** The world after the first statements of [step_1]: the selection, the
    switch, the count and its log entry. *)
Definition after_selection (self : PrepareData) (w : World)
    (polys points : FeatureClass) : World :=
  mkWorld (gdbs w) (fcs w)
    (<["ia_a" := mkLayer (ia_a_pth self)
                   (Some (map negb
                            (map (fun f => existsb (fun p => intersects R (shape f) (shape p))
                                                   (fc_features points))
                                 (fc_features polys))))]>
       (<["ia_a" := mkLayer (ia_a_pth self)
                      (Some (map (fun f => existsb (fun p => intersects R (shape f) (shape p))
                                                   (fc_features points))
                                 (fc_features polys)))]> (layers w)))
    (log w ++ [Info ("Number of indigneous polygons with no BLDING_P points = "
                     ++ pretty (Z.of_nat (List.length (polygons_without_points polys points))))]).

(** ** Both runs of the Identifier Propagator *)

Definition step_2 (self : PrepareData) : M PrepareData :=
  df <- add_site_id (ia_a_pth self) (site_a_pth self) (site_a_fields self) (bld_p_flyr self)
          (indig_sdf self) "PD_Site_ID" (pd_sid_fld_nme self) (scratch_gdb self)
          "scratch" "PLACE_ID" ;;
  let self := set_indig_sdf df self in
  df <- add_site_id (ia_a_pth self) (adv_pd_pth self) (advpd_fields self) (bld_p_flyr self)
          (indig_sdf self) "ADVPD_Site_ID" (adv_sid_fld_nme self) (scratch_gdb self)
          "scratch" "PLACE_ID" ;;
  ret (set_indig_sdf df self).

(** ** The consistency check of the resolved identifiers *)

Definition step_3 (self : PrepareData) : M unit :=
  pd_site_id <- lift (column_tolist (indig_sdf self) (pd_sid_fld_nme self)) ;;
  adv_site_id <- lift (column_tolist (indig_sdf self) (adv_sid_fld_nme self)) ;;
  site_p_sdf <- from_featureclass (site_p_pth self) ;;
  pd_missing <- lift (check_site_id_exists pd_site_id site_p_sdf "SITE_ID") ;;
  adv_missing <- lift (check_site_id_exists adv_site_id site_p_sdf "SITE_ID") ;;
  logger_info (Info ("Site_P points missing from matched site_ids (count): PDs: "
                     ++ pretty (List.length pd_missing) ++ ", ADVs:"
                     ++ pretty (List.length adv_missing))) ;;;
  (if (0 <? List.length pd_missing)%nat then logger_info (InfoIds pd_missing) else ret tt) ;;;
  (if (0 <? List.length adv_missing)%nat then logger_info (InfoIds adv_missing) else ret tt).

(** ** Join & Materialize *)

(** A name that is not local to the function is looked up among the
    module's globals (no builtin is called scratch_gdb). *)
Definition load_global (globals : gmap string pyobj) (name : string) : M pyobj :=
  match globals !! name with
  | Some v => ret v
  | None => raise (NameError name)
  end.

(** [step_4].  The output path is built from the free name [scratch_gdb],
    not from [self.scratch_gdb]; the arguments of [to_featureclass] are
    evaluated before the call. *)
Definition step_4 (globals : gmap string pyobj) (self : PrepareData) : M unit :=
  bld_p_sdf <- from_featureclass (bld_p_pth self) ;;
  right <- lift (select [adv_sid_fld_nme self; pd_sid_fld_nme self; "SHAPE"] (indig_sdf self)) ;;
  let bld_p_sdf_joined := spatial_join R bld_p_sdf right (spatial_relationship self) in
  bld_p_sdf_joined <- lift (drop_columns "index_right" bld_p_sdf_joined) ;;
  g <- load_global globals "scratch_gdb" ;;
  match g with
  | PyStr scratch_gdb => write_fc (path_join scratch_gdb (out_fc_nme self))
                                  (frame_to_fc R bld_p_sdf_joined)
  | _ => raise (TypeError "expected str, bytes or os.PathLike object")
  end.

(** ** Construction runs the pipeline *)

(** The fields kept by both field lists of [__init__]. *)
Definition essential_fields : list string :=
  ["SHAPE.AREA"; "SHAPE.LEN"; "SITE_ID"; "OBJECTID"; "Shape"; "SHAPE"; "Shape_Area";
   "Shape_Length"].

Definition droppable (names : list string) : list string :=
  filter (fun name => negb (bool_decide (In name essential_fields))) names.

(** Lines 203-243 of [__init__]: validation, the scratch workspace, the
    attributes, the two field lists and the two layers.  The constructor
    is modelled for arguments of the annotated types, which it hands to
    [is_valid] as they are. *)
Definition PrepareData_setup
    (default_gdb scratch_gdb site_a_path adv_pd_path site_p_path ia_a_nme bld_p_nme
       out_fc_nme : string) (sr : Z) : M PrepareData :=
  logger_info (Info "Starting Data Prep") ;;;
  logger_info (Info "Validating Inputs") ;;;
  is_valid default_gdb (ArgStr scratch_gdb) site_a_path site_p_path adv_pd_path
    (ArgStr ia_a_nme) (ArgStr out_fc_nme) (ArgInt sr) ;;;
  e <- Exists scratch_gdb ;;
  (if negb e then logger_info (Info "Creating scratch gdb") ;;; CreateFileGDB scratch_gdb
   else ret tt) ;;;
  let ia_a_pth := path_join default_gdb ia_a_nme in
  let bld_p_pth := path_join default_gdb bld_p_nme in
  indig_sdf <- from_featureclass ia_a_pth ;;
  site_a_names <- ListFields site_a_path ;;
  let site_a_fields := droppable site_a_names in
  advpd_names <- ListFields site_a_path ;;
  let advpd_fields := droppable advpd_names in
  ia_flyr <- MakeFeatureLayer ia_a_pth "ia_a" ;;
  bld_p_flyr <- MakeFeatureLayer bld_p_pth "bld_p" ;;
  ret (mkPrepareData ia_a_nme bld_p_nme "intersects" "AUTO_PD_SITE_ID"
         "AUTO_ADV_SITE_ID" out_fc_nme default_gdb scratch_gdb site_a_path
         site_p_path adv_pd_path sr ia_a_pth bld_p_pth indig_sdf site_a_fields
         advpd_fields ia_flyr bld_p_flyr).

(** Lines 245-260: the four steps, in order. *)
Definition run_steps (globals : gmap string pyobj) (self : PrepareData) : M PrepareData :=
  logger_info (Info "Running step 1: Identify indigenous communities without points in bld_p and add one (centroid) to the layer for the purpose of this analysis") ;;;
  self <- step_1 self ;;
  logger_info (Info "Running step 2: Associate the pd and adv site data with the point in each polygon") ;;;
  self <- step_2 self ;;
  logger_info (Info "Running step 3: Test to see if the matched id fields are in the pd layer and note any that are not present") ;;;
  step_3 self ;;;
  logger_info (Info "Running step 4: Join the site_id's from the indigenous layers to the building_p layer") ;;;
  step_4 globals self ;;;
  logger_info (Info "Data Prep Complete!") ;;;
  ret self.

Definition PrepareData_init (globals : gmap string pyobj)
    (default_gdb scratch_gdb site_a_path adv_pd_path site_p_path ia_a_nme bld_p_nme
       out_fc_nme : string) (sr : Z) : M PrepareData :=
  self <- PrepareData_setup default_gdb scratch_gdb site_a_path adv_pd_path site_p_path
            ia_a_nme bld_p_nme out_fc_nme sr ;;
  run_steps globals self.

(** ** The module and its callers *)

(** The global names of the module data_prepper once its body has run up to
    the call of the constructor: the imports, the class, and, only when the
    module is run as a script ([__name__ == "__main__"]), the names
    assigned in the block at its end. *)
Definition imported_names : list (string * pyobj) :=
  map (fun n => (n, PyImported n))
    ["os"; "sys"; "logging"; "pd"; "datetime"; "GeoAccessor"; "GeoSeriesAccessor"; "env";
     "Geometry"; "ListFields"; "ListFeatureClasses"; "ListDatasets"; "Exists";
     "UpdateCursor"; "Identity"; "SpatialJoin"; "SelectLayerByLocation";
     "SelectLayerByAttribute"; "MakeFeatureLayer"; "GetCount"; "FeatureToPoint"; "Append";
     "AddField"; "DeleteField"; "CreateFileGDB"; "ExportFeatures"].

Definition main_block_names : list (string * pyobj) :=
  [("default_gdb", PyStr "C:\proximity_analysis\data\Proximity_ON\Default.gdb");
   ("scratch_gdb", PyStr "C:\proximity_analysis\data\Proximity_ON\scratch.gdb");
   ("indig_autoch_nme", PyStr "INDIG_AUTOCH_A_LC");
   ("bld_p_nme", PyStr "BUILDING_P_PD_WGS");
   ("wkid", PyInt 3347);
   ("site_a_pth", PyStr "C:\proximity_analysis\data\EGDMP1A.gdb\EGD_MTNC_PD_A");
   ("adv_pd_path", PyStr "C:\proximity_analysis\data\EGDMP1A.gdb\EGD_MTNC_ADVPD_A");
   ("site_p_pth", PyStr "C:\proximity_analysis\data\site_p.gdb\site_p")].

Definition data_prepper_globals (dunder_name : string) : gmap string pyobj :=
  list_to_map
    (imported_names ++ [("PrepareData", PyClass "PrepareData")]
     ++ (if bool_decide (dunder_name = "__main__") then main_block_names else [])).

(** [python data_prepper.py]: the call in the module's own main block. *)
Definition data_prepper_main : M PrepareData :=
  PrepareData_init (data_prepper_globals "__main__")
    "C:\proximity_analysis\data\Proximity_ON\Default.gdb"
    "C:\proximity_analysis\data\Proximity_ON\scratch.gdb"
    "C:\proximity_analysis\data\EGDMP1A.gdb\EGD_MTNC_PD_A"
    "C:\proximity_analysis\data\EGDMP1A.gdb\EGD_MTNC_ADVPD_A"
    "C:\proximity_analysis\data\site_p.gdb\site_p"
    "INDIG_AUTOCH_A_LC" "BUILDING_P_PD_WGS" "bld_p_processed" 3347.

(** [data_prep.py]: the class is imported from the package, so the module
    runs under its own name, and the same constructor call follows. *)
Definition data_prep (module_name : string) : M PrepareData :=
  PrepareData_init (data_prepper_globals module_name)
    "C:\proximity_analysis\data\Proximity_ON\Default.gdb"
    "C:\proximity_analysis\data\Proximity_ON\scratch.gdb"
    "C:\proximity_analysis\data\EGDMP1A.gdb\EGD_MTNC_PD_A"
    "C:\proximity_analysis\data\EGDMP1A.gdb\EGD_MTNC_ADVPD_A"
    "C:\proximity_analysis\data\site_p.gdb\site_p"
    "INDIG_AUTOCH_A_LC" "BUILDING_P_PD_WGS" "bld_p_processed" 3347.

End Model.

Arguments value : clear implicits.
Arguments DataFrame : clear implicits.
Arguments feature : clear implicits.
Arguments FeatureClass : clear implicits.
Arguments Runtime : clear implicits.
Arguments log_entry : clear implicits.
Arguments World : clear implicits.
Arguments M : clear implicits.
Arguments PrepareData : clear implicits.

(** ** A small runtime to run the model on *)

(** Geometries are closed integer intervals [(lo, hi)]; a point is an
    interval with [lo = hi]. *)
Definition toy_intersects (a b : Z * Z) : bool :=
  (fst a <=? snd b) && (fst b <=? snd a).

Definition toy_inside_point (g : Z * Z) : Z * Z :=
  (Z.min (fst g) (snd g), Z.min (fst g) (snd g)).

Definition toy_centroid_point (g : Z * Z) : Z * Z :=
  ((fst g + snd g) / 2, (fst g + snd g) / 2).

(** The point [p] lies in the interval [g]. *)
Definition toy_within (p g : Z * Z) : Prop :=
  Z.min (fst g) (snd g) <= fst p /\ snd p <= Z.max (fst g) (snd g).

(** Overlay: one fragment per site feature that meets the target feature
    (the target's attributes, then the site's); a target feature that meets
    none is kept whole with nulls. *)
Definition toy_Identity (t s : FeatureClass (Z * Z)) : FeatureClass (Z * Z) :=
  mkFC (fc_fields t ++ fc_fields s)
    (flat_map
       (fun f =>
          match filter (fun g => toy_intersects (shape f) (shape g)) (fc_features s) with
          | [] => [mkFeature (attrs f ++ map (fun _ => VNull) (fc_fields s)) (shape f)]
          | gs => map (fun g => mkFeature (attrs f ++ attrs g)
                                  (Z.max (fst (shape f)) (fst (shape g)),
                                   Z.min (snd (shape f)) (snd (shape g)))) gs
          end)
       (fc_features t)).

(** Spatial join: the target's features with the number of join features
    they meet. *)
Definition toy_SpatialJoin (t j : FeatureClass (Z * Z)) : FeatureClass (Z * Z) :=
  mkFC ("Join_Count" :: fc_fields t)
    (map (fun f =>
            mkFeature
              (VInt (Z.of_nat (List.length
                       (filter (fun p => toy_intersects (shape f) (shape p)) (fc_features j))))
               :: attrs f)
              (shape f))
         (fc_features t)).

Definition toy_spatial_join (l r : DataFrame (Z * Z)) (op : string) : DataFrame (Z * Z) :=
  mkDataFrame (columns l ++ ["index_right"])
              (map (fun row => row ++ [VInt 0]) (rows l)).

Definition toy_frame_to_fc (df : DataFrame (Z * Z)) : FeatureClass (Z * Z) :=
  mkFC (columns df) (map (fun row => mkFeature row (0, 0)) (rows df)).

Definition toy_runtime (strict : bool) : Runtime (Z * Z) :=
  mkRuntime stable_sort_desc strict toy_Identity toy_SpatialJoin toy_intersects
    toy_inside_point toy_centroid_point toy_spatial_join toy_frame_to_fc.

(** ** Sample data *)

(** One community row (temporary key 1) overlaid into three fragments with
    point counts 3, 7 and 2. *)
Definition fragments_3_7_2 : DataFrame (Z * Z) :=
  mkDataFrame ["PLACE_ID"; "temp_id"; "PD_Site_ID"; "Join_Count"]
    [[VInt 5; VInt 1; VInt 10; VInt 3];
     [VInt 5; VInt 1; VInt 20; VInt 7];
     [VInt 5; VInt 1; VInt 30; VInt 2]].

(** A working table with a row (PLACE_ID 6) that the overlay does not
    mention. *)
Definition working_table : DataFrame (Z * Z) :=
  mkDataFrame ["PLACE_ID"; "NAME"] [[VInt 5; VStr "a"]; [VInt 6; VStr "b"]].

(** Two community rows (temporary keys 1 and 2) that share PLACE_ID 5 and
    lie in different sites. *)
Definition shared_key_overlay : DataFrame (Z * Z) :=
  mkDataFrame ["PLACE_ID"; "temp_id"; "PD_Site_ID"; "Join_Count"]
    [[VInt 5; VInt 1; VInt 10; VInt 1];
     [VInt 5; VInt 2; VInt 20; VInt 1]].

Definition shared_key_table : DataFrame (Z * Z) :=
  mkDataFrame ["PLACE_ID"] [[VInt 5]; [VInt 5]].

Definition registry_101_103 : DataFrame (Z * Z) :=
  mkDataFrame ["SITE_ID"; "SHAPE"] [[VInt 101; VGeom (1, 1)]; [VInt 103; VGeom (2, 2)]].

Definition empty_world : World (Z * Z) := mkWorld [] ∅ ∅ [].

(** A small project: three community polygons, the third without a
    building point; three building points; a primary and an advisory site
    layer with different schemas; the registry of site points. *)
Definition sample_polygons : FeatureClass (Z * Z) :=
  mkFC ["OBJECTID"; "PLACE_ID"]
    [mkFeature [VInt 1; VInt 5] (0, 9);
     mkFeature [VInt 2; VInt 6] (20, 29);
     mkFeature [VInt 3; VInt 7] (40, 49)].

Definition sample_points : FeatureClass (Z * Z) :=
  mkFC ["OBJECTID"; "BLD_ID"]
    [mkFeature [VInt 1; VInt 71] (3, 3);
     mkFeature [VInt 2; VInt 72] (5, 5);
     mkFeature [VInt 3; VInt 73] (22, 22)].

Definition sample_sites : FeatureClass (Z * Z) :=
  mkFC ["SITE_ID"; "PD_Site_ID"; "PD_NAME"]
    [mkFeature [VInt 101; VInt 10; VStr "north"] (0, 30);
     mkFeature [VInt 103; VInt 30; VStr "south"] (31, 60)].

Definition sample_adv_sites : FeatureClass (Z * Z) :=
  mkFC ["SITE_ID"; "ADV_NAME"]
    [mkFeature [VInt 201; VStr "early"] (0, 60)].

Definition sample_registry : FeatureClass (Z * Z) :=
  mkFC ["SITE_ID"] [mkFeature [VInt 101] (1, 1); mkFeature [VInt 103] (32, 32)].

Definition sample_world : World (Z * Z) :=
  mkWorld ["D"]
    (<["D\IA" := sample_polygons]>
       (<["D\BP" := sample_points]>
          (<["SA" := sample_sites]>
             (<["ADV" := sample_adv_sites]>
                (<["SP" := sample_registry]> ∅)))))
    ∅ [].

(** The object and the world as [PrepareData_setup] leaves them on the
    sample project. *)
Definition sample_self : PrepareData (Z * Z) :=
  mkPrepareData "IA" "BP" "intersects" "AUTO_PD_SITE_ID" "AUTO_ADV_SITE_ID"
    "bld_p_processed" "D" "S" "SA" "SP" "ADV" 4326 "D\IA" "D\BP"
    (to_frame sample_polygons) ["PD_Site_ID"; "PD_NAME"] ["PD_Site_ID"; "PD_NAME"]
    "ia_a" "bld_p".

Definition sample_world_ready : World (Z * Z) :=
  mkWorld ["S"; "D"] (fcs sample_world)
    (<["bld_p" := mkLayer "D\BP" None]> (<["ia_a" := mkLayer "D\IA" None]> ∅))
    [Info "Starting Data Prep"; Info "Validating Inputs"; Info "Creating scratch gdb"].

(** The same project with two community polygons that share PLACE_ID 5 and
    lie in different sites. *)
Definition shared_key_polygons : FeatureClass (Z * Z) :=
  mkFC ["OBJECTID"; "PLACE_ID"]
    [mkFeature [VInt 1; VInt 5] (0, 9);
     mkFeature [VInt 2; VInt 5] (40, 49)].

Definition shared_key_world : World (Z * Z) :=
  mkWorld ["S"; "D"] (<["D\IA" := shared_key_polygons]> (fcs sample_world))
    (layers sample_world_ready) [].

(** A working table with a row (PLACE_ID 9) that is no row of the
    community layer. *)
Definition table_with_unmatched_row : DataFrame (Z * Z) :=
  mkDataFrame ["PLACE_ID"; "NAME"] [[VInt 5; VStr "a"]; [VInt 9; VStr "z"]].

(** The overlay table of the sample project when the identifier field is
    kept (only PD_NAME is dropped). *)
Definition sample_overlay : DataFrame (Z * Z) :=
  mkDataFrame ["Join_Count"; "OBJECTID"; "PLACE_ID"; "temp_id"; "SITE_ID"; "PD_Site_ID";
               "SHAPE"]
    [[VInt 2; VInt 1; VInt 5; VInt 1; VInt 101; VInt 10; VGeom (0, 9)];
     [VInt 1; VInt 2; VInt 6; VInt 2; VInt 101; VInt 10; VGeom (20, 29)];
     [VInt 0; VInt 3; VInt 7; VInt 3; VInt 103; VInt 30; VGeom (40, 49)]].

(** The overlay table of the sample project when the identifier field is
    dropped with the non-essential fields, as the constructor's field list
    has it. *)
Definition sample_overlay_without_identifier : DataFrame (Z * Z) :=
  mkDataFrame ["Join_Count"; "OBJECTID"; "PLACE_ID"; "temp_id"; "SITE_ID"; "SHAPE"]
    [[VInt 2; VInt 1; VInt 5; VInt 1; VInt 101; VGeom (0, 9)];
     [VInt 1; VInt 2; VInt 6; VInt 2; VInt 101; VGeom (20, 29)];
     [VInt 0; VInt 3; VInt 7; VInt 3; VInt 103; VGeom (40, 49)]].

(** What [add_site_id] returns for the primary identifier on the sample
    project, for the community table and for [table_with_unmatched_row]. *)
Definition sample_pd_table : DataFrame (Z * Z) :=
  mkDataFrame ["OBJECTID"; "PLACE_ID"; "SHAPE"; "AUTO_PD_SITE_ID"]
    [[VInt 1; VInt 5; VGeom (0, 9); VInt 10];
     [VInt 2; VInt 6; VGeom (20, 29); VInt 10];
     [VInt 3; VInt 7; VGeom (40, 49); VInt 30]].

Definition matched_rows_only : DataFrame (Z * Z) :=
  mkDataFrame ["PLACE_ID"; "NAME"; "AUTO_PD_SITE_ID"] [[VInt 5; VStr "a"; VInt 10]].

(** The sample object once both identifiers are resolved. *)
Definition sample_self_resolved : PrepareData (Z * Z) :=
  set_indig_sdf
    (mkDataFrame ["OBJECTID"; "PLACE_ID"; "SHAPE"; "AUTO_PD_SITE_ID"; "AUTO_ADV_SITE_ID"]
       [[VInt 1; VInt 5; VGeom (0, 9); VInt 10; VInt 201];
        [VInt 2; VInt 6; VGeom (20, 29); VInt 10; VInt 201];
        [VInt 3; VInt 7; VGeom (40, 49); VInt 30; VInt 201]])
    sample_self.

(** A scratch class left behind with both the identifier field and the
    output field. *)
Definition stale_scratch : FeatureClass (Z * Z) :=
  mkFC ["PLACE_ID"; "temp_id"; "PD_Site_ID"; "AUTO_PD_SITE_ID"]
       [mkFeature [VInt 5; VInt 1; VInt 10; VInt 99] (0, 9)].

Definition stale_world : World (Z * Z) :=
  mkWorld ["S"] (<["S\scratch" := stale_scratch]> ∅) ∅ [].

(** A runtime that differs from [toy_runtime] in the sort only. *)
Definition later_ties_runtime : Runtime (Z * Z) :=
  mkRuntime later_first_sort false toy_Identity toy_SpatialJoin toy_intersects
    toy_inside_point toy_centroid_point toy_spatial_join toy_frame_to_fc.

(** One community row (temporary key 1) overlaid into three fragments, the
    second and the third tied at the largest count. *)
Definition tied_fragments : DataFrame (Z * Z) :=
  mkDataFrame ["PLACE_ID"; "temp_id"; "PD_Site_ID"; "Join_Count"]
    [[VInt 5; VInt 1; VInt 101; VInt 3];
     [VInt 5; VInt 1; VInt 102; VInt 7];
     [VInt 5; VInt 1; VInt 103; VInt 7]].

(** The sample project with a second community polygon that lies across
    the boundary of the two sites: the overlay cuts it into two fragments,
    with one and two building points. *)
Definition split_polygons : FeatureClass (Z * Z) :=
  mkFC ["OBJECTID"; "PLACE_ID"]
    [mkFeature [VInt 1; VInt 5] (0, 9);
     mkFeature [VInt 2; VInt 6] (25, 35)].

Definition split_points : FeatureClass (Z * Z) :=
  mkFC ["OBJECTID"; "BLD_ID"]
    [mkFeature [VInt 1; VInt 71] (3, 3);
     mkFeature [VInt 2; VInt 72] (5, 5);
     mkFeature [VInt 3; VInt 73] (27, 27);
     mkFeature [VInt 4; VInt 74] (33, 33);
     mkFeature [VInt 5; VInt 75] (34, 34)].

Definition split_world : World (Z * Z) :=
  mkWorld ["S"; "D"]
    (<["D\IA" := split_polygons]> (<["D\BP" := split_points]> (fcs sample_world)))
    (layers sample_world_ready) [].

Definition split_overlay : DataFrame (Z * Z) :=
  mkDataFrame ["Join_Count"; "OBJECTID"; "PLACE_ID"; "temp_id"; "SITE_ID"; "PD_Site_ID";
               "SHAPE"]
    [[VInt 2; VInt 1; VInt 5; VInt 1; VInt 101; VInt 10; VGeom (0, 9)];
     [VInt 1; VInt 2; VInt 6; VInt 2; VInt 101; VInt 10; VGeom (25, 30)];
     [VInt 2; VInt 2; VInt 6; VInt 2; VInt 103; VInt 30; VGeom (31, 35)]].

Definition split_pd_table : DataFrame (Z * Z) :=
  mkDataFrame ["OBJECTID"; "PLACE_ID"; "SHAPE"; "AUTO_PD_SITE_ID"]
    [[VInt 1; VInt 5; VGeom (0, 9); VInt 10];
     [VInt 2; VInt 6; VGeom (25, 35); VInt 30]].

(** The sample project with a scratch class left behind by an earlier
    run. *)
Definition sample_world_with_stale_scratch : World (Z * Z) :=
  mkWorld ["S"; "D"] (<["S\scratch" := stale_scratch]> (fcs sample_world))
    (layers sample_world_ready) [].

(** An object whose working table has missing identifiers, and a world
    whose registry has a missing SITE_ID. *)
Definition sample_self_with_missing_identifiers : PrepareData (Z * Z) :=
  set_indig_sdf
    (mkDataFrame ["OBJECTID"; "PLACE_ID"; "SHAPE"; "AUTO_PD_SITE_ID"; "AUTO_ADV_SITE_ID"]
       [[VInt 1; VInt 5; VGeom (0, 9); VInt 101; VInt 103];
        [VInt 2; VInt 6; VGeom (20, 29); VNull; VNull];
        [VInt 3; VInt 7; VGeom (40, 49); VInt 30; VNull]])
    sample_self.

Definition world_with_missing_registry_identifier : World (Z * Z) :=
  mkWorld []
    (<["SP" := mkFC ["SITE_ID"]
                 [mkFeature [VInt 101] (1, 1); mkFeature [VNull] (2, 2);
                  mkFeature [VInt 103] (32, 32)]]> ∅)
    ∅ [].

(** The sample project with an advisory layer that carries the advisory
    identifier, and an object whose field lists keep both identifier
    fields. *)
Definition sample_adv_sites_with_identifier : FeatureClass (Z * Z) :=
  mkFC ["SITE_ID"; "ADVPD_Site_ID"; "ADV_NAME"]
    [mkFeature [VInt 201; VInt 40; VStr "early"] (0, 60)].

Definition sample_world_with_identifiers : World (Z * Z) :=
  mkWorld ["S"; "D"] (<["ADV" := sample_adv_sites_with_identifier]> (fcs sample_world))
    (layers sample_world_ready) [].

Definition sample_self_keeping_identifiers : PrepareData (Z * Z) :=
  mkPrepareData "IA" "BP" "intersects" "AUTO_PD_SITE_ID" "AUTO_ADV_SITE_ID"
    "bld_p_processed" "D" "S" "SA" "SP" "ADV" 4326 "D\IA" "D\BP"
    (to_frame sample_polygons) ["PD_NAME"] ["PD_NAME"] "ia_a" "bld_p".

(** That object once [step_2] has run. *)
Definition sample_self_both_resolved : PrepareData (Z * Z) :=
  set_indig_sdf
    (mkDataFrame ["OBJECTID"; "PLACE_ID"; "SHAPE"; "AUTO_PD_SITE_ID"; "AUTO_ADV_SITE_ID"]
       [[VInt 1; VInt 5; VGeom (0, 9); VInt 10; VInt 40];
        [VInt 2; VInt 6; VGeom (20, 29); VInt 10; VInt 40];
        [VInt 3; VInt 7; VGeom (40, 49); VInt 30; VInt 40]])
    sample_self_keeping_identifiers.

(** A world whose site point class has no field SITE_ID. *)
Definition world_without_registry_field : World (Z * Z) :=
  mkWorld [] (<["SP" := sample_points]> ∅) ∅ [].

(** * Properties *)

Section Properties.

Context {geometry : Type} `{EqDecision geometry}.

(** ** Lists *)

Lemma NoDup_map_unique {A B : Type} (f : A -> B) (l : list A) (x y : A) :
  NoDup (map f l) -> In x l -> In y l -> f x = f y -> x = y.
Proof.
  induction l as [|a l IH]; simpl; [tauto|].
  intros Hnd Hx Hy Hf. apply NoDup_cons_iff in Hnd as [Hna Hnd].
  destruct Hx as [->|Hx], Hy as [->|Hy]; auto.
  - exfalso. apply Hna. rewrite Hf. now apply in_map.
  - exfalso. apply Hna. rewrite <- Hf. now apply in_map.
Qed.

Lemma NoDup_map_coarser {A B C : Type} (f : A -> B) (g : A -> C) (l : list A) :
  NoDup (map f l) ->
  (forall x y, In x l -> In y l -> g x = g y -> f x = f y) ->
  NoDup (map g l).
Proof.
  induction l as [|a l IH]; simpl; intros Hnd Hfg; [constructor|].
  apply NoDup_cons_iff in Hnd as [Hna Hnd]. constructor.
  - intros Hin. apply in_map_iff in Hin as (b & Hb & Hin).
    apply Hna. apply in_map_iff. exists b. split; [|exact Hin].
    apply Hfg; auto.
  - apply IH; auto.
Qed.

Lemma masked_map_filter {A : Type} (f : A -> bool) (l : list A) :
  masked (map f l) l = filter f l.
Proof. induction l as [|a l IH]; simpl; [reflexivity|]. rewrite IH. reflexivity. Qed.

(** ** Sorting *)

Lemma key_ge_refl (a : option Z) : key_ge a a = true.
Proof. destruct a; simpl; [apply Z.leb_refl|reflexivity]. Qed.

Lemma key_ge_trans (a b c : option Z) :
  key_ge a b = true -> key_ge b c = true -> key_ge a c = true.
Proof.
  destruct a, b, c; simpl; try congruence; rewrite ?Z.leb_le; lia.
Qed.

Lemma key_ge_total (a b : option Z) : key_ge a b = false -> key_ge b a = true.
Proof. destruct a, b; simpl; try congruence; rewrite Z.leb_gt, Z.leb_le; lia. Qed.

Lemma key_ge_antisym (a b : option Z) :
  key_ge a b = true -> key_ge b a = true -> a = b.
Proof.
  destruct a, b; simpl; try congruence. rewrite !Z.leb_le. intros; f_equal; lia.
Qed.

Lemma insert_desc_perm (key : list (value geometry) -> option Z) r l :
  Permutation (insert_desc key r l) (r :: l).
Proof.
  induction l as [|x t IH]; simpl; [reflexivity|].
  destruct (key_ge (key r) (key x)); [reflexivity|].
  rewrite IH. apply perm_swap.
Qed.

Lemma insert_desc_sorted (key : list (value geometry) -> option Z) r l :
  StronglySorted (desc_by key) l -> StronglySorted (desc_by key) (insert_desc key r l).
Proof.
  induction 1 as [|x t Hs IH Hx]; simpl.
  - repeat constructor.
  - destruct (key_ge (key r) (key x)) eqn:E.
    + constructor; [constructor; assumption|].
      constructor; [exact E|].
      eapply Forall_impl; [|exact Hx]. intros y Hy. unfold desc_by in *.
      eapply key_ge_trans; eauto.
    + constructor; [exact IH|].
      eapply Permutation_Forall; [symmetry; apply insert_desc_perm|].
      constructor; [|exact Hx]. apply key_ge_total, E.
Qed.

Lemma stable_sort_desc_lawful : lawful_sort (@stable_sort_desc geometry).
Proof.
  intros key l. induction l as [|r t [IHp IHs]]; simpl.
  - split; constructor.
  - split.
    + rewrite insert_desc_perm. now constructor.
    + now apply insert_desc_sorted.
Qed.

Lemma find_sorted_max (key : list (value geometry) -> option Z)
    (p : list (value geometry) -> bool) l r' :
  StronglySorted (desc_by key) l -> List.find p l = Some r' ->
  forall r'', In r'' l -> p r'' = true -> key_ge (key r') (key r'') = true.
Proof.
  induction 1 as [|x t Hs IH Hx]; simpl; [discriminate|].
  destruct (p x) eqn:Px.
  - intros [= <-] r'' [<-|Hin] _; [apply key_ge_refl|].
    rewrite Forall_forall in Hx. now apply Hx.
  - intros Hf r'' [<-|Hin] Hp; [congruence|]. now apply IH.
Qed.

(** ** drop_duplicates *)

Lemma keep_first_In (key : list (value geometry) -> value geometry) seen l r' :
  In r' (keep_first key seen l) -> In r' l /\ ~ In (key r') seen.
Proof.
  revert seen. induction l as [|x t IH]; simpl; intros seen; [tauto|].
  case_bool_decide as Hs.
  - intros Hin. apply IH in Hin. tauto.
  - intros [<-|Hin]; [tauto|]. apply IH in Hin. simpl in Hin. tauto.
Qed.

Lemma keep_first_NoDup (key : list (value geometry) -> value geometry) seen l :
  NoDup (map key (keep_first key seen l)).
Proof.
  revert seen. induction l as [|x t IH]; simpl; intros seen; [constructor|].
  case_bool_decide as Hs; [apply IH|].
  simpl. constructor; [|apply IH].
  intros Hin. apply in_map_iff in Hin as (y & Hy & Hin).
  apply keep_first_In in Hin as [_ Hn]. apply Hn. left. congruence.
Qed.

Lemma keep_first_find (key : list (value geometry) -> value geometry) seen l r :
  In r l -> ~ In (key r) seen ->
  exists r', List.find (fun x => bool_decide (key x = key r)) l = Some r'
             /\ key r' = key r /\ In r' (keep_first key seen l).
Proof.
  revert seen. induction l as [|x t IH]; simpl; intros seen Hin Hn; [tauto|].
  case_bool_decide as Hk.
  - exists x. split; [reflexivity|]. split; [exact Hk|].
    case_bool_decide as Hs; [rewrite Hk in Hs; tauto|]. now left.
  - destruct Hin as [->|Hin]; [congruence|].
    case_bool_decide as Hs.
    + apply IH; assumption.
    + destruct (IH (key x :: seen) Hin) as (r' & Hf & Hr & Hi).
      { simpl. intros [E|E]; [congruence|tauto]. }
      exists r'. split; [exact Hf|]. split; [exact Hr|]. now right.
Qed.

(** ** The tie-break of the Identifier Propagator *)

Lemma has_column_true (df : DataFrame geometry) c :
  In c (columns df) -> has_column df c = true.
Proof. intros Hc. unfold has_column. now apply bool_decide_eq_true. Qed.

Lemma has_column_false (df : DataFrame geometry) c :
  ~ In c (columns df) -> has_column df c = false.
Proof. intros Hc. unfold has_column. now apply bool_decide_eq_false. Qed.

Lemma tie_break_Ok (R : Runtime geometry) (sdf : DataFrame geometry) :
  In "Join_Count" (columns sdf) -> In "temp_id" (columns sdf) ->
  tie_break R sdf =
  Ok (mkDataFrame (columns sdf)
        (keep_first (cell (columns sdf) "temp_id") []
           (argsort_desc R (fun r => sort_key (cell (columns sdf) "Join_Count" r))
              (rows sdf)))).
Proof.
  intros Hj Ht. unfold tie_break, sort_values_desc, drop_duplicates.
  rewrite has_column_true by assumption. simpl.
  rewrite has_column_true by assumption. reflexivity.
Qed.

Lemma later_first_sort_lawful : lawful_sort (@later_first_sort geometry).
Proof.
  intros key l. unfold later_first_sort.
  destruct (stable_sort_desc_lawful key (rev l)) as [Hp Hs]. split; [|exact Hs].
  rewrite Hp. symmetry. apply Permutation_rev.
Qed.

Lemma key_ge_count (v v' : value geometry) n :
  key_ge (sort_key v) (sort_key v') = true -> v' = VInt n ->
  exists m, v = VInt m /\ n <= m.
Proof.
  intros Hge ->. destruct v as [m| | |]; simpl in Hge; try discriminate.
  exists m. split; [reflexivity|]. now apply Z.leb_le.
Qed.

(** C1, amended.  The tie-break (line 99) keeps, for every temporary key of
    the overlay table, exactly one row: a row of the table with that key
    whose point count is a number at least as large as every number among
    the counts of the key's rows.  Which of several rows tied at that count
    is kept is decided by the sort alone: it is the key's first row in the
    order the sort returns, for whatever sorting algorithm pandas uses. *)
Theorem tie_break_keeps_a_fragment_of_maximum_count
    (R : Runtime geometry) (sdf : DataFrame geometry) :
  lawful_sort (argsort_desc R) ->
  In "Join_Count" (columns sdf) -> In "temp_id" (columns sdf) ->
  let count := cell (columns sdf) "Join_Count" in
  let tid := cell (columns sdf) "temp_id" in
  exists resolved,
    tie_break R sdf = Ok resolved /\
    columns resolved = columns sdf /\
    NoDup (map tid (rows resolved)) /\
    (forall r', In r' (rows resolved) -> In r' (rows sdf)) /\
    forall r, In r (rows sdf) ->
      exists r',
        In r' (rows resolved) /\ tid r' = tid r /\
        (forall r'', In r'' (rows resolved) -> tid r'' = tid r -> r'' = r') /\
        (forall r'' n, In r'' (rows sdf) -> tid r'' = tid r -> count r'' = VInt n ->
                       exists m, count r' = VInt m /\ n <= m) /\
        List.find (fun x => bool_decide (tid x = tid r))
                  (argsort_desc R (fun x => sort_key (count x)) (rows sdf))
        = Some r'.
Proof.
  intros Hlaw Hj Ht count tid.
  set (cnt := fun x : list (value geometry) => sort_key (count x)).
  destruct (Hlaw cnt (rows sdf)) as [Hperm Hsorted].
  eexists. split; [apply tie_break_Ok; assumption|]. simpl.
  fold count tid. fold cnt.
  split; [reflexivity|]. split; [apply keep_first_NoDup|]. split.
  - intros r' Hin. apply keep_first_In in Hin as [Hin _].
    eapply Permutation_in; eassumption.
  - intros r Hr.
    assert (Hrs : In r (argsort_desc R cnt (rows sdf))).
    { eapply Permutation_in; [symmetry|]; eassumption. }
    destruct (keep_first_find tid [] _ r Hrs) as (r' & Hf & Hk & Hi); [simpl; tauto|].
    exists r'. repeat split; try assumption.
    + intros r'' Hin'' Hk''.
      eapply NoDup_map_unique; [apply (keep_first_NoDup tid [])|exact Hin''|exact Hi|].
      congruence.
    + intros r'' n Hin'' Hk'' Hn.
      apply (key_ge_count (count r') (count r'') n); [|exact Hn].
      apply (find_sorted_max cnt _ _ r' Hsorted Hf).
      * eapply Permutation_in; [symmetry|]; eassumption.
      * now apply bool_decide_eq_true.
Qed.

(** ** The Consistency Checker *)

(** C9.  Given a registry table with the column SITE_ID, the checker
    returns the input identifiers that do not occur in that column, in
    input order, and nothing else. *)
Theorem check_site_id_exists_set_difference (ids : list Z) (site_p_sdf : DataFrame geometry) :
  In "SITE_ID" (columns site_p_sdf) ->
  let registry := map (cell (columns site_p_sdf) "SITE_ID") (rows site_p_sdf) in
  let missing := filter (fun x => negb (bool_decide (In (VInt x) registry))) ids in
  check_site_id_exists (map VInt ids) site_p_sdf "SITE_ID" = Ok (map VInt missing) /\
  forall x, In x missing <-> In x ids /\ ~ In (VInt x) registry.
Proof.
  intros Hcol registry missing. split.
  - subst missing. induction ids as [|f t IH]; simpl; [reflexivity|].
    unfold column_tolist. rewrite has_column_true by assumption.
    fold registry. rewrite IH. unfold py_in.
    case_bool_decide; reflexivity.
  - intros x. subst missing. rewrite filter_In, negb_true_iff, bool_decide_eq_false.
    reflexivity.
Qed.

(** ** The state-and-error monad *)

Lemma bind_Ok_inv {A B : Type} (c : M geometry A) (k : A -> M geometry B) w b w' :
  bind c k w = (Ok b, w') ->
  exists a w1, c w = (Ok a, w1) /\ k a w1 = (Ok b, w').
Proof.
  unfold bind. destruct (c w) as [[a|e] w1]; [eauto|discriminate].
Qed.

Lemma bind_Ok {A B : Type} (c : M geometry A) (k : A -> M geometry B) w a w1 :
  c w = (Ok a, w1) -> bind c k w = k a w1.
Proof. unfold bind. now intros ->. Qed.

Lemma bind_Raise {A B : Type} (c : M geometry A) (k : A -> M geometry B) w e w1 :
  c w = (Raise e, w1) -> bind c k w = (Raise e, w1).
Proof. unfold bind. now intros ->. Qed.

(** ** Column positions, selection and renaming *)

Lemma positions_from_spec k c cols i :
  In i (positions_from k c cols) -> (k <= i)%nat /\ nth (i - k) cols "" = c.
Proof.
  revert k. induction cols as [|x t IH]; simpl; intros k; [tauto|].
  destruct (decide (x = c)) as [->|Hne].
  - intros [<-|Hin].
    + split; [lia|]. now rewrite Nat.sub_diag.
    + apply IH in Hin as [Hle Hn]. split; [lia|].
      replace (i - k)%nat with (S (i - S k)) by lia. exact Hn.
  - intros Hin. apply IH in Hin as [Hle Hn]. split; [lia|].
    replace (i - k)%nat with (S (i - S k)) by lia. exact Hn.
Qed.

Lemma positions_from_nonempty k c cols :
  In c cols -> positions_from k c cols <> [].
Proof.
  revert k. induction cols as [|x t IH]; simpl; intros k; [tauto|].
  intros [->|Hin].
  - destruct (decide (c = c)); [discriminate|congruence].
  - destruct (decide (x = c)); [discriminate|now apply IH].
Qed.

Lemma positions_from_empty k c cols :
  ~ In c cols -> positions_from k c cols = [].
Proof.
  revert k. induction cols as [|x t IH]; simpl; intros k Hn; [reflexivity|].
  destruct (decide (x = c)); [tauto|]. apply IH. tauto.
Qed.

Lemma positions_head c cols i rest :
  positions c cols = i :: rest -> nth i cols "" = c.
Proof.
  intros Hp. assert (Hin : In i (positions_from 0 c cols)).
  { unfold positions in Hp. rewrite Hp. now left. }
  apply positions_from_spec in Hin as [_ Hn]. now rewrite Nat.sub_0_r in Hn.
Qed.

Lemma positions_from_rename k a b c cols :
  c <> a -> c <> b ->
  positions_from k c (map (fun x => if decide (x = a) then b else x) cols)
  = positions_from k c cols.
Proof.
  intros Ha Hb. revert k. induction cols as [|x t IH]; simpl; intros k; [reflexivity|].
  rewrite IH. destruct (decide (x = a)) as [->|Hxa].
  - destruct (decide (b = c)); [congruence|]. destruct (decide (a = c)); [congruence|].
    reflexivity.
  - reflexivity.
Qed.

Lemma cell_rename a b c (df : DataFrame geometry) (r : list (value geometry)) :
  c <> a -> c <> b -> cell (columns (rename a b df)) c r = cell (columns df) c r.
Proof.
  intros Ha Hb. unfold cell, positions, rename. simpl.
  now rewrite positions_from_rename.
Qed.

Lemma select_pair_inv (df right : DataFrame geometry) c1 c2 :
  select [c1; c2] df = Ok right ->
  In c1 (columns df) /\ In c2 (columns df) /\
  right = mkDataFrame
            (map (fun i => nth i (columns df) "") (select_positions [c1; c2] (columns df)))
            (map (take_positions (select_positions [c1; c2] (columns df))) (rows df)).
Proof.
  unfold select. simpl. unfold has_column.
  repeat case_bool_decide; try discriminate. intros [= <-]. auto.
Qed.

(** The first requested label reads, in the selection, what it read in the
    frame. *)
Lemma cell_select_first (df : DataFrame geometry) c rest (r : list (value geometry)) :
  In c (columns df) ->
  cell (map (fun i => nth i (columns df) "") (select_positions (c :: rest) (columns df))) c
       (take_positions (select_positions (c :: rest) (columns df)) r)
  = cell (columns df) c r.
Proof.
  intros Hin. unfold select_positions. simpl.
  destruct (positions c (columns df)) as [|i is_] eqn:Hp.
  { exfalso. eapply positions_from_nonempty; eauto. }
  unfold cell at 2. rewrite Hp. simpl.
  unfold cell, positions. simpl.
  rewrite (positions_head _ _ _ _ Hp).
  destruct (decide (c = c)); [reflexivity|congruence].
Qed.

(** ** The merge *)

Lemma merge_Ok_inv (left right res : DataFrame geometry) on :
  merge left right on = Ok res ->
  rows res =
  flat_map (fun l => map (fun r => l ++ drop_label on (columns right) r)
                         (matches on (columns left) (columns right) l (rows right)))
           (rows left).
Proof.
  unfold merge.
  destruct (positions on (columns left)) as [|i [|]]; [discriminate| |];
    (destruct (positions on (columns right)) as [|j [|]]; try discriminate).
  now intros [= <-].
Qed.

Lemma In_matches on lcols rcols l rrows (m : list (value geometry)) :
  In m (matches on lcols rcols l rrows) <->
  In m rrows /\ cell rcols on m = cell lcols on l.
Proof. unfold matches. now rewrite filter_In, bool_decide_eq_true. Qed.

Lemma matches_at_most_one on lcols rcols l (rrows : list (list (value geometry))) :
  NoDup (map (cell rcols on) rrows) ->
  (List.length (matches on lcols rcols l rrows) <= 1)%nat.
Proof.
  unfold matches. induction rrows as [|m t IH]; simpl; [lia|].
  intros Hnd. apply NoDup_cons_iff in Hnd as [Hna Hnd].
  case_bool_decide as Hk; [|now apply IH].
  simpl. assert (Hnone : filter (fun r => bool_decide (cell rcols on r = cell lcols on l)) t = []).
  { destruct (filter _ t) as [|y ys] eqn:Hf; [reflexivity|]. exfalso.
    assert (Hy : In y (filter (fun r => bool_decide (cell rcols on r = cell lcols on l)) t))
      by (rewrite Hf; now left).
    apply filter_In in Hy as [Hy Hyk]. apply bool_decide_eq_true in Hyk.
    apply Hna. apply in_map_iff. exists y. split; [congruence|exact Hy]. }
  rewrite Hnone. simpl. lia.
Qed.

Lemma flat_map_length_le {A B : Type} (f : A -> list B) (l : list A) :
  (forall a, In a l -> (List.length (f a) <= 1)%nat) ->
  (List.length (flat_map f l) <= List.length l)%nat.
Proof.
  induction l as [|a t IH]; simpl; intros Hf; [lia|].
  rewrite length_app. specialize (Hf a (or_introl eq_refl)) as Ha.
  assert (List.length (flat_map f t) <= List.length t)%nat by (apply IH; auto). lia.
Qed.

Lemma app_same_length_inv {A : Type} (a b c d : list A) :
  a ++ b = c ++ d -> List.length a = List.length c -> a = c /\ b = d.
Proof.
  revert c. induction a as [|x a IH]; intros [|y c]; simpl; try discriminate; auto.
  intros [= -> Happ] [= Hlen]. destruct (IH _ Happ Hlen) as [-> ->]. auto.
Qed.

(** A row of the merge result that extends a row of the working table comes
    from a match of that very row. *)
Lemma merged_row_inv (left right res : DataFrame geometry) on o e :
  well_formed left ->
  merge left right on = Ok res ->
  In o (rows left) -> In (o ++ e) (rows res) ->
  exists m, In m (rows right) /\ cell (columns right) on m = cell (columns left) on o
            /\ e = drop_label on (columns right) m.
Proof.
  intros Hwf Hm Ho Hin. rewrite (merge_Ok_inv _ _ _ _ Hm) in Hin.
  apply in_flat_map in Hin as (l & Hl & Hin).
  apply in_map_iff in Hin as (m & Heq & Hmm).
  apply In_matches in Hmm as [Hmr Hk].
  unfold well_formed in Hwf. rewrite Forall_forall in Hwf.
  symmetry in Heq. apply app_same_length_inv in Heq as [-> ->].
  - eauto.
  - rewrite (Hwf _ Ho), (Hwf _ Hl). reflexivity.
Qed.

(** ** The Identifier Propagator: resolution and merge *)

Lemma has_column_In (df : DataFrame geometry) c : has_column df c = true <-> In c (columns df).
Proof. unfold has_column. apply bool_decide_eq_true. Qed.

Lemma tie_break_inv (R : Runtime geometry) (sdf t : DataFrame geometry) :
  tie_break R sdf = Ok t ->
  In "Join_Count" (columns sdf) /\ In "temp_id" (columns sdf) /\
  t = mkDataFrame (columns sdf)
        (keep_first (cell (columns sdf) "temp_id") []
           (argsort_desc R (fun r => sort_key (cell (columns sdf) "Join_Count" r))
              (rows sdf))).
Proof.
  unfold tie_break, sort_values_desc, drop_duplicates, has_column.
  case_bool_decide as Hj; [|discriminate]. simpl.
  case_bool_decide as Ht; [|discriminate].
  intros [= <-]. auto.
Qed.

Lemma resolve_and_merge_Ok_inv (R : Runtime geometry) (sdf orig res : DataFrame geometry)
    fld out link w w' :
  resolve_and_merge R sdf orig fld out link w = (Ok res, w') ->
  w' = w /\
  exists t right,
    tie_break R sdf = Ok t /\ In fld (columns t) /\
    select [link; out] (rename fld out t) = Ok right /\
    resolved_mapping R sdf fld out link = Ok right /\
    merge orig right link = Ok res.
Proof.
  unfold resolve_and_merge, resolved_mapping, bind, lift.
  destruct (tie_break R sdf) as [t|e]; [|discriminate].
  destruct (has_column t fld) eqn:Hf; simpl; [|discriminate].
  destruct (has_column (rename fld out t) out) eqn:Ho; simpl; [|discriminate].
  destruct (select [link; out] (rename fld out t)) as [right|e] eqn:Hs; [|discriminate].
  intros Hm. injection Hm as Hm <-. split; [reflexivity|].
  exists t, right. apply has_column_In in Hf. auto.
Qed.

(** The merge onto the working table is an inner join: a row of the working
    table is carried into the result exactly when its join key occurs in
    the resolved mapping. *)
Lemma resolve_and_merge_keeps_matched_rows (R : Runtime geometry)
    (sdf orig res : DataFrame geometry) fld out link w w' :
  well_formed orig ->
  resolve_and_merge R sdf orig fld out link w = (Ok res, w') ->
  exists right,
    resolved_mapping R sdf fld out link = Ok right /\
    forall o, In o (rows orig) ->
      ((exists e, In (o ++ e) (rows res)) <->
       (exists m, In m (rows right) /\
                  cell (columns right) link m = cell (columns orig) link o)).
Proof.
  intros Hwf Hrun.
  apply resolve_and_merge_Ok_inv in Hrun as (_ & t & right & _ & _ & _ & Hmap & Hm).
  exists right. split; [exact Hmap|]. intros o Ho. split.
  - intros (e & Hin).
    destruct (merged_row_inv _ _ _ _ _ _ Hwf Hm Ho Hin) as (m & Hmr & Hk & _). eauto.
  - intros (m & Hmr & Hk). exists (drop_label link (columns right) m).
    rewrite (merge_Ok_inv _ _ _ _ Hm). apply in_flat_map. exists o. split; [exact Ho|].
    apply in_map_iff. exists m. split; [reflexivity|]. apply In_matches. auto.
Qed.

(** The join keys of the resolved mapping are those of the rows that
    survive the tie-break. *)
Lemma resolved_mapping_keys (R : Runtime geometry) (sdf t right : DataFrame geometry)
    fld out link :
  link <> fld -> link <> out ->
  tie_break R sdf = Ok t ->
  select [link; out] (rename fld out t) = Ok right ->
  map (cell (columns right) link) (rows right) = map (cell (columns sdf) link) (rows t).
Proof.
  intros Hlf Hlo Ht Hs.
  apply select_pair_inv in Hs as (Hl & _ & ->). cbn [columns rows].
  change (rows (rename fld out t)) with (rows t).
  rewrite map_map. apply map_ext. intros r.
  rewrite (cell_select_first (rename fld out t) link [out] r Hl).
  rewrite cell_rename by assumption.
  apply tie_break_inv in Ht as (_ & _ & ->). reflexivity.
Qed.

(** After the tie-break no temporary key is duplicated; when the join key
    identifies the row of the target layer, the merged table has at most one
    identifier per row of the working table. *)
Lemma resolve_and_merge_one_identifier (R : Runtime geometry)
    (sdf orig res : DataFrame geometry) fld out link w w' :
  lawful_sort (argsort_desc R) ->
  link <> fld -> link <> out ->
  well_formed orig ->
  (forall r1 r2, In r1 (rows sdf) -> In r2 (rows sdf) ->
     cell (columns sdf) link r1 = cell (columns sdf) link r2 ->
     cell (columns sdf) "temp_id" r1 = cell (columns sdf) "temp_id" r2) ->
  resolve_and_merge R sdf orig fld out link w = (Ok res, w') ->
  (exists t, tie_break R sdf = Ok t /\
             NoDup (map (cell (columns sdf) "temp_id") (rows t))) /\
  (List.length (rows res) <= List.length (rows orig))%nat /\
  forall o e1 e2, In o (rows orig) ->
    In (o ++ e1) (rows res) -> In (o ++ e2) (rows res) -> e1 = e2.
Proof.
  intros Hlaw Hlf Hlo Hwf Hkey Hrun.
  apply resolve_and_merge_Ok_inv in Hrun as (_ & t & right & Ht & _ & Hs & _ & Hm).
  pose proof (tie_break_inv _ _ _ Ht) as (Hj & Hti & Et).
  assert (Hnd : NoDup (map (cell (columns sdf) "temp_id") (rows t))).
  { rewrite Et. simpl. apply keep_first_NoDup. }
  assert (Hsub : forall r, In r (rows t) -> In r (rows sdf)).
  { intros r Hr. rewrite Et in Hr. simpl in Hr. apply keep_first_In in Hr as [Hr _].
    eapply Permutation_in; [apply Hlaw|exact Hr]. }
  assert (Hndk : NoDup (map (cell (columns right) link) (rows right))).
  { rewrite (resolved_mapping_keys R sdf t right fld out link) by assumption.
    eapply NoDup_map_coarser; [exact Hnd|]. intros x y Hx Hy. apply Hkey; auto. }
  split; [eauto|]. split.
  - rewrite (merge_Ok_inv _ _ _ _ Hm). apply flat_map_length_le. intros l _.
    rewrite length_map. now apply matches_at_most_one.
  - intros o e1 e2 Ho H1 H2.
    destruct (merged_row_inv _ _ _ _ _ _ Hwf Hm Ho H1) as (m1 & Hm1 & Hk1 & ->).
    destruct (merged_row_inv _ _ _ _ _ _ Hwf Hm Ho H2) as (m2 & Hm2 & Hk2 & ->).
    f_equal. eapply NoDup_map_unique; [exact Hndk| | |]; congruence.
Qed.

(** C3, amended.  The merge of [add_site_id] onto the working table is an
    inner join: a row of the working table is carried into the result
    (extended by the identifier) exactly when its join key occurs in the
    resolved mapping; a row whose key has no match there is dropped. *)
Theorem add_site_id_keeps_exactly_the_matched_rows (R : Runtime geometry)
    target_lyr site_lyr non_ess_fields bldp_lyr (orig_sdf sdf res : DataFrame geometry)
    fld_nme out_fld_nme scratch_gdb_path scratch_fc_nme link_fld w w1 w' :
  overlay_table R target_lyr site_lyr non_ess_fields bldp_lyr fld_nme out_fld_nme
    scratch_gdb_path scratch_fc_nme w = (Ok sdf, w1) ->
  well_formed orig_sdf ->
  add_site_id R target_lyr site_lyr non_ess_fields bldp_lyr orig_sdf fld_nme out_fld_nme
    scratch_gdb_path scratch_fc_nme link_fld w = (Ok res, w') ->
  exists right,
    resolved_mapping R sdf fld_nme out_fld_nme link_fld = Ok right /\
    forall o, In o (rows orig_sdf) ->
      ((exists e, In (o ++ e) (rows res)) <->
       (exists m, In m (rows right) /\
                  cell (columns right) link_fld m = cell (columns orig_sdf) link_fld o)).
Proof.
  intros Hov Hwf Hrun. unfold add_site_id in Hrun. rewrite (bind_Ok _ _ _ _ _ Hov) in Hrun.
  exact (resolve_and_merge_keeps_matched_rows R sdf orig_sdf res _ _ _ _ _ Hwf Hrun).
Qed.

(** C2, amended.  After the tie-break of [add_site_id] no temporary key is
    duplicated, for either identifier type.  When, in addition, overlay rows
    with the same join key always carry the same temporary key (the join
    key identifies the row of the target layer), the returned table has at
    most one identifier per row of the working table and is no longer than
    it. *)
Theorem add_site_id_one_identifier_when_join_key_identifies_row (R : Runtime geometry)
    target_lyr site_lyr non_ess_fields bldp_lyr (orig_sdf sdf res : DataFrame geometry)
    fld_nme out_fld_nme scratch_gdb_path scratch_fc_nme link_fld w w1 w' :
  lawful_sort (argsort_desc R) ->
  link_fld <> fld_nme -> link_fld <> out_fld_nme ->
  overlay_table R target_lyr site_lyr non_ess_fields bldp_lyr fld_nme out_fld_nme
    scratch_gdb_path scratch_fc_nme w = (Ok sdf, w1) ->
  well_formed orig_sdf ->
  (forall r1 r2, In r1 (rows sdf) -> In r2 (rows sdf) ->
     cell (columns sdf) link_fld r1 = cell (columns sdf) link_fld r2 ->
     cell (columns sdf) "temp_id" r1 = cell (columns sdf) "temp_id" r2) ->
  add_site_id R target_lyr site_lyr non_ess_fields bldp_lyr orig_sdf fld_nme out_fld_nme
    scratch_gdb_path scratch_fc_nme link_fld w = (Ok res, w') ->
  (exists t, tie_break R sdf = Ok t /\
             NoDup (map (cell (columns sdf) "temp_id") (rows t))) /\
  (List.length (rows res) <= List.length (rows orig_sdf))%nat /\
  forall o e1 e2, In o (rows orig_sdf) ->
    In (o ++ e1) (rows res) -> In (o ++ e2) (rows res) -> e1 = e2.
Proof.
  intros Hlaw Hlf Hlo Hov Hwf Hkey Hrun.
  unfold add_site_id in Hrun. rewrite (bind_Ok _ _ _ _ _ Hov) in Hrun.
  exact (resolve_and_merge_one_identifier R sdf orig_sdf res _ _ _ _ _ Hlaw Hlf Hlo Hwf Hkey Hrun).
Qed.

(** C5.  When the table read back from the overlay has its point count and
    temporary key but not the identifier field, [add_site_id] logs the
    field's name and the table's columns and ends in [SystemExit]: the
    rename, the column selection and the merge are not reached, and nothing
    but the two log entries changes. *)
Theorem add_site_id_exits_when_identifier_field_absent (R : Runtime geometry)
    target_lyr site_lyr non_ess_fields bldp_lyr (orig_sdf sdf : DataFrame geometry)
    fld_nme out_fld_nme scratch_gdb_path scratch_fc_nme link_fld w w1 :
  overlay_table R target_lyr site_lyr non_ess_fields bldp_lyr fld_nme out_fld_nme
    scratch_gdb_path scratch_fc_nme w = (Ok sdf, w1) ->
  In "Join_Count" (columns sdf) -> In "temp_id" (columns sdf) ->
  ~ In fld_nme (columns sdf) ->
  add_site_id R target_lyr site_lyr non_ess_fields bldp_lyr orig_sdf fld_nme out_fld_nme
    scratch_gdb_path scratch_fc_nme link_fld w
  = (Raise SystemExit,
     mkWorld (gdbs w1) (fcs w1) (layers w1)
       (log w1 ++ [Info (fld_nme ++ " not in the output dataframe error");
                   InfoColumns (columns sdf)])).
Proof.
  intros Hov Hj Ht Hf. unfold add_site_id. rewrite (bind_Ok _ _ _ _ _ Hov).
  unfold resolve_and_merge, bind, lift. rewrite tie_break_Ok by assumption.
  rewrite has_column_false by (simpl; exact Hf). simpl.
  rewrite <- app_assoc. reflexivity.
Qed.

(** ** The Gap Filler *)

Lemma path_join_inj s a b : path_join s a = path_join s b -> a = b.
Proof.
  unfold path_join. induction s as [|c s IH]; simpl.
  - intros Heq. now injection Heq.
  - intros Heq. injection Heq as Heq. now apply IH.
Qed.

Lemma centroids_name_not_ap n : "ia_centroids" <> (n ++ "_ap")%string.
Proof.
  intros Heq.
  repeat (destruct n as [|? n]; simpl in Heq; [discriminate|injection Heq as _ Heq]).
  destruct n; discriminate.
Qed.

Lemma centroids_path_not_copy s n :
  path_join s "ia_centroids" <> path_join s (n ++ "_ap").
Proof. intros Heq. apply path_join_inj in Heq. now apply centroids_name_not_ap in Heq. Qed.

Lemma step_1_no_gap (R : Runtime geometry) self w polys points :
  ready_for_step_1 self w polys points ->
  polygons_without_points R polys points = [] ->
  step_1 R self w = (Ok self, after_selection R self w polys points).
Proof.
  intros (Hia & Hbl & Lia & Lbl & Fia & Fbl) Hg.
  unfold step_1, SelectLayerByLocation, SelectLayerByAttribute_switch, GetCount,
    layer_features, read_layer, read_fc, bind, ret, logger_info, set_layers.
  rewrite Hia. simpl. rewrite Lia. simpl. rewrite Fia, Lbl. simpl. rewrite Fbl. simpl.
  rewrite lookup_insert_eq. simpl. rewrite Fia. simpl.
  rewrite lookup_insert_eq. simpl. rewrite Fia. simpl.
  rewrite map_map, masked_map_filter.
  unfold after_selection.
  change (filter _ (fc_features polys)) with (polygons_without_points R polys points).
  rewrite Hg. simpl. rewrite map_map. reflexivity.
Qed.

Lemma step_1_gaps (R : Runtime geometry) self w polys points :
  ready_for_step_1 self w polys points ->
  polygons_without_points R polys points <> [] ->
  let cpath := path_join (scratch_gdb self) "ia_centroids" in
  let nme' := (bld_p_nme self ++ "_ap")%string in
  let newpath := path_join (scratch_gdb self) nme' in
  cpath <> bld_p_pth self ->
  let w1 := after_selection R self w polys points in
  step_1 R self w =
  (Ok (set_bld_p nme' newpath "bld_p" self),
   mkWorld (gdbs w)
     (<[newpath := mkFC (fc_fields points)
                     (fc_features points
                      ++ map (synthesized_point R polys points)
                             (polygons_without_points R polys points))]>
        (<[newpath := mkFC (fc_fields points) (fc_features points)]>
           (<[cpath := mkFC (fc_fields polys)
                         (map (fun f => mkFeature (attrs f) (inside_point R (shape f)))
                              (polygons_without_points R polys points))]> (fcs w))))
     (<["bld_p" := mkLayer newpath None]> (layers w1))
     (log w1)).
Proof.
  intros (Hia & Hbl & Lia & Lbl & Fia & Fbl) Hg cpath nme' newpath Hc1 w1.
  assert (Hc2 : cpath <> newpath) by apply centroids_path_not_copy.
  unfold step_1, SelectLayerByLocation, SelectLayerByAttribute_switch, GetCount,
    layer_features, read_layer, read_fc, bind, ret, logger_info, set_layers.
  rewrite Hia. simpl. rewrite Lia. simpl. rewrite Fia, Lbl. simpl. rewrite Fbl. simpl.
  rewrite lookup_insert_eq. simpl. rewrite Fia. simpl.
  rewrite lookup_insert_eq. simpl. rewrite Fia. simpl.
  rewrite map_map, masked_map_filter.
  change (filter _ (fc_features polys)) with (polygons_without_points R polys points).
  destruct (polygons_without_points R polys points) as [|g gs] eqn:Eg; [congruence|].
  replace (0 <? Z.of_nat (List.length (g :: gs))) with true
    by (symmetry; apply Z.ltb_lt; simpl; lia).
  unfold FeatureToPoint, ExportFeatures, Append, MakeFeatureLayer, layer_features,
    read_layer, read_fc, write_fc, bind, ret, set_fcs, set_layers.
  simpl. rewrite lookup_insert_eq. simpl. rewrite Fia. simpl.
  rewrite Hbl.
  rewrite lookup_insert_ne by discriminate. rewrite lookup_insert_ne by discriminate.
  rewrite Lbl. simpl.
  fold cpath. fold nme'. fold newpath.
  rewrite (lookup_insert_ne _ cpath (bld_p_pth self)) by exact Hc1.
  rewrite Fbl. simpl.
  rewrite (lookup_insert_ne _ newpath cpath) by congruence.
  rewrite lookup_insert_eq. simpl.
  rewrite lookup_insert_eq. simpl.
  rewrite lookup_insert_eq. simpl.
  rewrite map_map, masked_map_filter.
  change (filter _ (fc_features polys)) with (polygons_without_points R polys points).
  rewrite Eg.
  unfold w1, after_selection. simpl. rewrite ?map_map. reflexivity.
Qed.

(** C6.  When [step_1] starts from the two fresh layers, and the scratch
    class of the centroids is not the point class itself, it returns with
    the point layer reading a class that holds the original points followed
    by one synthesized point per polygon that intersects no point: the count
    grows by exactly the number of such polygons, and each synthesized point
    is the interior point ("INSIDE") of its own polygon, so it has whatever
    relation [inside] the engine guarantees between that point and the
    polygon. *)
Theorem step_1_adds_one_interior_point_per_empty_polygon (R : Runtime geometry)
    (inside : geometry -> geometry -> Prop) self w polys points :
  (forall g, inside (inside_point R g) g) ->
  ready_for_step_1 self w polys points ->
  path_join (scratch_gdb self) "ia_centroids" <> bld_p_pth self ->
  let gaps := polygons_without_points R polys points in
  exists self' w' bld',
    step_1 R self w = (Ok self', w') /\
    layers w' !! bld_p_flyr self' = Some (mkLayer (bld_p_pth self') None) /\
    fcs w' !! bld_p_pth self' = Some bld' /\
    fc_features bld' = fc_features points ++ map (synthesized_point R polys points) gaps /\
    List.length (fc_features bld') = (List.length (fc_features points) + List.length gaps)%nat /\
    forall f, In f gaps ->
      In f (fc_features polys) /\
      existsb (fun p => intersects R (shape f) (shape p)) (fc_features points) = false /\
      shape (synthesized_point R polys points f) = inside_point R (shape f) /\
      inside (shape (synthesized_point R polys points f)) (shape f).
Proof.
  intros Hin Hready Hc gaps.
  assert (Hg : forall f, In f gaps ->
      In f (fc_features polys) /\
      existsb (fun p => intersects R (shape f) (shape p)) (fc_features points) = false /\
      shape (synthesized_point R polys points f) = inside_point R (shape f) /\
      inside (shape (synthesized_point R polys points f)) (shape f)).
  { intros f Hf. unfold gaps, polygons_without_points in Hf.
    apply filter_In in Hf as [Hf Hn]. apply negb_true_iff in Hn.
    repeat split; auto. simpl. apply Hin. }
  destruct gaps as [|g gs] eqn:Eg.
  - exists self, (after_selection R self w polys points), points.
    rewrite (step_1_no_gap R self w polys points Hready Eg).
    destruct Hready as (Hia & Hbl & Lia & Lbl & Fia & Fbl).
    split; [reflexivity|]. rewrite Hbl. simpl.
    rewrite !lookup_insert_ne by discriminate.
    rewrite app_nil_r. repeat split; auto; try (simpl in *; tauto).
  - assert (Hne : polygons_without_points R polys points <> []) by (fold gaps; congruence).
    eexists _, _, _. rewrite (step_1_gaps R self w polys points Hready Hne Hc).
    split; [reflexivity|]. simpl.
    rewrite !lookup_insert_eq. fold gaps. rewrite Eg.
    split; [reflexivity|]. split; [reflexivity|]. split; [reflexivity|].
    split; [|exact Hg]. cbn [fc_features]. rewrite length_app, length_map. reflexivity.
Qed.

(** C7.  Under the same conditions, and when the exported copy is not
    written over the point class either, [step_1] leaves the original
    point class as it was; the class the point layer reads afterwards has
    the original points, unchanged and in order, before anything appended;
    when points were appended that class is a copy at another path; and
    when no polygon lacks a point the object, the feature classes and the
    point layer are all left untouched. *)
Theorem step_1_preserves_existing_points (R : Runtime geometry) self w polys points :
  ready_for_step_1 self w polys points ->
  path_join (scratch_gdb self) "ia_centroids" <> bld_p_pth self ->
  path_join (scratch_gdb self) (bld_p_nme self ++ "_ap") <> bld_p_pth self ->
  let gaps := polygons_without_points R polys points in
  exists self' w' bld',
    step_1 R self w = (Ok self', w') /\
    fcs w' !! bld_p_pth self = Some points /\
    fcs w' !! bld_p_pth self' = Some bld' /\
    fc_fields bld' = fc_fields points /\
    (exists added, fc_features bld' = fc_features points ++ added) /\
    (gaps <> [] -> bld_p_pth self' <> bld_p_pth self) /\
    (gaps = [] ->
       self' = self /\ fcs w' = fcs w /\ layers w' !! "bld_p" = layers w !! "bld_p").
Proof.
  intros Hready Hc Hn gaps.
  destruct gaps as [|g gs] eqn:Eg.
  - exists self, (after_selection R self w polys points), points.
    rewrite (step_1_no_gap R self w polys points Hready Eg).
    destruct Hready as (Hia & Hbl & Lia & Lbl & Fia & Fbl).
    split; [reflexivity|]. simpl. rewrite !lookup_insert_ne by discriminate.
    repeat split; auto; try congruence.
    exists []. now rewrite app_nil_r.
  - assert (Hne : polygons_without_points R polys points <> []) by (fold gaps; congruence).
    eexists _, _, _. rewrite (step_1_gaps R self w polys points Hready Hne Hc).
    destruct Hready as (Hia & Hbl & Lia & Lbl & Fia & Fbl).
    split; [reflexivity|]. simpl.
    rewrite !(lookup_insert_ne _ _ (bld_p_pth self)) by assumption.
    rewrite lookup_insert_eq.
    repeat split; auto; try congruence. eauto.
Qed.

(** ** Join & Materialize under the module's global names *)

Lemma scratch_gdb_unbound name :
  name <> "__main__" -> data_prepper_globals name !! "scratch_gdb" = None.
Proof.
  intros Hn. unfold data_prepper_globals.
  rewrite bool_decide_eq_false_2 by exact Hn. vm_compute. reflexivity.
Qed.

Lemma scratch_gdb_bound_in_main :
  data_prepper_globals "__main__" !! "scratch_gdb"
  = Some (PyStr "C:\proximity_analysis\data\Proximity_ON\scratch.gdb").
Proof. vm_compute. reflexivity. Qed.

Lemma step_4_imported (R : Runtime geometry) name self w :
  name <> "__main__" ->
  exists e, step_4 R (data_prepper_globals name) self w = (Raise e, w).
Proof.
  intros Hn. unfold step_4, from_featureclass, read_fc, lift, load_global, ret, raise, bind.
  rewrite (scratch_gdb_unbound name Hn).
  destruct (fcs w !! bld_p_pth self); [|eauto].
  destruct (select _ _); [|eauto].
  match goal with |- context [drop_columns ?c ?d] => destruct (drop_columns c d) end; eauto.
Qed.

Lemma bind_never_Ok_r {A B : Type} (c : M geometry A) (k : A -> M geometry B) w :
  (forall a w1, exists e, fst (k a w1) = Raise e) -> exists e, fst (bind c k w) = Raise e.
Proof.
  intros Hk. unfold bind. destruct (c w) as [[a|e] w1]; [apply Hk|simpl; eauto].
Qed.

Lemma bind_never_Ok_l {A B : Type} (c : M geometry A) (k : A -> M geometry B) w :
  (exists e w1, c w = (Raise e, w1)) -> exists e, fst (bind c k w) = Raise e.
Proof.
  intros (e & w1 & Hc). unfold bind. rewrite Hc. simpl. eauto.
Qed.

Lemma run_steps_imported (R : Runtime geometry) name self w :
  name <> "__main__" ->
  exists e, fst (run_steps R (data_prepper_globals name) self w) = Raise e.
Proof.
  intros Hn. unfold run_steps.
  do 7 (apply bind_never_Ok_r; intros ? ?).
  apply bind_never_Ok_l.
  match goal with |- context [step_4 R ?g ?s ?w] =>
    destruct (step_4_imported R name s w Hn) as [e He] end.
  eauto.
Qed.

(** C4.  When the module is imported (its name is not "__main__") the
    name scratch_gdb is not among its globals.  Then [step_4] always ends
    in an exception and leaves the world as it found it, so no output class
    is written; when the statements before the persist succeed (the point
    class is read, the columns are selected, the join result has the column
    index_right) that exception is the NameError for scratch_gdb; and
    no construction of [PrepareData] completes. *)
Theorem step_4_never_persists_when_imported (R : Runtime geometry) name :
  name <> "__main__" ->
  data_prepper_globals name !! "scratch_gdb" = None /\
  (forall self w,
     (exists e, step_4 R (data_prepper_globals name) self w = (Raise e, w)) /\
     (forall bld right joined,
        fcs w !! bld_p_pth self = Some bld ->
        select [adv_sid_fld_nme self; pd_sid_fld_nme self; "SHAPE"] (indig_sdf self)
        = Ok right ->
        drop_columns "index_right"
          (spatial_join R (to_frame bld) right (spatial_relationship self)) = Ok joined ->
        step_4 R (data_prepper_globals name) self w
        = (Raise (NameError "scratch_gdb"), w))) /\
  (forall default_gdb scratch_gdb site_a_path adv_pd_path site_p_path ia_a_nme bld_p_nme
          out_fc_nme sr w,
     exists e,
       fst (PrepareData_init R (data_prepper_globals name) default_gdb scratch_gdb
              site_a_path adv_pd_path site_p_path ia_a_nme bld_p_nme out_fc_nme sr w)
       = Raise e).
Proof.
  intros Hn. split; [now apply scratch_gdb_unbound|]. split.
  - intros self w. split; [now apply step_4_imported|].
    intros bld right joined Hb Hs Hd.
    unfold step_4, from_featureclass, read_fc, lift, load_global, ret, raise, bind.
    rewrite (scratch_gdb_unbound name Hn), Hb, Hs, Hd. reflexivity.
  - intros. unfold PrepareData_init. apply bind_never_Ok_r.
    intros self w1. now apply run_steps_imported.
Qed.

(** ** The field lists of the constructor *)


Lemma delete_fields_keeps (drop : list string) (fc : FeatureClass geometry) f :
  In f (fc_fields fc) -> ~ In f drop -> In f (fc_fields (delete_fields drop fc)).
Proof.
  intros Hf Hn. unfold delete_fields. simpl.
  apply filter_In. split; [exact Hf|]. now rewrite negb_true_iff, bool_decide_eq_false.
Qed.

Lemma logger_info_inv (e : log_entry geometry) (w w1 : World geometry) a :
  logger_info e w = (Ok a, w1) -> fcs w1 = fcs w /\ layers w1 = layers w.
Proof. unfold logger_info. intros [= _ <-]. auto. Qed.

Lemma Exists_inv p (w w1 : World geometry) b : Exists p w = (Ok b, w1) -> w1 = w.
Proof. unfold Exists. now intros [= _ <-]. Qed.

Lemma read_fc_inv p (w w1 : World geometry) fc :
  read_fc p w = (Ok fc, w1) -> w1 = w /\ fcs w !! p = Some fc.
Proof.
  unfold read_fc. destruct (fcs w !! p); [|discriminate]. now intros [= <- <-].
Qed.

Lemma is_valid_inv a b c d e i o r (w w1 : World geometry) u :
  is_valid a b c d e i o r w = (Ok u, w1) -> w1 = w.
Proof.
  unfold is_valid, bind, Exists, raise, ret. simpl.
  repeat match goal with
         | |- context [negb ?x] => destruct x; simpl; try discriminate
         end.
  now intros [= <-].
Qed.

Lemma ListFields_inv p (w w1 : World geometry) names :
  ListFields p w = (Ok names, w1) ->
  w1 = w /\ exists fc, fcs w !! p = Some fc /\ names = field_names fc.
Proof.
  unfold ListFields. intros Hrun. apply bind_Ok_inv in Hrun as (fc & w2 & Hr & Hret).
  apply read_fc_inv in Hr as [-> Hfc]. unfold ret in Hret. injection Hret as <- <-. eauto.
Qed.

Lemma from_featureclass_inv p (w w1 : World geometry) df :
  from_featureclass p w = (Ok df, w1) ->
  w1 = w /\ exists fc, fcs w !! p = Some fc /\ df = to_frame fc.
Proof.
  unfold from_featureclass. intros Hrun.
  apply bind_Ok_inv in Hrun as (fc & w2 & Hr & Hret).
  apply read_fc_inv in Hr as [-> Hfc]. unfold ret in Hret. injection Hret as <- <-. eauto.
Qed.

Lemma scratch_workspace_step_fcs p (b : bool) (w w1 : World geometry) u :
  (if negb b then bind (logger_info (Info "Creating scratch gdb"))
                       (fun _ => CreateFileGDB p)
   else ret tt) w = (Ok u, w1) ->
  fcs w1 = fcs w.
Proof.
  destruct b; simpl.
  - unfold ret. now intros [= _ <-].
  - unfold bind, logger_info, CreateFileGDB. simpl. now intros [= _ <-].
Qed.


Lemma MakeFeatureLayer_inv p name (w w1 : World geometry) l :
  MakeFeatureLayer p name w = (Ok l, w1) ->
  l = name /\ fcs w1 = fcs w /\ layers w1 = <[name := mkLayer p None]> (layers w) /\
  is_Some (fcs w !! p).
Proof.
  unfold MakeFeatureLayer. intros Hrun.
  apply bind_Ok_inv in Hrun as (fc & w2 & Hr & Hret).
  apply read_fc_inv in Hr as [-> Hfc]. injection Hret as <- <-.
  rewrite Hfc. simpl. eauto.
Qed.

(** The constructor's set-up leaves the state that [step_1] is proved
    from: the two layers are fresh and read the community class and the
    point class of the default workspace. *)
Lemma PrepareData_setup_ready
    dflt scr site_a_path adv_pd_path site_p_path ia_nme bld_nme out_nme wkid
    (w w' : World geometry) (self : PrepareData geometry) :
  PrepareData_setup dflt scr site_a_path adv_pd_path site_p_path ia_nme bld_nme out_nme
    wkid w = (Ok self, w') ->
  exists polys points,
    fcs w !! path_join dflt ia_nme = Some polys /\
    fcs w !! path_join dflt bld_nme = Some points /\
    bld_p_pth self = path_join dflt bld_nme /\
    scratch_gdb self = scr /\ bld_p_nme self = bld_nme /\
    ready_for_step_1 self w' polys points.
Proof.
  unfold PrepareData_setup. intros Hrun.
  apply bind_Ok_inv in Hrun as (u1 & w1 & H1 & Hrun).
  apply bind_Ok_inv in Hrun as (u2 & w2 & H2 & Hrun).
  apply bind_Ok_inv in Hrun as (u3 & w3 & H3 & Hrun).
  apply bind_Ok_inv in Hrun as (ex & w4 & H4 & Hrun).
  apply bind_Ok_inv in Hrun as (u5 & w5 & H5 & Hrun).
  apply bind_Ok_inv in Hrun as (df & w6 & H6 & Hrun).
  apply bind_Ok_inv in Hrun as (n1 & w7 & H7 & Hrun).
  apply bind_Ok_inv in Hrun as (n2 & w8 & H8 & Hrun).
  apply bind_Ok_inv in Hrun as (l1 & w9 & H9 & Hrun).
  apply bind_Ok_inv in Hrun as (l2 & w10 & H10 & Hrun).
  unfold ret in Hrun. injection Hrun as <- <-.
  apply logger_info_inv in H1 as [F1 _]. apply logger_info_inv in H2 as [F2 _].
  apply is_valid_inv in H3 as ->. apply Exists_inv in H4 as ->.
  apply scratch_workspace_step_fcs in H5 as F5.
  apply from_featureclass_inv in H6 as (-> & _).
  apply ListFields_inv in H7 as (-> & _). apply ListFields_inv in H8 as (-> & _).
  apply MakeFeatureLayer_inv in H9 as (-> & F9 & L9 & [polys Hp]).
  apply MakeFeatureLayer_inv in H10 as (-> & F10 & L10 & [points Hq]).
  assert (Hall : fcs w5 = fcs w) by congruence.
  exists polys, points. unfold ready_for_step_1. simpl.
  rewrite L10, L9, F10, F9.
  rewrite lookup_insert_ne by discriminate. rewrite !lookup_insert_eq.
  rewrite <- Hall. rewrite F9 in Hq. repeat split; assumption || reflexivity.
Qed.


(** ** The stale fields of a scratch class *)

Lemma bind_preserves {A B : Type} (P : World geometry -> Prop)
    (c : M geometry A) (k : A -> M geometry B) w :
  (forall w0, P w0 -> P (snd (c w0))) ->
  (forall a w0, P w0 -> P (snd (k a w0))) ->
  P w -> P (snd (bind c k w)).
Proof.
  intros Hc Hk Hw. unfold bind. specialize (Hc w Hw).
  destruct (c w) as [[a|e] w1]; simpl in *; auto.
Qed.

Lemma DeleteField_still_has (R : Runtime geometry) p f drop w :
  ~ In f drop -> still_has p f w -> still_has p f (snd (DeleteField R p drop w)).
Proof.
  intros Hn (fc & Hfc & Hf).
  unfold DeleteField, bind, read_fc, write_fc, raise, set_fcs. rewrite Hfc.
  destruct (delete_missing_fails R && _); simpl.
  - exists fc. auto.
  - exists (delete_fields drop fc). simpl. rewrite lookup_insert_eq.
    split; [reflexivity|]. now apply delete_fields_keeps.
Qed.

(** X17.  Whatever the scratch class holds and however DeleteField treats
    a missing field, the pass over the stale fields (lines 80-85) never
    removes a field other than [fld_nme]: a stale output field survives it,
    whether the pass returns or raises. *)
Lemma delete_stale_still_has (R : Runtime geometry) p fld f flds w :
  f <> fld -> still_has p f w -> still_has p f (snd (delete_stale R p fld flds w)).
Proof.
  intros Hne. revert w. induction flds as [|x t IH]; intros w Hw; simpl; [exact Hw|].
  apply bind_preserves; [| |exact Hw].
  - intros w0 (fc & Hfc & Hf). unfold ListFields, bind, read_fc, ret. rewrite Hfc. simpl.
    exists fc. auto.
  - intros names w0 Hw0. apply bind_preserves; [| |exact Hw0].
    + intros w1 Hw1. case_bool_decide; [|exact Hw1].
      apply bind_preserves; [| |exact Hw1].
      * intros w2 (fc & Hfc & Hf). exists fc. auto.
      * intros _ w2 Hw2. apply DeleteField_still_has; [|exact Hw2].
        simpl. intros [E|[]]. congruence.
    + intros _ w1 Hw1. now apply IH.
Qed.

(** * Further properties of the pipeline *)

(** ** Validation *)

Lemma Exists_run p (w : World geometry) : Exists p w = (Ok (path_exists w p), w).
Proof. reflexivity. Qed.

Lemma is_valid_run dflt scr site_a site_p adv ia out wkid (w : World geometry) :
  is_valid dflt scr site_a site_p adv ia out wkid w =
  (if negb (path_exists w dflt) then
     Raise (PyException "Parameter default_gdb: Does not exist and should exist before processing begins")
   else if negb (path_exists w site_a) then
     Raise (PyException "Parameter site_a_path: Must be a valid link to the data and must exist before processing begins.")
   else if negb (path_exists w site_p) then
     Raise (PyException "Parameter site_p_path: Must be a valid link to the data and must exist before processing begins.")
   else if negb (path_exists w adv) then
     Raise (PyException "Parameter adv_pd_path: Must be a valid link to the data and must exist before processing begins.")
   else if negb (isinstance_str ia) then
     Raise (PyException "Parameter ia_a_nme: Must be of type string.")
   else if negb (isinstance_str scr) then
     Raise (PyException (" Parameter 'scratch_gdb' is of type " ++ type_repr scr
                         ++ ". This parameter must be a string."))
   else if negb (isinstance_str out) then
     Raise (PyException "Parameter out_fc_nme: Must be of type string.")
   else if negb (isinstance_int wkid) then
     Raise (PyException ("Parameter sr: Must be an integer matching a projections WKID. Is currently type: "
                         ++ type_repr wkid))
   else Ok tt, w).
Proof.
  unfold is_valid, bind, Exists, raise, ret, path_exists. cbn.
  repeat (destruct (_ || _); cbn; try reflexivity).
  repeat (destruct (isinstance_str _); cbn; try reflexivity).
  destruct (isinstance_int _); reflexivity.
Qed.

(** X1.  [is_valid] looks at the world and never changes it.  It returns
    normally exactly when the default workspace, the primary site layer,
    the site point layer and the advisory layer all exist, the community
    layer's name, the scratch path and the output name are strings, and
    [sr] is an integer (a boolean counts as one); the scratch path is not
    asked to exist.  The paths are checked first, in that order, so a
    missing default workspace is what is reported whatever else is wrong;
    the types are checked only once all four paths exist, the community
    layer's name first and [sr] last, and the message about [sr] names
    the class of the value. *)
Theorem is_valid_passes_exactly_when_the_paths_exist_and_the_types_fit
    dflt scr site_a site_p adv ia out wkid (w : World geometry) :
  snd (is_valid dflt scr site_a site_p adv ia out wkid w) = w /\
  (fst (is_valid dflt scr site_a site_p adv ia out wkid w) = Ok tt <->
   path_exists w dflt = true /\ path_exists w site_a = true /\
   path_exists w site_p = true /\ path_exists w adv = true /\
   isinstance_str ia = true /\ isinstance_str scr = true /\
   isinstance_str out = true /\ isinstance_int wkid = true) /\
  (path_exists w dflt = false ->
   fst (is_valid dflt scr site_a site_p adv ia out wkid w)
   = Raise (PyException "Parameter default_gdb: Does not exist and should exist before processing begins")) /\
  (path_exists w dflt = true /\ path_exists w site_a = true /\
   path_exists w site_p = true /\ path_exists w adv = true ->
   (isinstance_str ia = false ->
    fst (is_valid dflt scr site_a site_p adv ia out wkid w)
    = Raise (PyException "Parameter ia_a_nme: Must be of type string.")) /\
   (isinstance_str ia = true /\ isinstance_str scr = true /\ isinstance_str out = true /\
    isinstance_int wkid = false ->
    fst (is_valid dflt scr site_a site_p adv ia out wkid w)
    = Raise (PyException ("Parameter sr: Must be an integer matching a projections WKID. Is currently type: "
                          ++ type_repr wkid)))).
Proof.
  rewrite is_valid_run. cbn [fst snd].
  split; [reflexivity|]. split; [|split].
  - destruct (path_exists w dflt), (path_exists w site_a), (path_exists w site_p),
      (path_exists w adv), (isinstance_str ia), (isinstance_str scr),
      (isinstance_str out), (isinstance_int wkid); cbn [negb];
      (split; [try discriminate; intros _; repeat split
              |intros (? & ? & ? & ? & ? & ? & ? & ?); try discriminate; reflexivity]).
  - intros ->. reflexivity.
  - intros (-> & -> & -> & ->). cbn [negb]. split.
    + intros ->. reflexivity.
    + intros (-> & -> & -> & ->). reflexivity.
Qed.

Lemma same_store_refl (w : World geometry) : same_store w w.
Proof. repeat split. Qed.

Lemma lift_same_store {A : Type} (o : outcome A) (w w0 : World geometry) :
  same_store w w0 -> same_store w (snd (lift o w0)).
Proof. auto. Qed.

Lemma logger_info_same_store (e : log_entry geometry) (w w0 : World geometry) :
  same_store w w0 -> same_store w (snd (logger_info e w0)).
Proof. intros (? & ? & ?). repeat split; assumption. Qed.

Lemma from_featureclass_same_store p (w w0 : World geometry) :
  same_store w w0 -> same_store w (snd (from_featureclass p w0)).
Proof.
  intros Hs. unfold from_featureclass, bind, read_fc, ret.
  destruct (fcs w0 !! p); exact Hs.
Qed.

Ltac same_store_step w :=
  first [ apply (bind_preserves (same_store w));
          [ intros ? ?;
            first [ now apply lift_same_store
                  | now apply from_featureclass_same_store
                  | now apply logger_info_same_store
                  | idtac ]
          | intros ? ? ?
          | assumption || apply same_store_refl ]
        | now apply logger_info_same_store
        | assumption ].

(** X2.  Whatever the working table and the registry hold, and whether it
    returns or raises, [step_3] creates or changes no workspace, feature
    class or layer: the log is all it writes. *)
Theorem step_3_only_writes_the_log (self : PrepareData geometry) (w : World geometry) :
  same_store w (snd (step_3 self w)).
Proof.
  unfold step_3.
  do 7 same_store_step w.
  - destruct (_ <? _)%nat; [now apply logger_info_same_store|assumption].
  - destruct (_ <? _)%nat; [now apply logger_info_same_store|assumption].
Qed.

(** ** The report of [step_3] *)

Lemma py_in_spec (f : value geometry) l :
  py_in f l = true <-> f <> VNull /\ In f l.
Proof.
  unfold py_in. destruct f; rewrite ?bool_decide_eq_true;
    (split; [intros Hin; (split; [discriminate|exact Hin]) || discriminate
            |intros [Hn Hin]; exact Hin || congruence]).
Qed.

Lemma check_site_id_exists_filter (ids : list (value geometry)) (sdf : DataFrame geometry) fld :
  In fld (columns sdf) ->
  check_site_id_exists ids sdf fld
  = Ok (filter (fun f => negb (py_in f (map (cell (columns sdf) fld) (rows sdf)))) ids).
Proof.
  intros Hcol. induction ids as [|f t IH]; simpl; [reflexivity|].
  unfold column_tolist. rewrite has_column_true by assumption.
  rewrite IH. now destruct (py_in f _).
Qed.

Lemma check_site_id_exists_no_column (ids : list (value geometry)) (sdf : DataFrame geometry) fld :
  ~ In fld (columns sdf) ->
  check_site_id_exists ids sdf fld
  = match ids with [] => Ok [] | _ :: _ => Raise (KeyError fld) end.
Proof.
  intros Hcol. destruct ids as [|f t]; simpl; [reflexivity|].
  unfold column_tolist. rewrite has_column_false by assumption. reflexivity.
Qed.

Lemma missing_spec (registry ids : list (value geometry)) x :
  In x (filter (fun f => negb (py_in f registry)) ids)
  <-> In x ids /\ (x = VNull \/ ~ In x registry).
Proof.
  rewrite filter_In, negb_true_iff. split; intros [Hin Hx]; (split; [exact Hin|]).
  - destruct (decide (x = VNull)) as [->|Hn]; [now left|]. right. intros Hr.
    assert (py_in x registry = true) by (apply py_in_spec; auto). congruence.
  - destruct (py_in x registry) eqn:E; [|reflexivity].
    apply py_in_spec in E as [Hn Hr]. destruct Hx; contradiction.
Qed.

(** X3.  When the working table has both identifier columns and the
    registry class has the field SITE_ID, [step_3] returns normally however
    many identifiers are missing.  It logs the two counts, then the primary
    identifiers it found missing when there is one, then the advisory ones
    when there is one; each list keeps the table's order and its
    repetitions.  An identifier is found missing when it does not occur in
    the registry's SITE_ID column, and always when it is itself a missing
    value, whatever that column holds. *)
Theorem step_3_reports_the_identifiers_missing_from_the_registry
    (self : PrepareData geometry) (w : World geometry) (reg : FeatureClass geometry) pd adv :
  column_tolist (indig_sdf self) (pd_sid_fld_nme self) = Ok pd ->
  column_tolist (indig_sdf self) (adv_sid_fld_nme self) = Ok adv ->
  fcs w !! site_p_pth self = Some reg ->
  In "SITE_ID" (fc_fields reg) ->
  let registry := map (cell (columns (to_frame reg)) "SITE_ID") (rows (to_frame reg)) in
  let pd_missing := filter (fun x => negb (py_in x registry)) pd in
  let adv_missing := filter (fun x => negb (py_in x registry)) adv in
  step_3 self w
  = (Ok tt,
     mkWorld (gdbs w) (fcs w) (layers w)
       (log w
        ++ [Info ("Site_P points missing from matched site_ids (count): PDs: "
                  ++ pretty (List.length pd_missing) ++ ", ADVs:"
                  ++ pretty (List.length adv_missing))]
        ++ match pd_missing with [] => [] | _ :: _ => [InfoIds pd_missing] end
        ++ match adv_missing with [] => [] | _ :: _ => [InfoIds adv_missing] end)) /\
  (forall x, In x pd_missing <-> In x pd /\ (x = VNull \/ ~ In x registry)) /\
  (forall x, In x adv_missing <-> In x adv /\ (x = VNull \/ ~ In x registry)).
Proof.
  intros Hpd Hadv Hreg Hsite registry pd_missing adv_missing.
  split; [|split; intros x; apply missing_spec].
  assert (Hcol : In "SITE_ID" (columns (to_frame reg))).
  { simpl. apply in_or_app. now left. }
  unfold step_3, lift, from_featureclass, read_fc, ret, bind.
  rewrite Hpd. cbn beta iota. rewrite Hadv. cbn beta iota. rewrite Hreg. cbn beta iota.
  rewrite !(check_site_id_exists_filter _ _ _ Hcol).
  fold registry. fold pd_missing. fold adv_missing.
  unfold logger_info. cbn [gdbs fcs layers log].
  destruct pd_missing as [|p ps], adv_missing as [|a as_]; cbn [List.length Nat.ltb Nat.leb];
    cbn [gdbs fcs layers log]; rewrite <- ?app_assoc; try reflexivity.
Qed.

(** X4.  The registry column is looked up once per identifier at hand.
    With a registry class that has no field SITE_ID, [step_3] raises
    KeyError for SITE_ID, before it logs anything, as soon as the working
    table has a row; on a working table without rows it reports the counts
    0 and 0 and returns. *)
Theorem step_3_fails_on_a_registry_without_SITE_ID_unless_the_table_is_empty
    (self : PrepareData geometry) (w : World geometry) (reg : FeatureClass geometry) :
  In (pd_sid_fld_nme self) (columns (indig_sdf self)) ->
  In (adv_sid_fld_nme self) (columns (indig_sdf self)) ->
  fcs w !! site_p_pth self = Some reg ->
  ~ In "SITE_ID" (fc_fields reg) ->
  step_3 self w
  = match rows (indig_sdf self) with
    | [] => (Ok tt,
             mkWorld (gdbs w) (fcs w) (layers w)
               (log w ++ [Info "Site_P points missing from matched site_ids (count): PDs: 0, ADVs:0"]))
    | _ :: _ => (Raise (KeyError "SITE_ID"), w)
    end.
Proof.
  intros Hpd Hadv Hreg Hsite.
  assert (Hcol : ~ In "SITE_ID" (columns (to_frame reg))).
  { simpl. intros Hin. apply in_app_or in Hin as [Hin|[Hin|[]]]; [auto|discriminate]. }
  unfold step_3, lift, from_featureclass, read_fc, ret, column_tolist, bind.
  rewrite !has_column_true by assumption. cbn beta iota. rewrite Hreg. cbn beta iota.
  rewrite !(check_site_id_exists_no_column _ _ _ Hcol).
  destruct (rows (indig_sdf self)) as [|r rs]; simpl; [|reflexivity].
  unfold logger_info. simpl. reflexivity.
Qed.


(** ** [step_4] run as a script *)

(** X5.  Run as a script, the module binds the name scratch_gdb in its
    main block, and [step_4] writes the joined table under that path,
    joined with the object's output name.  The object's own scratch
    workspace, [self.scratch_gdb], plays no part in where the result
    goes. *)
Theorem step_4_as_script_writes_under_the_scratch_gdb_of_the_main_block
    (R : Runtime geometry) (self : PrepareData geometry) (w : World geometry) bld right joined :
  fcs w !! bld_p_pth self = Some bld ->
  select [adv_sid_fld_nme self; pd_sid_fld_nme self; "SHAPE"] (indig_sdf self) = Ok right ->
  drop_columns "index_right"
    (spatial_join R (to_frame bld) right (spatial_relationship self)) = Ok joined ->
  step_4 R (data_prepper_globals "__main__") self w
  = (Ok tt,
     set_fcs (<[path_join "C:\proximity_analysis\data\Proximity_ON\scratch.gdb"
                  (out_fc_nme self) := frame_to_fc R joined]> (fcs w)) w).
Proof.
  intros Hb Hs Hd.
  unfold step_4, from_featureclass, read_fc, lift, load_global, ret, raise, bind.
  rewrite scratch_gdb_bound_in_main, Hb, Hs, Hd. reflexivity.
Qed.

(** ** The two checks of [add_site_id] *)

Lemma has_column_rename (t : DataFrame geometry) fld out :
  In fld (columns t) -> has_column (rename fld out t) out = true.
Proof.
  intros Hin. apply has_column_In. simpl. apply in_map_iff.
  exists fld. split; [|exact Hin]. destruct (decide (fld = fld)); congruence.
Qed.

Lemma tie_break_raises_KeyError (R : Runtime geometry) (sdf : DataFrame geometry) e :
  tie_break R sdf = Raise e -> exists c, e = KeyError c.
Proof.
  unfold tie_break, sort_values_desc, drop_duplicates.
  destruct (has_column sdf "Join_Count"); [|intros [= <-]; eauto].
  destruct (has_column _ "temp_id"); [discriminate|intros [= <-]; eauto].
Qed.

Lemma select_raises_KeyError labels (df : DataFrame geometry) e :
  select labels df = Raise e -> exists c, e = KeyError c.
Proof.
  unfold select. destruct (first_missing labels df); [intros [= <-]; eauto|discriminate].
Qed.

Lemma merge_never_exits (left right : DataFrame geometry) on :
  merge left right on <> Raise SystemExit.
Proof.
  unfold merge.
  destruct (positions on (columns left)) as [|? [|? ?]];
    destruct (positions on (columns right)) as [|? [|? ?]]; discriminate.
Qed.

(** X6.  Lines 98-116 of [add_site_id] touch the log only.  They end in
    SystemExit exactly when the tie-break succeeds and its table lacks the
    identifier field; the log then gains that field's message and the
    table's columns.  In every other case, success or exception, the log
    is left as it was: once the first check has passed, the rename yields a
    column with the output name, so the check at lines 108-110 never fires
    and its message is never logged. *)
Theorem the_check_of_the_renamed_field_never_fires
    (R : Runtime geometry) (sdf orig : DataFrame geometry) fld out link (w : World geometry) :
  let '(o, w') := resolve_and_merge R sdf orig fld out link w in
  same_store w w' /\
  (o = Raise SystemExit <-> exists t, tie_break R sdf = Ok t /\ ~ In fld (columns t)) /\
  (o = Raise SystemExit ->
   exists t, tie_break R sdf = Ok t /\
             log w' = log w ++ [Info (fld ++ " not in the output dataframe error");
                                InfoColumns (columns t)]) /\
  (o <> Raise SystemExit -> log w' = log w).
Proof.
  unfold resolve_and_merge, bind, lift.
  destruct (tie_break R sdf) as [t|e] eqn:Ht.
  2: { apply tie_break_raises_KeyError in Ht as [c ->].
       split; [apply same_store_refl|]. split; [|split].
       - split; [discriminate|intros (? & ? & _); discriminate].
       - discriminate.
       - reflexivity. }
  destruct (has_column t fld) eqn:Hf; cbn [negb].
  - apply has_column_In in Hf. rewrite (has_column_rename t fld out Hf). cbn [negb].
    assert (Hno : forall o : outcome (DataFrame geometry),
              (exists c, o = Raise (KeyError c)) \/ o <> Raise SystemExit ->
              o <> Raise SystemExit).
    { intros o [[c ->]|Hne]; [discriminate|exact Hne]. }
    destruct (select [link; out] (rename fld out t)) as [right|e] eqn:Hs.
    + pose proof (merge_never_exits orig right link) as Hm.
      split; [apply same_store_refl|]. split; [|split].
      * split; [intros Habs; now apply Hm in Habs|].
        intros (t' & [= <-] & Hn). now apply Hn in Hf.
      * intros Habs. now apply Hm in Habs.
      * reflexivity.
    + apply select_raises_KeyError in Hs as [c ->].
      split; [apply same_store_refl|]. split; [|split].
      * split; [discriminate|]. intros (t' & [= <-] & Hn). now apply Hn in Hf.
      * discriminate.
      * reflexivity.
  - assert (Hn : ~ In fld (columns t)).
    { intros Hin. apply has_column_In in Hin. congruence. }
    unfold logger_info, raise. cbn.
    split; [repeat split|]. split; [|split].
    + split; [intros _; eauto|reflexivity].
    + intros _. exists t. split; [reflexivity|]. now rewrite <- app_assoc.
    + congruence.
Qed.

(** ** The constructor before the steps *)

(** X7.  When one of the four paths that [is_valid] checks does not
    exist, constructing the object raises the validation exception after
    the two opening log entries and nothing else: the scratch workspace is
    not created, no layer is made and no step runs, whatever the module's
    globals are. *)
Theorem PrepareData_init_changes_nothing_but_the_log_when_a_path_is_missing
    (R : Runtime geometry) globals dflt scr site_a adv site_p ia_nme bld_nme out_nme wkid
    (w : World geometry) :
  path_exists w dflt && path_exists w site_a && path_exists w site_p && path_exists w adv
  = false ->
  exists msg,
    PrepareData_init R globals dflt scr site_a adv site_p ia_nme bld_nme out_nme wkid w
    = (Raise (PyException msg),
       mkWorld (gdbs w) (fcs w) (layers w)
         (log w ++ [Info "Starting Data Prep"; Info "Validating Inputs"])).
Proof.
  intros Hmiss.
  unfold PrepareData_init, PrepareData_setup.
  unfold bind at 1. unfold bind at 1. unfold logger_info at 1.
  unfold bind at 1. unfold logger_info at 1. cbn [gdbs fcs layers log].
  unfold bind at 1. rewrite is_valid_run. unfold path_exists in *. cbn [gdbs fcs layers log].
  rewrite <- app_assoc. cbn [app].
  destruct (bool_decide (In dflt (gdbs w)) || _); [|eauto].
  destruct (bool_decide (In site_a (gdbs w)) || _); [|eauto].
  destruct (bool_decide (In site_p (gdbs w)) || _); [|eauto].
  destruct (bool_decide (In adv (gdbs w)) || _); [discriminate|eauto].
Qed.

Lemma MakeFeatureLayer_world p name (w w1 : World geometry) l :
  MakeFeatureLayer p name w = (Ok l, w1) ->
  w1 = set_layers (<[name := mkLayer p None]> (layers w)) w.
Proof.
  unfold MakeFeatureLayer. intros Hrun.
  apply bind_Ok_inv in Hrun as (fc & w2 & Hr & Hret).
  apply read_fc_inv in Hr as [-> Hfc]. now injection Hret as _ <-.
Qed.

(** X8.  Lines 203-243 of [__init__], when they complete: no feature
    class is written; the scratch workspace is created exactly when it did
    not exist, and exists afterwards; the two layers ia_a and bld_p are
    made over the community class and the point class of the default
    workspace; the log gains the two opening entries and, when the
    workspace was created, the entry saying so; and the working table is
    the community class read as a table. *)
Theorem PrepareData_setup_creates_only_the_scratch_workspace
    dflt scr site_a adv site_p ia_nme bld_nme out_nme wkid
    (w w' : World geometry) (self : PrepareData geometry) :
  PrepareData_setup dflt scr site_a adv site_p ia_nme bld_nme out_nme wkid w = (Ok self, w') ->
  fcs w' = fcs w /\
  gdbs w' = (if path_exists w scr then gdbs w else scr :: gdbs w) /\
  path_exists w' scr = true /\
  layers w' = <["bld_p" := mkLayer (path_join dflt bld_nme) None]>
                (<["ia_a" := mkLayer (path_join dflt ia_nme) None]> (layers w)) /\
  log w' = log w ++ [Info "Starting Data Prep"; Info "Validating Inputs"]
                 ++ (if path_exists w scr then [] else [Info "Creating scratch gdb"]) /\
  exists polys, fcs w !! path_join dflt ia_nme = Some polys /\ indig_sdf self = to_frame polys.
Proof.
  unfold PrepareData_setup. intros Hrun.
  apply bind_Ok_inv in Hrun as (u1 & w1 & H1 & Hrun).
  apply bind_Ok_inv in Hrun as (u2 & w2 & H2 & Hrun).
  apply bind_Ok_inv in Hrun as (u3 & w3 & H3 & Hrun).
  apply bind_Ok_inv in Hrun as (ex & w4 & H4 & Hrun).
  apply bind_Ok_inv in Hrun as (u5 & w5 & H5 & Hrun).
  apply bind_Ok_inv in Hrun as (df & w6 & H6 & Hrun).
  apply bind_Ok_inv in Hrun as (n1 & w7 & H7 & Hrun).
  apply bind_Ok_inv in Hrun as (n2 & w8 & H8 & Hrun).
  apply bind_Ok_inv in Hrun as (l1 & w9 & H9 & Hrun).
  apply bind_Ok_inv in Hrun as (l2 & w10 & H10 & Hrun).
  unfold ret in Hrun. injection Hrun as <- <-.
  unfold logger_info in H1, H2. injection H1 as _ <-. injection H2 as _ <-.
  apply is_valid_inv in H3 as ->.
  rewrite Exists_run in H4. injection H4 as <- <-.
  apply from_featureclass_inv in H6 as (-> & polys & Hpolys & ->).
  apply ListFields_inv in H7 as (-> & _). apply ListFields_inv in H8 as (-> & _).
  apply MakeFeatureLayer_world in H9 as ->. apply MakeFeatureLayer_world in H10 as ->.
  unfold path_exists in *. unfold set_layers. cbn [gdbs fcs layers log] in *.
  destruct (bool_decide (In scr (gdbs w)) || bool_decide (is_Some (fcs w !! scr))) eqn:E;
    cbn [negb] in H5.
  - unfold ret in H5. injection H5 as _ <-. cbn [gdbs fcs layers log] in *.
    rewrite E, <- ?app_assoc. repeat split; try reflexivity. eauto.
  - unfold bind, logger_info, CreateFileGDB in H5. injection H5 as _ <-.
    cbn [gdbs fcs layers log] in *.
    rewrite <- !app_assoc.
    repeat split; try reflexivity.
    + rewrite bool_decide_eq_true_2 by (now left). reflexivity.
    + eauto.
Qed.


(** ** What the overlay leaves on the target class *)

Lemma bind_keeps {A B : Type} q (c : M geometry A) (k : A -> M geometry B) :
  (forall w, fcs (snd (c w)) !! q = fcs w !! q) ->
  (forall a w, fcs (snd (k a w)) !! q = fcs w !! q) ->
  forall w, fcs (snd (bind c k w)) !! q = fcs w !! q.
Proof.
  intros Hc Hk w. unfold bind. specialize (Hc w).
  destruct (c w) as [[a|e] w1]; simpl in *; [rewrite Hk|]; exact Hc.
Qed.

Lemma read_fc_keeps q p (w : World geometry) : fcs (snd (read_fc p w)) !! q = fcs w !! q.
Proof. unfold read_fc. now destruct (fcs w !! p). Qed.

Lemma write_fc_keeps q p fc (w : World geometry) :
  q <> p -> fcs (snd (write_fc p fc w)) !! q = fcs w !! q.
Proof. intros Hne. unfold write_fc. simpl. now rewrite lookup_insert_ne by congruence. Qed.

Lemma layer_features_keeps q name (w : World geometry) :
  fcs (snd (layer_features name w)) !! q = fcs w !! q.
Proof.
  unfold layer_features. apply bind_keeps.
  - intros w0. unfold read_layer. now destruct (layers w0 !! name).
  - intros l w0. apply bind_keeps; [intros; apply read_fc_keeps|reflexivity].
Qed.

Lemma DeleteField_keeps (R : Runtime geometry) q p drop (w : World geometry) :
  q <> p -> fcs (snd (DeleteField R p drop w)) !! q = fcs w !! q.
Proof.
  intros Hne. unfold DeleteField. apply bind_keeps; [intros; apply read_fc_keeps|].
  intros fc w0. destruct (_ && _); [reflexivity|now apply write_fc_keeps].
Qed.

Lemma delete_stale_keeps (R : Runtime geometry) q p fld flds (w : World geometry) :
  q <> p -> fcs (snd (delete_stale R p fld flds w)) !! q = fcs w !! q.
Proof.
  intros Hne. revert w. induction flds as [|x t IH]; intros w; [reflexivity|].
  simpl. apply bind_keeps.
  - intros w0. unfold ListFields. apply bind_keeps; [intros; apply read_fc_keeps|reflexivity].
  - intros names w0. apply bind_keeps; [|intros _ w1; apply IH].
    intros w1. case_bool_decide; [|reflexivity].
    apply bind_keeps; [reflexivity|]. intros _ w2. now apply DeleteField_keeps.
Qed.

Lemma positions_from_bound k c cols i :
  In i (positions_from k c cols) -> (i < k + List.length cols)%nat.
Proof.
  revert k. induction cols as [|x t IH]; simpl; intros k; [tauto|].
  destruct (decide (x = c)).
  - intros [<-|Hin]; [lia|]. apply IH in Hin. lia.
  - intros Hin. apply IH in Hin. lia.
Qed.

Lemma positions_from_app k c l l' :
  positions_from k c (l ++ l')
  = positions_from k c l ++ positions_from (k + List.length l) c l'.
Proof.
  revert k. induction l as [|x t IH]; simpl; intros k.
  - now rewrite Nat.add_0_r.
  - rewrite IH. replace (S k + List.length t)%nat with (k + S (List.length t))%nat by lia.
    now destruct (decide (x = c)).
Qed.

Lemma nth_app_VNull (r : list (value geometry)) j :
  nth j (r ++ [VNull]) VNull = nth j r VNull.
Proof.
  destruct (Nat.lt_ge_cases j (List.length r)) as [Hlt|Hge].
  - now apply app_nth1.
  - rewrite app_nth2 by lia. rewrite (nth_overflow r) by lia.
    destruct (j - List.length r)%nat as [|[|n]]; reflexivity.
Qed.

Lemma cell_add_field cols t c (r : list (value geometry)) :
  c <> t -> cell (cols ++ [t]) c (r ++ [VNull]) = cell cols c r.
Proof.
  intros Hne. unfold cell, positions. rewrite positions_from_app. simpl.
  destruct (decide (t = c)); [congruence|]. rewrite app_nil_r.
  destruct (positions_from 0 c cols); [reflexivity|apply nth_app_VNull].
Qed.

Lemma cell_set_cell_same cols c v (r : list (value geometry)) :
  In c cols -> List.length r = List.length cols -> cell cols c (set_cell cols c v r) = v.
Proof.
  intros Hin Hlen. unfold cell, set_cell.
  destruct (positions c cols) as [|i rest] eqn:Hp.
  - exfalso. now apply (positions_from_nonempty 0 c cols Hin).
  - assert (Hi : (i < List.length r)%nat).
    { assert (In i (positions_from 0 c cols)) as Hb by (unfold positions in Hp; rewrite Hp; now left).
      apply positions_from_bound in Hb. lia. }
    rewrite nth_lookup, list_lookup_insert_eq by exact Hi. reflexivity.
Qed.

Lemma cell_set_cell_other cols c c' v (r : list (value geometry)) :
  c' <> c -> cell cols c' (set_cell cols c v r) = cell cols c' r.
Proof.
  intros Hne. unfold cell, set_cell.
  destruct (positions c cols) as [|i rest] eqn:Hp; [reflexivity|].
  destruct (positions c' cols) as [|j rest'] eqn:Hq; [reflexivity|].
  apply positions_head in Hp. apply positions_head in Hq.
  rewrite !nth_lookup, list_lookup_insert_ne; [reflexivity|]. congruence.
Qed.

Lemma number_rows_shapes cols c k (l : list (feature geometry)) :
  map shape (number_rows cols c k l) = map shape l.
Proof. revert k. induction l as [|f t IH]; intros k; simpl; [reflexivity|]. now rewrite IH. Qed.

Lemma number_rows_keys cols c k (l : list (feature geometry)) :
  In c cols ->
  Forall (fun f => List.length (attrs f) = List.length cols) l ->
  map (fun f => cell cols c (attrs f)) (number_rows cols c k l)
  = map (fun i => VInt (k + Z.of_nat i)) (seq 0 (List.length l)).
Proof.
  intros Hin Hwf. revert k. induction Hwf as [|f t Hf Ht IH]; intros k; [reflexivity|].
  cbn [number_rows map List.length seq attrs].
  rewrite cell_set_cell_same by assumption. rewrite IH.
  rewrite <- seq_shift, map_map. f_equal; [f_equal; lia|].
  apply map_ext. intros i. f_equal. lia.
Qed.

Lemma number_rows_other_cells cols c c' k (l : list (feature geometry)) :
  c' <> c ->
  map (fun f => cell cols c' (attrs f)) (number_rows cols c k l)
  = map (fun f => cell cols c' (attrs f)) l.
Proof.
  intros Hne. revert k. induction l as [|f t IH]; intros k; [reflexivity|].
  cbn [number_rows map attrs]. now rewrite cell_set_cell_other, IH.
Qed.

Lemma numbering_run p t (w : World geometry) fc :
  fcs w !! p = Some fc ->
  bind (AddField p t) (fun _ => UpdateCursor_row_number p t) w
  = (Ok tt,
     set_fcs (<[p := mkFC (fc_fields (add_field t fc))
                       (number_rows (fc_fields (add_field t fc)) t 1
                          (fc_features (add_field t fc)))]>
                (<[p := add_field t fc]> (fcs w))) w).
Proof.
  intros Hfc. unfold AddField, UpdateCursor_row_number, read_fc, write_fc, raise, bind.
  rewrite Hfc. cbn [set_fcs fcs]. rewrite lookup_insert_eq.
  rewrite bool_decide_eq_true_2; [reflexivity|].
  unfold add_field. case_bool_decide; [assumption|]. simpl. apply in_or_app. right. now left.
Qed.

(** X9.  [add_site_id] writes to the class it is given as target.  When
    that class is neither of the two scratch classes and each of its
    features has one cell per field, then, whether the rest of the overlay
    succeeds or raises, the target class ends with the field temp_id (added
    after the others when it was not there), its features in the same
    order with the same geometries, the values 1, 2, ..., n in temp_id,
    and every other field's cells as they were. *)
Theorem overlay_table_leaves_the_temporary_key_on_the_target_class
    (R : Runtime geometry) target_lyr site_lyr non_ess_fields bldp_lyr fld_nme out_fld_nme
    scratch_gdb_path scratch_fc_nme (w : World geometry) (fc : FeatureClass geometry) :
  target_lyr <> path_join scratch_gdb_path scratch_fc_nme ->
  target_lyr <> (path_join scratch_gdb_path scratch_fc_nme ++ "_2")%string ->
  fcs w !! target_lyr = Some fc ->
  Forall (fun f => List.length (attrs f) = List.length (fc_fields fc)) (fc_features fc) ->
  exists fc',
    fcs (snd (overlay_table R target_lyr site_lyr non_ess_fields bldp_lyr fld_nme out_fld_nme
                scratch_gdb_path scratch_fc_nme w)) !! target_lyr = Some fc' /\
    fc_fields fc' = (if bool_decide (In "temp_id" (fc_fields fc)) then fc_fields fc
                     else fc_fields fc ++ ["temp_id"]) /\
    map shape (fc_features fc') = map shape (fc_features fc) /\
    map (fun f => cell (fc_fields fc') "temp_id" (attrs f)) (fc_features fc')
    = map (fun i => VInt (Z.of_nat i)) (seq 1 (List.length (fc_features fc))) /\
    forall c, c <> "temp_id" ->
      map (fun f => cell (fc_fields fc') c (attrs f)) (fc_features fc')
      = map (fun f => cell (fc_fields fc) c (attrs f)) (fc_features fc).
Proof.
  intros Hs Hs2 Hfc Hwf.
  set (fc1 := add_field "temp_id" fc).
  exists (mkFC (fc_fields fc1) (number_rows (fc_fields fc1) "temp_id" 1 (fc_features fc1))).
  assert (Hin1 : In "temp_id" (fc_fields fc1)).
  { subst fc1. unfold add_field. case_bool_decide; [assumption|].
    simpl. apply in_or_app. right. now left. }
  assert (Hwf1 : Forall (fun f => List.length (attrs f) = List.length (fc_fields fc1))
                   (fc_features fc1)).
  { subst fc1. unfold add_field. case_bool_decide; [assumption|]. simpl.
    apply Forall_map. eapply Forall_impl; [|exact Hwf]. intros f Hf. simpl.
    rewrite !length_app, Hf. reflexivity. }
  split; [|split; [|split; [|split]]].
  - unfold overlay_table.
    pose proof (numbering_run target_lyr "temp_id" w fc Hfc) as Hnum. fold fc1 in Hnum.
    unfold bind at 1 2. unfold bind in Hnum.
    destruct (AddField target_lyr "temp_id" w) as [[[]|e] w1]; [|discriminate].
    rewrite Hnum.
    rewrite bind_keeps.
    + simpl. now rewrite lookup_insert_eq.
    + reflexivity.
    + intros ex w0. apply bind_keeps.
      * intros w2. destruct ex; [now apply delete_stale_keeps|reflexivity].
      * intros _ w2. apply bind_keeps.
        { intros w3. unfold Identity. apply bind_keeps; [intros; apply read_fc_keeps|].
          intros t w4. apply bind_keeps; [intros; apply read_fc_keeps|].
          intros s0 w5. now apply write_fc_keeps. }
        intros _ w3. apply bind_keeps; [intros; now apply DeleteField_keeps|].
        intros _ w4. apply bind_keeps.
        { intros w5. unfold SpatialJoin. apply bind_keeps; [intros; apply read_fc_keeps|].
          intros t w6. apply bind_keeps; [intros; apply layer_features_keeps|].
          intros j w7. now apply write_fc_keeps. }
        intros _ w5. unfold from_featureclass.
        apply bind_keeps; [intros; apply read_fc_keeps|reflexivity].
  - subst fc1. unfold add_field. now case_bool_decide.
  - cbn [fc_features]. rewrite number_rows_shapes. subst fc1. unfold add_field.
    case_bool_decide; [reflexivity|]. simpl. rewrite map_map. reflexivity.
  - cbn [fc_features fc_fields]. rewrite number_rows_keys by assumption.
    replace (List.length (fc_features fc1)) with (List.length (fc_features fc)).
    + rewrite <- seq_shift, map_map. apply map_ext. intros i. f_equal. lia.
    + subst fc1. unfold add_field. case_bool_decide; [reflexivity|].
      simpl. now rewrite length_map.
  - intros c Hc. cbn [fc_features fc_fields].
    rewrite number_rows_other_cells by exact Hc.
    subst fc1. unfold add_field. case_bool_decide; [reflexivity|]. simpl.
    rewrite map_map. apply map_ext. intros f. simpl. now apply cell_add_field.
Qed.


(** ** The table the overlay returns *)

Lemma write_fc_inv p fc (w w1 : World geometry) u :
  write_fc p fc w = (Ok u, w1) -> w1 = set_fcs (<[p := fc]> (fcs w)) w.
Proof. unfold write_fc. now intros [= _ <-]. Qed.

Lemma layer_features_inv name (w w1 : World geometry) fc :
  layer_features name w = (Ok fc, w1) -> w1 = w.
Proof.
  unfold layer_features. intros Hrun.
  apply bind_Ok_inv in Hrun as (l & w2 & Hl & Hrun).
  apply bind_Ok_inv in Hrun as (c & w3 & Hc & Hret).
  apply read_fc_inv in Hc as [-> _]. unfold ret in Hret. injection Hret as _ <-.
  unfold read_layer in Hl. destruct (layers w !! name); [|discriminate].
  now injection Hl as _ <-.
Qed.

Lemma delete_fields_drops drop (fc : FeatureClass geometry) f :
  In f drop -> ~ In f (fc_fields (delete_fields drop fc)).
Proof.
  intros Hd Hin. simpl in Hin. apply filter_In in Hin as [_ Hb].
  rewrite negb_true_iff, bool_decide_eq_false in Hb. now apply Hb.
Qed.

Lemma overlay_table_Ok_inv
    (R : Runtime geometry) target_lyr site_lyr non_ess_fields bldp_lyr fld_nme out_fld_nme
    scratch_gdb_path scratch_fc_nme (w w1 : World geometry) (sdf : DataFrame geometry) :
  overlay_table R target_lyr site_lyr non_ess_fields bldp_lyr fld_nme out_fld_nme
    scratch_gdb_path scratch_fc_nme w = (Ok sdf, w1) ->
  exists t s pts,
    sdf = to_frame (SpatialJoin_tool R (delete_fields non_ess_fields (Identity_tool R t s)) pts) /\
    fcs w1 !! (path_join scratch_gdb_path scratch_fc_nme ++ "_2")%string
    = Some (SpatialJoin_tool R (delete_fields non_ess_fields (Identity_tool R t s)) pts) /\
    exists w0,
      layer_features bldp_lyr w0 = (Ok pts, w0) /\
      gdbs w0 = gdbs w1 /\ layers w0 = layers w1 /\
      forall q, q <> (path_join scratch_gdb_path scratch_fc_nme ++ "_2")%string ->
                fcs w0 !! q = fcs w1 !! q.
Proof.
  unfold overlay_table. intros Hrun.
  apply bind_Ok_inv in Hrun as (u1 & w2 & _ & Hrun).
  apply bind_Ok_inv in Hrun as (u2 & w3 & _ & Hrun).
  apply bind_Ok_inv in Hrun as (ex & w4 & _ & Hrun).
  apply bind_Ok_inv in Hrun as (u4 & w5 & _ & Hrun).
  apply bind_Ok_inv in Hrun as (u5 & w6 & Hid & Hrun).
  apply bind_Ok_inv in Hrun as (u6 & w7 & Hdel & Hrun).
  apply bind_Ok_inv in Hrun as (u7 & w8 & Hsj & Hrun).
  apply from_featureclass_inv in Hrun as (-> & joined & Hj & ->).
  unfold Identity in Hid.
  apply bind_Ok_inv in Hid as (t & w5' & Ht & Hid). apply read_fc_inv in Ht as [-> Ht].
  apply bind_Ok_inv in Hid as (s0 & w5' & Hs & Hid). apply read_fc_inv in Hs as [-> Hs].
  apply write_fc_inv in Hid as ->.
  unfold DeleteField in Hdel.
  apply bind_Ok_inv in Hdel as (ov & w6' & Hov & Hdel). apply read_fc_inv in Hov as [-> Hov].
  cbn [set_fcs fcs] in Hov. rewrite lookup_insert_eq in Hov. injection Hov as <-.
  destruct (_ && _) in Hdel; [discriminate|]. apply write_fc_inv in Hdel as ->.
  unfold SpatialJoin in Hsj.
  apply bind_Ok_inv in Hsj as (cut & w7' & Hcut & Hsj). apply read_fc_inv in Hcut as [-> Hcut].
  cbn [set_fcs fcs] in Hcut. rewrite lookup_insert_eq in Hcut. injection Hcut as <-.
  apply bind_Ok_inv in Hsj as (pts & w7' & Hpts & Hsj).
  pose proof (layer_features_inv _ _ _ _ Hpts) as ->.
  apply write_fc_inv in Hsj as ->.
  cbn [set_fcs fcs] in Hj. rewrite lookup_insert_eq in Hj. injection Hj as <-.
  exists t, s0, pts. split; [reflexivity|]. split.
  - cbn [set_fcs fcs]. now rewrite lookup_insert_eq.
  - eexists. split; [exact Hpts|]. split; [reflexivity|]. split; [reflexivity|].
    intros q Hq. cbn [set_fcs fcs]. symmetry. apply lookup_insert_ne.
    intros E. now apply Hq.
Qed.

Lemma layer_features_Ok_inv name (w w1 : World geometry) fc :
  layer_features name w = (Ok fc, w1) ->
  exists l c, layers w !! name = Some l /\ fcs w !! source l = Some c /\
              fc = mkFC (fc_fields c) (selected (selection l) c).
Proof.
  unfold layer_features. intros Hrun.
  apply bind_Ok_inv in Hrun as (l & w2 & Hl & Hrun).
  apply bind_Ok_inv in Hrun as (c & w3 & Hc & Hret).
  unfold read_layer in Hl. destruct (layers w !! name) as [l'|] eqn:El; [|discriminate].
  injection Hl as <- <-. apply read_fc_inv in Hc as [-> Hc].
  unfold ret in Hret. injection Hret as <- _. eauto.
Qed.

Lemma DeleteField_keeps_layers (R : Runtime geometry) p drop (w : World geometry) :
  layers (snd (DeleteField R p drop w)) = layers w.
Proof.
  unfold DeleteField, read_fc, write_fc, raise, bind.
  destruct (fcs w !! p); [|reflexivity]. now destruct (_ && _).
Qed.

Lemma delete_stale_keeps_layers (R : Runtime geometry) p fld flds (w : World geometry) :
  layers (snd (delete_stale R p fld flds w)) = layers w.
Proof.
  revert w. induction flds as [|x t IH]; intros w; [reflexivity|].
  simpl. apply (bind_preserves (fun w0 => layers w0 = layers w)); [| |reflexivity].
  - intros w0 Hw0. unfold ListFields, read_fc, ret, bind. now destruct (fcs w0 !! p).
  - intros names w0 Hw0.
    apply (bind_preserves (fun w1 => layers w1 = layers w)); [| |exact Hw0].
    + intros w1 Hw1. case_bool_decide; [|exact Hw1].
      apply (bind_preserves (fun w2 => layers w2 = layers w)); [| |exact Hw1].
      * intros w2 Hw2. exact Hw2.
      * intros _ w2 Hw2. now rewrite DeleteField_keeps_layers.
    + intros _ w1 Hw1. now rewrite IH.
Qed.

(** X10.  When lines 68-96 of [add_site_id] complete, and neither the
    target class, nor the site class, nor the class behind the point layer
    is the scratch class (nor one of the latter two the target class), the
    table they return is: the target class with its rows numbered in
    temp_id, overlaid with the site class, without the non-essential
    fields, spatially joined with the features the point layer shows, read
    as a table.  Nothing else enters: what the scratch workspace held
    before the call, a scratch class of an earlier run or its stale
    fields, has no influence on the table of a run that completes. *)
Theorem overlay_table_does_not_depend_on_what_the_scratch_workspace_held
    (R : Runtime geometry) target_lyr site_lyr non_ess_fields bldp_lyr fld_nme out_fld_nme
    scratch_gdb_path scratch_fc_nme (w w1 : World geometry) (sdf : DataFrame geometry)
    (fc sites points : FeatureClass geometry) (lyr : Layer) :
  fcs w !! target_lyr = Some fc ->
  fcs w !! site_lyr = Some sites ->
  layers w !! bldp_lyr = Some lyr ->
  fcs w !! source lyr = Some points ->
  target_lyr <> path_join scratch_gdb_path scratch_fc_nme ->
  site_lyr <> path_join scratch_gdb_path scratch_fc_nme ->
  source lyr <> path_join scratch_gdb_path scratch_fc_nme ->
  site_lyr <> target_lyr ->
  source lyr <> target_lyr ->
  overlay_table R target_lyr site_lyr non_ess_fields bldp_lyr fld_nme out_fld_nme
    scratch_gdb_path scratch_fc_nme w = (Ok sdf, w1) ->
  sdf = to_frame
          (SpatialJoin_tool R
             (delete_fields non_ess_fields
                (Identity_tool R
                   (mkFC (fc_fields (add_field "temp_id" fc))
                         (number_rows (fc_fields (add_field "temp_id" fc)) "temp_id" 1
                            (fc_features (add_field "temp_id" fc))))
                   sites))
             (mkFC (fc_fields points) (selected (selection lyr) points))).
Proof.
  intros Hfc Hsites Hlyr Hpoints Hts Hss Hps Hst Hpt Hrun.
  set (scratch := path_join scratch_gdb_path scratch_fc_nme) in *.
  set (numbered := mkFC (fc_fields (add_field "temp_id" fc))
                        (number_rows (fc_fields (add_field "temp_id" fc)) "temp_id" 1
                           (fc_features (add_field "temp_id" fc)))).
  unfold overlay_table in Hrun. fold scratch in Hrun.
  apply bind_Ok_inv in Hrun as (u1 & w2 & H1 & Hrun).
  apply bind_Ok_inv in Hrun as (u2 & w3 & H2 & Hrun).
  apply bind_Ok_inv in Hrun as (ex & w4 & H3 & Hrun).
  apply bind_Ok_inv in Hrun as (u4 & w5 & H4 & Hrun).
  apply bind_Ok_inv in Hrun as (u5 & w6 & Hid & Hrun).
  apply bind_Ok_inv in Hrun as (u6 & w7 & Hdel & Hrun).
  apply bind_Ok_inv in Hrun as (u7 & w8 & Hsj & Hrun).
  apply from_featureclass_inv in Hrun as (-> & joined & Hj & ->).
  (* the numbering *)
  pose proof (numbering_run target_lyr "temp_id" w fc Hfc) as Hnum. fold numbered in Hnum.
  unfold bind in Hnum. rewrite H1, H2 in Hnum. injection Hnum as _ ->.
  apply Exists_inv in H3 as ->.
  (* the pass over the stale fields writes the scratch class only *)
  assert (Hw5 : w5 = snd ((if ex then delete_stale R scratch fld_nme [fld_nme; out_fld_nme]
                           else ret tt)
                            (set_fcs (<[target_lyr := numbered]>
                                        (<[target_lyr := add_field "temp_id" fc]> (fcs w))) w)))
    by (now rewrite H4).
  assert (Hkeep : forall q, q <> scratch -> q <> target_lyr -> fcs w5 !! q = fcs w !! q).
  { intros q Hq Hqt. rewrite Hw5. destruct ex.
    - rewrite delete_stale_keeps by exact Hq. cbn [set_fcs fcs].
      now rewrite !lookup_insert_ne by congruence.
    - cbn [ret snd set_fcs fcs]. now rewrite !lookup_insert_ne by congruence. }
  assert (Htarget : fcs w5 !! target_lyr = Some numbered).
  { rewrite Hw5. destruct ex.
    - rewrite delete_stale_keeps by exact Hts. cbn [set_fcs fcs]. apply lookup_insert_eq.
    - cbn [ret snd set_fcs fcs]. apply lookup_insert_eq. }
  assert (Hlayers : layers w5 = layers w).
  { rewrite Hw5. destruct ex; [now rewrite delete_stale_keeps_layers|reflexivity]. }
  clear Hw5 H4.
  (* the overlay, the deletion and the join *)
  unfold Identity in Hid.
  apply bind_Ok_inv in Hid as (t & w5' & Ht & Hid). apply read_fc_inv in Ht as [-> Ht].
  apply bind_Ok_inv in Hid as (s0 & w5' & Hs & Hid). apply read_fc_inv in Hs as [-> Hs].
  apply write_fc_inv in Hid as ->.
  rewrite Htarget in Ht. injection Ht as <-.
  rewrite (Hkeep site_lyr Hss Hst), Hsites in Hs. injection Hs as <-.
  unfold DeleteField in Hdel.
  apply bind_Ok_inv in Hdel as (ov & w6' & Hov & Hdel). apply read_fc_inv in Hov as [-> Hov].
  cbn [set_fcs fcs] in Hov. rewrite lookup_insert_eq in Hov. injection Hov as <-.
  destruct (_ && _) in Hdel; [discriminate|]. apply write_fc_inv in Hdel as ->.
  unfold SpatialJoin in Hsj.
  apply bind_Ok_inv in Hsj as (cut & w7' & Hcut & Hsj). apply read_fc_inv in Hcut as [-> Hcut].
  cbn [set_fcs fcs] in Hcut. rewrite lookup_insert_eq in Hcut. injection Hcut as <-.
  apply bind_Ok_inv in Hsj as (pts & w7' & Hpts & Hsj).
  pose proof (layer_features_inv _ _ _ _ Hpts) as ->.
  apply layer_features_Ok_inv in Hpts as (l & c & Hl & Hc & ->).
  cbn [set_fcs layers] in Hl. rewrite Hlayers, Hlyr in Hl. injection Hl as <-.
  cbn [set_fcs fcs] in Hc. rewrite !lookup_insert_ne in Hc by congruence.
  rewrite (Hkeep (source lyr) Hps Hpt), Hpoints in Hc. injection Hc as <-.
  apply write_fc_inv in Hsj as ->.
  cbn [set_fcs fcs] in Hj. rewrite lookup_insert_eq in Hj. now injection Hj as <-.
Qed.

(** X11.  [step_2] asks for the field PD_Site_ID of an overlay from which
    the fields of [site_a_fields] were deleted.  When PD_Site_ID is itself
    in [site_a_fields], as [__init__] has it whenever the primary site
    layer has that field, and the spatial join that made the table did not
    add a field of that name, the first run of [add_site_id] ends in
    SystemExit after logging the field's name and the table's columns; the
    advisory run is not reached. *)
Theorem step_2_exits_when_the_identifier_is_among_the_dropped_fields
    (R : Runtime geometry) (self : PrepareData geometry) (w w1 : World geometry)
    (sdf : DataFrame geometry) :
  In "PD_Site_ID" (site_a_fields self) ->
  overlay_table R (ia_a_pth self) (site_a_pth self) (site_a_fields self) (bld_p_flyr self)
    "PD_Site_ID" (pd_sid_fld_nme self) (scratch_gdb self) "scratch" w = (Ok sdf, w1) ->
  In "Join_Count" (columns sdf) -> In "temp_id" (columns sdf) ->
  (forall t j, sdf = to_frame (SpatialJoin_tool R t j) ->
               ~ In "PD_Site_ID" (fc_fields t) ->
               ~ In "PD_Site_ID" (fc_fields (SpatialJoin_tool R t j))) ->
  step_2 R self w
  = (Raise SystemExit,
     mkWorld (gdbs w1) (fcs w1) (layers w1)
       (log w1 ++ [Info "PD_Site_ID not in the output dataframe error";
                   InfoColumns (columns sdf)])).
Proof.
  intros Hdrop Hov Hjc Htid Hjoin.
  assert (Hno : ~ In "PD_Site_ID" (columns sdf)).
  { destruct (overlay_table_Ok_inv R _ _ _ _ _ _ _ _ _ _ _ Hov) as (t & s0 & pts & Hsdf & _).
    specialize (Hjoin _ pts Hsdf (delete_fields_drops _ _ _ Hdrop)).
    rewrite Hsdf. simpl. intros Hin. apply in_app_or in Hin as [Hin|[Hin|[]]];
      [now apply Hjoin|discriminate]. }
  unfold step_2, add_site_id. unfold bind at 1. rewrite (bind_Ok _ _ _ _ _ Hov).
  unfold resolve_and_merge, bind, lift. rewrite tie_break_Ok by assumption.
  rewrite has_column_false by (simpl; exact Hno). simpl.
  rewrite <- app_assoc. reflexivity.
Qed.

(** ** The columns of the resolved table *)

Lemma map_nth_positions c cols :
  map (fun i => nth i cols "") (positions c cols)
  = repeat c (List.length (positions c cols)).
Proof.
  unfold positions.
  assert (Hall : forall i, In i (positions_from 0 c cols) -> nth i cols "" = c).
  { intros i Hin. apply positions_from_spec in Hin as [_ Hn]. now rewrite Nat.sub_0_r in Hn. }
  induction (positions_from 0 c cols) as [|i t IH]; [reflexivity|].
  simpl. rewrite Hall by (now left). f_equal. apply IH. intros j Hj. apply Hall. now right.
Qed.

Lemma other_labels_repeat_same c n : other_labels c (repeat c n) = [].
Proof.
  unfold other_labels. induction n as [|n IH]; [reflexivity|]. simpl.
  rewrite bool_decide_eq_true_2 by reflexivity. exact IH.
Qed.

Lemma other_labels_repeat_other c d n : d <> c -> other_labels c (repeat d n) = repeat d n.
Proof.
  intros Hne. unfold other_labels. induction n as [|n IH]; [reflexivity|]. simpl.
  rewrite bool_decide_eq_false_2 by exact Hne. simpl. now rewrite IH.
Qed.

Lemma suffixed_left_unchanged sfx key out n cols :
  ~ In out cols -> suffixed sfx key (repeat out n) cols = cols.
Proof.
  intros Hn. unfold suffixed. rewrite <- (map_id cols) at 2. apply map_ext_in.
  intros c Hc. rewrite bool_decide_eq_false_2; [reflexivity|].
  intros [_ Hin]. apply repeat_spec in Hin. congruence.
Qed.

Lemma suffixed_right_unchanged sfx key out n cols :
  ~ In out cols -> suffixed sfx key cols (repeat out n) = repeat out n.
Proof.
  intros Hn. unfold suffixed. rewrite <- (map_id (repeat out n)) at 2. apply map_ext_in.
  intros c Hc. apply repeat_spec in Hc as ->.
  rewrite bool_decide_eq_false_2; [reflexivity|]. now intros [_ Hin].
Qed.

Lemma merge_columns_inv (left right res : DataFrame geometry) on :
  merge left right on = Ok res ->
  In on (columns left) /\
  columns res
  = suffixed "_x" on (other_labels on (columns right)) (columns left)
    ++ suffixed "_y" on (columns left) (other_labels on (columns right)).
Proof.
  unfold merge.
  destruct (positions on (columns left)) as [|i [|]] eqn:Hl; [discriminate| |];
    (destruct (positions on (columns right)) as [|j [|]]; try discriminate).
  intros [= <-]. split; [|reflexivity].
  destruct (In_decision on (columns left)) as [Hin|Hn]; [exact Hin|].
  unfold positions in Hl. now rewrite positions_from_empty in Hl.
Qed.

Lemma resolve_and_merge_columns (R : Runtime geometry) (sdf orig res : DataFrame geometry)
    fld out link w w' :
  ~ In out (columns orig) ->
  resolve_and_merge R sdf orig fld out link w = (Ok res, w') ->
  exists n, columns res = columns orig ++ repeat out (S n).
Proof.
  intros Hn Hrun.
  apply resolve_and_merge_Ok_inv in Hrun as (_ & t & right & _ & Hf & Hsel & _ & Hm).
  apply merge_columns_inv in Hm as [Hlink Hcols].
  assert (Hne : out <> link) by congruence.
  apply select_pair_inv in Hsel as (_ & Hout & ->).
  cbn [columns] in Hcols. unfold select_positions in Hcols. cbn [flat_map] in Hcols.
  rewrite app_nil_r, map_app, !map_nth_positions in Hcols.
  unfold other_labels in Hcols. rewrite filter_app in Hcols.
  fold (other_labels link (repeat link (List.length (positions link (columns (rename fld out t))))))
    in Hcols.
  fold (other_labels link (repeat out (List.length (positions out (columns (rename fld out t))))))
    in Hcols.
  rewrite other_labels_repeat_same, other_labels_repeat_other in Hcols by exact Hne.
  cbn [app] in Hcols.
  rewrite suffixed_left_unchanged, suffixed_right_unchanged in Hcols by exact Hn.
  destruct (positions out (columns (rename fld out t))) as [|i rest] eqn:Hp.
  - exfalso. now apply (positions_from_nonempty 0 out _ Hout).
  - exists (List.length rest). exact Hcols.
Qed.

(** X12.  When the working table has no column with the output name, the
    table [add_site_id] returns has the working table's columns, unchanged
    and in order, followed by one or more columns that all carry the output
    name: no suffix is applied and no column of the working table is
    lost. *)
Theorem add_site_id_appends_the_identifier_column
    (R : Runtime geometry) target_lyr site_lyr non_ess_fields bldp_lyr
    (orig_sdf res : DataFrame geometry) fld_nme out_fld_nme scratch_gdb_path scratch_fc_nme
    link_fld (w w' : World geometry) :
  ~ In out_fld_nme (columns orig_sdf) ->
  add_site_id R target_lyr site_lyr non_ess_fields bldp_lyr orig_sdf fld_nme out_fld_nme
    scratch_gdb_path scratch_fc_nme link_fld w = (Ok res, w') ->
  exists n, columns res = columns orig_sdf ++ repeat out_fld_nme (S n).
Proof.
  intros Hn Hrun. unfold add_site_id in Hrun.
  apply bind_Ok_inv in Hrun as (sdf & w1 & _ & Hrun).
  now apply resolve_and_merge_columns in Hrun.
Qed.

(** X13.  When [step_2] completes on a working table that has neither
    identifier column, it has changed nothing of the object but the
    working table, whose columns are now the old ones followed by the
    primary and then the advisory identifier column; so both columns that
    [step_3] and [step_4] read are there. *)
Theorem step_2_appends_both_identifier_columns
    (R : Runtime geometry) (self self' : PrepareData geometry) (w w' : World geometry) :
  ~ In (pd_sid_fld_nme self) (columns (indig_sdf self)) ->
  ~ In (adv_sid_fld_nme self) (columns (indig_sdf self)) ->
  pd_sid_fld_nme self <> adv_sid_fld_nme self ->
  step_2 R self w = (Ok self', w') ->
  self' = set_indig_sdf (indig_sdf self') self /\
  In (pd_sid_fld_nme self) (columns (indig_sdf self')) /\
  In (adv_sid_fld_nme self) (columns (indig_sdf self')) /\
  exists n m,
    columns (indig_sdf self')
    = columns (indig_sdf self) ++ repeat (pd_sid_fld_nme self) (S n)
      ++ repeat (adv_sid_fld_nme self) (S m).
Proof.
  intros Hpd Hadv Hne Hrun. unfold step_2, add_site_id in Hrun.
  apply bind_Ok_inv in Hrun as (df1 & w1 & H1 & Hrun).
  apply bind_Ok_inv in H1 as (sdf1 & w1' & _ & H1).
  apply resolve_and_merge_columns in H1 as [n Hc1]; [|exact Hpd].
  apply bind_Ok_inv in Hrun as (df2 & w2 & H2 & Hret).
  apply bind_Ok_inv in H2 as (sdf2 & w2' & _ & H2).
  cbn [indig_sdf set_indig_sdf adv_sid_fld_nme] in H2.
  apply resolve_and_merge_columns in H2 as [m Hc2].
  2: { rewrite Hc1. intros Hin. apply in_app_or in Hin as [Hin|Hin]; [now apply Hadv|].
       apply repeat_spec in Hin. congruence. }
  unfold ret in Hret. injection Hret as <- <-. cbn [indig_sdf set_indig_sdf].
  rewrite Hc2, Hc1, <- app_assoc.
  split; [reflexivity|]. split; [|split; [|eauto]].
  - apply in_or_app. right. apply in_or_app. left. now left.
  - apply in_or_app. right. apply in_or_app. right. now left.
Qed.

(** ** Numbering the target class a second time *)

Lemma set_cell_twice cols c v (r : list (value geometry)) :
  set_cell cols c v (set_cell cols c v r) = set_cell cols c v r.
Proof.
  unfold set_cell. destruct (positions c cols); [reflexivity|apply list_insert_insert_eq].
Qed.

Lemma number_rows_twice cols c k (l : list (feature geometry)) :
  number_rows cols c k (number_rows cols c k l) = number_rows cols c k l.
Proof.
  revert k. induction l as [|f t IH]; intros k; [reflexivity|].
  cbn [number_rows attrs shape]. now rewrite set_cell_twice, IH.
Qed.

(** X14.  Lines 71-78 of [add_site_id] are idempotent: on a target class
    that was numbered before, as it is in the advisory run of [step_2],
    adding temp_id and numbering the rows again succeeds and leaves the
    world exactly as the first numbering left it. *)
Theorem numbering_the_target_class_again_changes_nothing
    p (w : World geometry) (fc : FeatureClass geometry) :
  fcs w !! p = Some fc ->
  let number := bind (AddField p "temp_id")
                     (fun _ => UpdateCursor_row_number p "temp_id") in
  number (snd (number w)) = (Ok tt, snd (number w)).
Proof.
  intros Hfc number. subst number. cbv beta.
  rewrite (numbering_run p "temp_id" w fc Hfc). cbn [snd].
  set (fc1 := add_field "temp_id" fc).
  set (fc2 := mkFC (fc_fields fc1) (number_rows (fc_fields fc1) "temp_id" 1 (fc_features fc1))).
  assert (Hin : In "temp_id" (fc_fields fc2)).
  { subst fc2 fc1. cbn [fc_fields]. unfold add_field. case_bool_decide; [assumption|].
    simpl. apply in_or_app. right. now left. }
  rewrite (numbering_run p "temp_id" _ fc2) by (cbn [set_fcs fcs]; apply lookup_insert_eq).
  assert (Hsame : add_field "temp_id" fc2 = fc2).
  { unfold add_field. now rewrite bool_decide_eq_true_2 by exact Hin. }
  rewrite Hsame. subst fc2. cbn [fc_fields fc_features]. rewrite number_rows_twice.
  unfold set_fcs. cbn [gdbs fcs layers log]. now rewrite !insert_insert_eq.
Qed.


(** ** A completed run as a script *)

Lemma step_1_keeps_out_fc_nme (R : Runtime geometry) (self self' : PrepareData geometry)
    (w w' : World geometry) :
  step_1 R self w = (Ok self', w') -> out_fc_nme self' = out_fc_nme self.
Proof.
  unfold step_1. intros Hrun.
  apply bind_Ok_inv in Hrun as (u1 & w1 & _ & Hrun).
  apply bind_Ok_inv in Hrun as (u2 & w2 & _ & Hrun).
  apply bind_Ok_inv in Hrun as (cnt & w3 & _ & Hrun).
  apply bind_Ok_inv in Hrun as (u4 & w4 & _ & Hrun).
  destruct (0 <? cnt).
  - apply bind_Ok_inv in Hrun as (u5 & w5 & _ & Hrun).
    apply bind_Ok_inv in Hrun as (u6 & w6 & _ & Hrun).
    apply bind_Ok_inv in Hrun as (u7 & w7 & _ & Hrun).
    apply bind_Ok_inv in Hrun as (flyr & w8 & _ & Hrun).
    unfold ret in Hrun. now injection Hrun as <- _.
  - unfold ret in Hrun. now injection Hrun as <- _.
Qed.

Lemma step_2_keeps_out_fc_nme (R : Runtime geometry) (self self' : PrepareData geometry)
    (w w' : World geometry) :
  step_2 R self w = (Ok self', w') -> out_fc_nme self' = out_fc_nme self.
Proof.
  unfold step_2. intros Hrun.
  apply bind_Ok_inv in Hrun as (df1 & w1 & _ & Hrun).
  apply bind_Ok_inv in Hrun as (df2 & w2 & _ & Hrun).
  unfold ret in Hrun. now injection Hrun as <- _.
Qed.

(** X15.  When the four steps complete in a run as a script, the object's
    output name is the one it was constructed with, a class of that name
    exists under the scratch workspace named in the module's main block,
    and the last log entry is the completion message. *)
Theorem run_steps_as_script_persists_under_the_scratch_gdb_of_the_main_block
    (R : Runtime geometry) (self self' : PrepareData geometry) (w w' : World geometry) :
  run_steps R (data_prepper_globals "__main__") self w = (Ok self', w') ->
  out_fc_nme self' = out_fc_nme self /\
  is_Some (fcs w' !! path_join "C:\proximity_analysis\data\Proximity_ON\scratch.gdb"
                       (out_fc_nme self)) /\
  exists entries, log w' = entries ++ [Info "Data Prep Complete!"].
Proof.
  unfold run_steps. intros Hrun.
  apply bind_Ok_inv in Hrun as (u1 & w1 & _ & Hrun).
  apply bind_Ok_inv in Hrun as (self1 & w2 & H1 & Hrun).
  apply bind_Ok_inv in Hrun as (u3 & w3 & _ & Hrun).
  apply bind_Ok_inv in Hrun as (self2 & w4 & H2 & Hrun).
  apply bind_Ok_inv in Hrun as (u5 & w5 & _ & Hrun).
  apply bind_Ok_inv in Hrun as (u6 & w6 & _ & Hrun).
  apply bind_Ok_inv in Hrun as (u7 & w7 & _ & Hrun).
  apply bind_Ok_inv in Hrun as (u8 & w8 & H4 & Hrun).
  apply bind_Ok_inv in Hrun as (u9 & w9 & H5 & Hrun).
  unfold ret in Hrun. injection Hrun as <- <-.
  apply step_1_keeps_out_fc_nme in H1. apply step_2_keeps_out_fc_nme in H2.
  assert (Hout : out_fc_nme self2 = out_fc_nme self) by congruence.
  split; [exact Hout|].
  unfold step_4 in H4.
  apply bind_Ok_inv in H4 as (b & wa & _ & H4).
  apply bind_Ok_inv in H4 as (r & wb & _ & H4).
  apply bind_Ok_inv in H4 as (j & wc & _ & H4).
  apply bind_Ok_inv in H4 as (g & wd & Hg & H4).
  unfold load_global in Hg. rewrite scratch_gdb_bound_in_main in Hg.
  unfold ret in Hg. injection Hg as <- <-.
  apply write_fc_inv in H4 as ->.
  unfold logger_info in H5. injection H5 as _ <-. cbn [set_fcs fcs log].
  rewrite Hout, lookup_insert_eq. split; [eauto|]. eauto.
Qed.

(** ** The stale fields on an engine that refuses a missing field *)

Lemma ListFields_run p (w : World geometry) fc :
  fcs w !! p = Some fc -> ListFields p w = (Ok (field_names fc), w).
Proof. intros Hfc. unfold ListFields, read_fc, ret, bind. now rewrite Hfc. Qed.

Lemma DeleteField_present (R : Runtime geometry) p c (w : World geometry) fc :
  fcs w !! p = Some fc -> In c (field_names fc) ->
  DeleteField R p [c] w = (Ok tt, set_fcs (<[p := delete_fields [c] fc]> (fcs w)) w).
Proof.
  intros Hfc Hin. unfold DeleteField, read_fc, write_fc, bind. rewrite Hfc.
  cbn [forallb]. rewrite bool_decide_eq_true_2 by exact Hin.
  now rewrite andb_false_r.
Qed.

Lemma DeleteField_missing (R : Runtime geometry) p c (w : World geometry) fc :
  delete_missing_fails R = true ->
  fcs w !! p = Some fc -> ~ In c (field_names fc) ->
  DeleteField R p [c] w
  = (Raise (ExecuteError "ERROR 000728: Field does not exist within table"), w).
Proof.
  intros Hstrict Hfc Hin. unfold DeleteField, read_fc, raise, bind. rewrite Hfc, Hstrict.
  cbn [forallb]. now rewrite bool_decide_eq_false_2 by exact Hin.
Qed.

(** X16.  On an engine whose DeleteField refuses a field the table does
    not have, a scratch class that holds both the identifier field and the
    output field makes the pass over the stale fields fail: the first round
    deletes the identifier field, the second finds the output field and
    asks for the identifier field to be deleted again.  The scratch class
    is left without the identifier field and with the output field. *)
Theorem delete_stale_fails_on_two_stale_fields_when_the_engine_is_strict
    (R : Runtime geometry) p fld out (w : World geometry) (fc : FeatureClass geometry) :
  delete_missing_fails R = true ->
  fcs w !! p = Some fc ->
  In fld (fc_fields fc) -> In out (fc_fields fc) -> out <> fld -> fld <> "Shape" ->
  fst (delete_stale R p fld [fld; out] w)
  = Raise (ExecuteError "ERROR 000728: Field does not exist within table") /\
  fcs (snd (delete_stale R p fld [fld; out] w)) !! p = Some (delete_fields [fld] fc).
Proof.
  intros Hstrict Hfc Hfld Hout Hne Hshape.
  assert (Hkeep : In out (field_names (delete_fields [fld] fc))).
  { apply in_or_app. left. apply delete_fields_keeps; [exact Hout|].
    simpl. intros [E|[]]. congruence. }
  assert (Hgone : ~ In fld (field_names (delete_fields [fld] fc))).
  { unfold field_names. intros Hin. apply in_app_or in Hin as [Hin|[Hin|[]]].
    - revert Hin. apply delete_fields_drops. now left.
    - congruence. }
  assert (Hhas : In fld (field_names fc)) by (apply in_or_app; now left).
  set (w1 := mkWorld (gdbs w) (fcs w) (layers w)
               (log w ++ [Info (fld ++ " already in target layer. Deleting existing field")])).
  set (w2 := set_fcs (<[p := delete_fields [fld] fc]> (fcs w1)) w1).
  assert (Hfc2 : fcs w2 !! p = Some (delete_fields [fld] fc)) by apply lookup_insert_eq.
  set (w3 := mkWorld (gdbs w2) (fcs w2) (layers w2)
               (log w2 ++ [Info (out ++ " already in target layer. Deleting existing field")])).
  assert (Hrun : delete_stale R p fld [fld; out] w
                 = (Raise (ExecuteError "ERROR 000728: Field does not exist within table"), w3)).
  2: { rewrite Hrun. split; [reflexivity|exact Hfc2]. }
  cbn [delete_stale].
  rewrite (bind_Ok _ _ _ _ _ (ListFields_run p w fc Hfc)).
  rewrite bool_decide_eq_true_2 by exact Hhas.
  unfold bind at 1. unfold bind at 1. unfold logger_info at 1. fold w1.
  rewrite (DeleteField_present R p fld w1 fc Hfc Hhas). fold w2.
  rewrite (bind_Ok _ _ _ _ _ (ListFields_run p w2 _ Hfc2)).
  rewrite bool_decide_eq_true_2 by exact Hkeep.
  unfold bind at 1. unfold bind at 1. unfold logger_info at 1. fold w3.
  rewrite (DeleteField_missing R p fld w3 _ Hstrict Hfc2 Hgone).
  reflexivity.
Qed.

End Properties.

(** * The model on the sample data *)

Example tie_break_3_7_2 :
  tie_break (toy_runtime false) fragments_3_7_2
  = Ok (mkDataFrame ["PLACE_ID"; "temp_id"; "PD_Site_ID"; "Join_Count"]
          [[VInt 5; VInt 1; VInt 20; VInt 7]]).
Proof. vm_compute. reflexivity. Qed.

Example setup_on_the_sample_project :
  PrepareData_setup "D" "S" "SA" "ADV" "SP" "IA" "BP" "bld_p_processed" 4326 sample_world
  = (Ok sample_self, sample_world_ready).
Proof. vm_compute. reflexivity. Qed.

Example overlay_of_the_sample_project :
  fst (overlay_table (toy_runtime false) "D\IA" "SA" ["PD_NAME"] "bld_p" "PD_Site_ID"
         "AUTO_PD_SITE_ID" "S" "scratch" sample_world_ready)
  = Ok sample_overlay.
Proof. vm_compute. reflexivity. Qed.

Example add_site_id_on_the_sample_project :
  fst (add_site_id (toy_runtime false) "D\IA" "SA" ["PD_NAME"] "bld_p"
         (to_frame sample_polygons) "PD_Site_ID" "AUTO_PD_SITE_ID" "S" "scratch" "PLACE_ID"
         sample_world_ready)
  = Ok sample_pd_table.
Proof. vm_compute. reflexivity. Qed.

(** Run as a script, the module binds scratch_gdb and [step_4] writes the
    output class. *)
Example step_4_persists_when_run_as_script :
  let '(o, w) := step_4 (toy_runtime false) (data_prepper_globals "__main__")
                   sample_self_resolved sample_world_ready in
  o = Ok tt /\
  is_Some (fcs w !! "C:\proximity_analysis\data\Proximity_ON\scratch.gdb\bld_p_processed").
Proof. vm_compute. split; [reflexivity|]. eexists. reflexivity. Qed.

(** The type checks of [is_valid] on the sample project: every path
    exists, and a string passed for [sr] is refused. *)
Example is_valid_refuses_a_string_for_sr :
  fst (is_valid "D" (ArgStr "S") "SA" "SP" "ADV" (ArgStr "IA") (ArgStr "bld_p_processed")
         (ArgStr "3347") sample_world)
  = Raise (PyException "Parameter sr: Must be an integer matching a projections WKID. Is currently type: <class 'str'>").
Proof. vm_compute. reflexivity. Qed.

(** C1, amended: the theorem at the fragments with counts 3, 7 and 2; the
    one row kept is the count-7 fragment, with the identifier 20. *)
Lemma tie_break_3_7_2_witness :
  exists resolved,
    tie_break (toy_runtime false) fragments_3_7_2 = Ok resolved /\
    In [VInt 5; VInt 1; VInt 20; VInt 7] (rows resolved) /\
    forall r, In r (rows resolved) -> r = [VInt 5; VInt 1; VInt 20; VInt 7].
Proof.
  destruct (tie_break_keeps_a_fragment_of_maximum_count (toy_runtime false) fragments_3_7_2)
    as (resolved & Hrun & _ & _ & Hsub & Hall).
  - exact stable_sort_desc_lawful.
  - simpl. tauto.
  - simpl. tauto.
  - exists resolved. split; [exact Hrun|].
    destruct (Hall [VInt 5; VInt 1; VInt 20; VInt 7]) as (r' & Hin & _ & Huniq & Hmax & _);
      [simpl; tauto|].
    destruct (Hmax [VInt 5; VInt 1; VInt 20; VInt 7] 7) as (m & Hm & Hle);
      [simpl; tauto|reflexivity|reflexivity|].
    assert (Hr' : r' = [VInt 5; VInt 1; VInt 20; VInt 7]).
    { destruct (Hsub r' Hin) as [<-|[<-|[<-|[]]]]; vm_compute in Hm; injection Hm as <-;
        [lia|reflexivity|lia]. }
    subst r'. split; [exact Hin|].
    intros r Hr. apply Huniq; [exact Hr|].
    destruct (Hsub r Hr) as [<-|[<-|[<-|[]]]]; reflexivity.
Defined.

(** C1: of two fragments tied at the largest count, the first in the table
    is kept when the sort leaves tied rows in table order, and the later
    one when the sort, as lawfully, leaves them in the reverse order. *)
Lemma tie_break_may_keep_the_later_of_tied_fragments :
  lawful_sort (argsort_desc later_ties_runtime) /\
  tie_break later_ties_runtime tied_fragments
  = Ok (mkDataFrame ["PLACE_ID"; "temp_id"; "PD_Site_ID"; "Join_Count"]
          [[VInt 5; VInt 1; VInt 103; VInt 7]]) /\
  tie_break (toy_runtime false) tied_fragments
  = Ok (mkDataFrame ["PLACE_ID"; "temp_id"; "PD_Site_ID"; "Join_Count"]
          [[VInt 5; VInt 1; VInt 102; VInt 7]]).
Proof. split; [exact later_first_sort_lawful|]. vm_compute. split; reflexivity. Qed.

(** C9: identifiers 101, 102, 103 against a registry holding 101 and 103. *)
Lemma check_site_id_exists_reports_102_witness :
  In "SITE_ID" (columns registry_101_103) /\
  check_site_id_exists [VInt 101; VInt 102; VInt 103] registry_101_103 "SITE_ID"
  = Ok [VInt 102].
Proof.
  assert (Hcol : In "SITE_ID" (columns registry_101_103)) by (simpl; tauto).
  split; [exact Hcol|].
  exact (proj1 (check_site_id_exists_set_difference [101; 102; 103] registry_101_103 Hcol)).
Defined.

(** C2: two community polygons share PLACE_ID 5; each row of the working
    table comes back twice, once with each of the identifiers 10 and 30. *)
Lemma shared_join_key_yields_two_identifiers_per_row :
  fst (add_site_id (toy_runtime false) "D\IA" "SA" ["PD_NAME"] "bld_p"
         (to_frame shared_key_polygons) "PD_Site_ID" "AUTO_PD_SITE_ID" "S" "scratch"
         "PLACE_ID" shared_key_world)
  = Ok (mkDataFrame ["OBJECTID"; "PLACE_ID"; "SHAPE"; "AUTO_PD_SITE_ID"]
          [[VInt 1; VInt 5; VGeom (0, 9); VInt 10];
           [VInt 1; VInt 5; VGeom (0, 9); VInt 30];
           [VInt 2; VInt 5; VGeom (40, 49); VInt 10];
           [VInt 2; VInt 5; VGeom (40, 49); VInt 30]]).
Proof. vm_compute. reflexivity. Qed.

(** C2, amended: the theorem on the project with the polygon that the
    overlay cuts in two.  The overlay table has three rows for two
    polygons; the two fragments of the second polygon share its PLACE_ID
    and its temporary key, and the tie-break keeps the one with two
    points. *)
Lemma add_site_id_one_identifier_witness :
  List.length (rows split_overlay) = 3%nat /\
  (exists t, tie_break (toy_runtime false) split_overlay = Ok t /\
             NoDup (map (cell (columns split_overlay) "temp_id") (rows t))) /\
  (List.length (rows split_pd_table) <= List.length (rows (to_frame split_polygons)))%nat /\
  forall o e1 e2, In o (rows (to_frame split_polygons)) ->
    In (o ++ e1) (rows split_pd_table) -> In (o ++ e2) (rows split_pd_table) -> e1 = e2.
Proof.
  split; [reflexivity|].
  apply (add_site_id_one_identifier_when_join_key_identifies_row (toy_runtime false)
           "D\IA" "SA" ["PD_NAME"] "bld_p" (to_frame split_polygons) split_overlay
           split_pd_table
           "PD_Site_ID" "AUTO_PD_SITE_ID" "S" "scratch" "PLACE_ID" split_world
           (snd (overlay_table (toy_runtime false) "D\IA" "SA" ["PD_NAME"] "bld_p"
                   "PD_Site_ID" "AUTO_PD_SITE_ID" "S" "scratch" split_world))
           (snd (add_site_id (toy_runtime false) "D\IA" "SA" ["PD_NAME"] "bld_p"
                   (to_frame split_polygons) "PD_Site_ID" "AUTO_PD_SITE_ID" "S" "scratch"
                   "PLACE_ID" split_world))).
  - exact stable_sort_desc_lawful.
  - discriminate.
  - discriminate.
  - vm_compute. reflexivity.
  - repeat constructor.
  - intros r1 r2 [<-|[<-|[<-|[]]]] [<-|[<-|[<-|[]]]]; vm_compute; congruence.
  - vm_compute. reflexivity.
Defined.

(** C3: a working table with a row whose PLACE_ID (9) the overlay does not
    have; the row is not in the result. *)
Lemma unmatched_row_is_dropped :
  In [VInt 9; VStr "z"] (rows table_with_unmatched_row) /\
  fst (add_site_id (toy_runtime false) "D\IA" "SA" ["PD_NAME"] "bld_p"
         table_with_unmatched_row "PD_Site_ID" "AUTO_PD_SITE_ID" "S" "scratch" "PLACE_ID"
         sample_world_ready)
  = Ok matched_rows_only.
Proof. split; [simpl; tauto|]. vm_compute. reflexivity. Qed.

(** C3, amended: the theorem on that working table. *)
Lemma add_site_id_keeps_matched_rows_witness :
  exists right,
    resolved_mapping (toy_runtime false) sample_overlay "PD_Site_ID" "AUTO_PD_SITE_ID"
      "PLACE_ID" = Ok right /\
    forall o, In o (rows table_with_unmatched_row) ->
      ((exists e,
          In (o ++ e)
             (rows matched_rows_only)) <->
       (exists m, In m (rows right) /\
                  cell (columns right) "PLACE_ID" m
                  = cell (columns table_with_unmatched_row) "PLACE_ID" o)).
Proof.
  apply (add_site_id_keeps_exactly_the_matched_rows (toy_runtime false)
           "D\IA" "SA" ["PD_NAME"] "bld_p" table_with_unmatched_row sample_overlay
           matched_rows_only
           "PD_Site_ID" "AUTO_PD_SITE_ID" "S" "scratch" "PLACE_ID" sample_world_ready
           (snd (overlay_table (toy_runtime false) "D\IA" "SA" ["PD_NAME"] "bld_p"
                   "PD_Site_ID" "AUTO_PD_SITE_ID" "S" "scratch" sample_world_ready))
           (snd (add_site_id (toy_runtime false) "D\IA" "SA" ["PD_NAME"] "bld_p"
                   table_with_unmatched_row "PD_Site_ID" "AUTO_PD_SITE_ID" "S" "scratch"
                   "PLACE_ID" sample_world_ready))).
  - vm_compute. reflexivity.
  - repeat constructor.
  - vm_compute. reflexivity.
Defined.

(** C5: on the sample project the constructor's field list drops the
    identifier field with the non-essential ones, and the run ends at the
    check. *)
Lemma add_site_id_exits_witness :
  fst (add_site_id (toy_runtime false) "D\IA" "SA" ["PD_Site_ID"; "PD_NAME"] "bld_p"
         (to_frame sample_polygons) "PD_Site_ID" "AUTO_PD_SITE_ID" "S" "scratch" "PLACE_ID"
         sample_world_ready)
  = Raise SystemExit /\
  log (snd (add_site_id (toy_runtime false) "D\IA" "SA" ["PD_Site_ID"; "PD_NAME"] "bld_p"
              (to_frame sample_polygons) "PD_Site_ID" "AUTO_PD_SITE_ID" "S" "scratch"
              "PLACE_ID" sample_world_ready))
  = log sample_world_ready
    ++ [Info "PD_Site_ID not in the output dataframe error";
        InfoColumns (columns sample_overlay_without_identifier)].
Proof.
  pose proof
    (add_site_id_exits_when_identifier_field_absent (toy_runtime false)
       "D\IA" "SA" ["PD_Site_ID"; "PD_NAME"] "bld_p" (to_frame sample_polygons)
       sample_overlay_without_identifier "PD_Site_ID" "AUTO_PD_SITE_ID" "S" "scratch"
       "PLACE_ID" sample_world_ready
       (snd (overlay_table (toy_runtime false) "D\IA" "SA" ["PD_Site_ID"; "PD_NAME"] "bld_p"
               "PD_Site_ID" "AUTO_PD_SITE_ID" "S" "scratch" sample_world_ready))) as Hthm.
  rewrite Hthm.
  - split; reflexivity.
  - vm_compute. reflexivity.
  - simpl. tauto.
  - simpl. tauto.
  - simpl. intros [E|[E|[E|[E|[E|[E|[]]]]]]]; discriminate.
Defined.

Lemma sample_project_ready :
  ready_for_step_1 sample_self sample_world_ready sample_polygons sample_points.
Proof. repeat split; vm_compute; reflexivity. Defined.

Lemma toy_inside_point_within (g : Z * Z) : toy_within (toy_inside_point g) g.
Proof. unfold toy_within, toy_inside_point. simpl. lia. Qed.

(** C6: on the sample project one polygon of three has no point; the point
    layer goes from three points to four, and the new point lies in that
    polygon. *)
Lemma step_1_adds_one_point_witness :
  polygons_without_points (toy_runtime false) sample_polygons sample_points
  = [mkFeature [VInt 3; VInt 7] (40, 49)] /\
  exists self' w' bld',
    step_1 (toy_runtime false) sample_self sample_world_ready = (Ok self', w') /\
    layers w' !! bld_p_flyr self' = Some (mkLayer (bld_p_pth self') None) /\
    fcs w' !! bld_p_pth self' = Some bld' /\
    fc_features bld'
    = fc_features sample_points
      ++ map (synthesized_point (toy_runtime false) sample_polygons sample_points)
             (polygons_without_points (toy_runtime false) sample_polygons sample_points) /\
    List.length (fc_features bld')
    = (List.length (fc_features sample_points)
       + List.length (polygons_without_points (toy_runtime false) sample_polygons
                        sample_points))%nat /\
    forall f,
      In f (polygons_without_points (toy_runtime false) sample_polygons sample_points) ->
      In f (fc_features sample_polygons) /\
      existsb (fun p => intersects (toy_runtime false) (shape f) (shape p))
              (fc_features sample_points) = false /\
      shape (synthesized_point (toy_runtime false) sample_polygons sample_points f)
      = inside_point (toy_runtime false) (shape f) /\
      toy_within (shape (synthesized_point (toy_runtime false) sample_polygons
                           sample_points f))
                 (shape f).
Proof.
  split; [vm_compute; reflexivity|].
  apply (step_1_adds_one_interior_point_per_empty_polygon (toy_runtime false) toy_within
           sample_self sample_world_ready sample_polygons sample_points).
  - exact toy_inside_point_within.
  - exact sample_project_ready.
  - discriminate.
Defined.

(** C7: on the sample project the original point class keeps its three
    points and the layer moves to a copy. *)
Lemma step_1_preserves_points_witness :
  exists self' w' bld',
    step_1 (toy_runtime false) sample_self sample_world_ready = (Ok self', w') /\
    fcs w' !! bld_p_pth sample_self = Some sample_points /\
    fcs w' !! bld_p_pth self' = Some bld' /\
    fc_fields bld' = fc_fields sample_points /\
    (exists added, fc_features bld' = fc_features sample_points ++ added) /\
    (polygons_without_points (toy_runtime false) sample_polygons sample_points <> [] ->
     bld_p_pth self' <> bld_p_pth sample_self) /\
    (polygons_without_points (toy_runtime false) sample_polygons sample_points = [] ->
     self' = sample_self /\ fcs w' = fcs sample_world_ready /\
     layers w' !! "bld_p" = layers sample_world_ready !! "bld_p").
Proof.
  apply (step_1_preserves_existing_points (toy_runtime false) sample_self
           sample_world_ready sample_polygons sample_points).
  - exact sample_project_ready.
  - discriminate.
  - discriminate.
Defined.

(** C4: imported as components.data_prepper, [step_4] on the resolved
    sample object ends in the NameError and the world is as before. *)
Lemma step_4_NameError_witness :
  "components.data_prepper" <> "__main__" /\
  step_4 (toy_runtime false) (data_prepper_globals "components.data_prepper")
    sample_self_resolved sample_world_ready
  = (Raise (NameError "scratch_gdb"), sample_world_ready).
Proof.
  assert (Hn : "components.data_prepper" <> "__main__") by discriminate.
  split; [exact Hn|].
  destruct (step_4_never_persists_when_imported (toy_runtime false)
              "components.data_prepper" Hn) as (_ & Hstep & _).
  destruct (Hstep sample_self_resolved sample_world_ready) as (_ & Hname).
  eapply Hname; vm_compute; reflexivity.
Defined.


(** C8: a scratch class that still has both the identifier field and the
    output field.  The pass over the stale fields deletes the identifier
    field and leaves the output field in place; an engine that rejects the
    deletion of a missing field aborts the run at the second DeleteField. *)
Lemma stale_output_field_is_not_deleted :
  (let '(o, w) := delete_stale (toy_runtime false) "S\scratch" "PD_Site_ID"
                    ["PD_Site_ID"; "AUTO_PD_SITE_ID"] stale_world in
   o = Ok tt /\
   fc_fields <$> (fcs w !! "S\scratch") = Some ["PLACE_ID"; "temp_id"; "AUTO_PD_SITE_ID"]) /\
  (let '(o, w) := delete_stale (toy_runtime true) "S\scratch" "PD_Site_ID"
                    ["PD_Site_ID"; "AUTO_PD_SITE_ID"] stale_world in
   o = Raise (ExecuteError "ERROR 000728: Field does not exist within table") /\
   fc_fields <$> (fcs w !! "S\scratch") = Some ["PLACE_ID"; "temp_id"; "AUTO_PD_SITE_ID"]).
Proof. vm_compute. repeat split; reflexivity. Qed.

(** On the sample project a second run of [add_site_id], started in the
    world the first run left (scratch classes included), returns the same
    table: the overlay is written over the scratch class. *)
Example rerun_on_the_sample_project_returns_the_same_table :
  let first := add_site_id (toy_runtime true) "D\IA" "SA" ["PD_NAME"] "bld_p"
                 (to_frame sample_polygons) "PD_Site_ID" "AUTO_PD_SITE_ID" "S" "scratch"
                 "PLACE_ID" sample_world_ready in
  is_Some (fcs (snd first) !! "S\scratch") /\
  fst (add_site_id (toy_runtime true) "D\IA" "SA" ["PD_NAME"] "bld_p"
         (to_frame sample_polygons) "PD_Site_ID" "AUTO_PD_SITE_ID" "S" "scratch" "PLACE_ID"
         (snd first))
  = fst first.
Proof. vm_compute. split; [eexists|]; reflexivity. Qed.

(** * The further properties on the sample data *)

(** X7: in the empty world no path exists. *)
Lemma PrepareData_init_missing_path_witness :
  exists msg,
    PrepareData_init (toy_runtime false) (data_prepper_globals "__main__")
      "D" "S" "SA" "ADV" "SP" "IA" "BP" "bld_p_processed" 4326 empty_world
    = (Raise (PyException msg),
       mkWorld [] ∅ ∅ [Info "Starting Data Prep"; Info "Validating Inputs"]).
Proof.
  apply (PrepareData_init_changes_nothing_but_the_log_when_a_path_is_missing
           (toy_runtime false) (data_prepper_globals "__main__")
           "D" "S" "SA" "ADV" "SP" "IA" "BP" "bld_p_processed" 4326 empty_world).
  vm_compute. reflexivity.
Defined.

(** X8: on the sample project the scratch workspace S is created. *)
Lemma PrepareData_setup_scratch_workspace_witness :
  fcs sample_world_ready = fcs sample_world /\
  path_exists sample_world "S" = false /\
  gdbs sample_world_ready = "S" :: gdbs sample_world.
Proof.
  assert (Hrun : PrepareData_setup "D" "S" "SA" "ADV" "SP" "IA" "BP" "bld_p_processed" 4326
                   sample_world = (Ok sample_self, sample_world_ready))
    by (vm_compute; reflexivity).
  destruct (PrepareData_setup_creates_only_the_scratch_workspace _ _ _ _ _ _ _ _ _ _ _ _ Hrun)
    as (Hf & Hg & _).
  split; [exact Hf|]. split; [vm_compute; reflexivity|exact Hg].
Defined.

(** X9: the three community polygons of the sample project get the keys
    1, 2 and 3. *)
Lemma overlay_table_temporary_key_witness :
  exists fc',
    fcs (snd (overlay_table (toy_runtime false) "D\IA" "SA" ["PD_NAME"] "bld_p" "PD_Site_ID"
                "AUTO_PD_SITE_ID" "S" "scratch" sample_world_ready)) !! "D\IA" = Some fc' /\
    fc_fields fc' = ["OBJECTID"; "PLACE_ID"; "temp_id"] /\
    map (fun f => cell (fc_fields fc') "temp_id" (attrs f)) (fc_features fc')
    = [VInt 1; VInt 2; VInt 3].
Proof.
  destruct (overlay_table_leaves_the_temporary_key_on_the_target_class (toy_runtime false)
              "D\IA" "SA" ["PD_NAME"] "bld_p" "PD_Site_ID" "AUTO_PD_SITE_ID" "S" "scratch"
              sample_world_ready sample_polygons)
    as (fc' & Hfc & Hfields & _ & Hkeys & _).
  - vm_compute. discriminate.
  - vm_compute. discriminate.
  - vm_compute. reflexivity.
  - repeat constructor.
  - exists fc'. split; [exact Hfc|]. split; [exact Hfields|exact Hkeys].
Defined.

(** X14: the community class of the sample project, numbered twice. *)
Lemma numbering_again_witness :
  bind (AddField "D\IA" "temp_id") (fun _ => UpdateCursor_row_number "D\IA" "temp_id")
    (snd (bind (AddField "D\IA" "temp_id")
               (fun _ => UpdateCursor_row_number "D\IA" "temp_id") sample_world))
  = (Ok tt,
     snd (bind (AddField "D\IA" "temp_id")
               (fun _ => UpdateCursor_row_number "D\IA" "temp_id") sample_world)).
Proof.
  apply (numbering_the_target_class_again_changes_nothing "D\IA" sample_world sample_polygons).
  vm_compute. reflexivity.
Defined.

(** X10: the sample project with the stale scratch class; the table is
    that of the project without it. *)
Lemma overlay_table_stale_scratch_witness :
  fst (overlay_table (toy_runtime false) "D\IA" "SA" ["PD_NAME"] "bld_p" "PD_Site_ID"
         "AUTO_PD_SITE_ID" "S" "scratch" sample_world_with_stale_scratch)
  = Ok sample_overlay /\
  sample_overlay
  = to_frame
      (toy_SpatialJoin
         (delete_fields ["PD_NAME"]
            (toy_Identity
               (mkFC ["OBJECTID"; "PLACE_ID"; "temp_id"]
                  [mkFeature [VInt 1; VInt 5; VInt 1] (0, 9);
                   mkFeature [VInt 2; VInt 6; VInt 2] (20, 29);
                   mkFeature [VInt 3; VInt 7; VInt 3] (40, 49)])
               sample_sites))
         sample_points).
Proof.
  split; [vm_compute; reflexivity|].
  apply (overlay_table_does_not_depend_on_what_the_scratch_workspace_held
           (toy_runtime false) "D\IA" "SA" ["PD_NAME"] "bld_p" "PD_Site_ID" "AUTO_PD_SITE_ID"
           "S" "scratch" sample_world_with_stale_scratch
           (snd (overlay_table (toy_runtime false) "D\IA" "SA" ["PD_NAME"] "bld_p"
                   "PD_Site_ID" "AUTO_PD_SITE_ID" "S" "scratch"
                   sample_world_with_stale_scratch))
           sample_overlay sample_polygons sample_sites sample_points
           (mkLayer "D\BP" None)).
  - vm_compute. reflexivity.
  - vm_compute. reflexivity.
  - vm_compute. reflexivity.
  - vm_compute. reflexivity.
  - vm_compute. discriminate.
  - vm_compute. discriminate.
  - vm_compute. discriminate.
  - discriminate.
  - discriminate.
  - vm_compute. reflexivity.
Defined.

(** X11: the sample object has PD_Site_ID among its fields to delete. *)
Lemma step_2_exits_witness :
  fst (step_2 (toy_runtime false) sample_self sample_world_ready) = Raise SystemExit.
Proof.
  rewrite (step_2_exits_when_the_identifier_is_among_the_dropped_fields (toy_runtime false)
             sample_self sample_world_ready
             (snd (overlay_table (toy_runtime false) "D\IA" "SA" ["PD_Site_ID"; "PD_NAME"]
                     "bld_p" "PD_Site_ID" "AUTO_PD_SITE_ID" "S" "scratch" sample_world_ready))
             sample_overlay_without_identifier).
  - reflexivity.
  - simpl. tauto.
  - vm_compute. reflexivity.
  - simpl. tauto.
  - simpl. tauto.
  - intros t j _ Hn. simpl. intros [E|Hin]; [discriminate|contradiction].
Defined.

(** X12: the primary run on the sample project. *)
Lemma add_site_id_appends_column_witness :
  exists n,
    columns sample_pd_table
    = columns (to_frame sample_polygons) ++ repeat "AUTO_PD_SITE_ID" (S n).
Proof.
  apply (add_site_id_appends_the_identifier_column (toy_runtime false)
           "D\IA" "SA" ["PD_NAME"] "bld_p" (to_frame sample_polygons) sample_pd_table
           "PD_Site_ID" "AUTO_PD_SITE_ID" "S" "scratch" "PLACE_ID" sample_world_ready
           (snd (add_site_id (toy_runtime false) "D\IA" "SA" ["PD_NAME"] "bld_p"
                   (to_frame sample_polygons) "PD_Site_ID" "AUTO_PD_SITE_ID" "S" "scratch"
                   "PLACE_ID" sample_world_ready))).
  - simpl. intros [E|[E|[E|[]]]]; discriminate.
  - vm_compute. reflexivity.
Defined.

(** X13: both runs, on the object that keeps the identifier fields. *)
Lemma step_2_both_columns_witness :
  In "AUTO_PD_SITE_ID" (columns (indig_sdf sample_self_both_resolved)) /\
  In "AUTO_ADV_SITE_ID" (columns (indig_sdf sample_self_both_resolved)).
Proof.
  destruct (step_2_appends_both_identifier_columns (toy_runtime false)
              sample_self_keeping_identifiers sample_self_both_resolved
              sample_world_with_identifiers
              (snd (step_2 (toy_runtime false) sample_self_keeping_identifiers
                      sample_world_with_identifiers)))
    as (_ & Hpd & Hadv & _).
  - simpl. intros [E|[E|[E|[]]]]; discriminate.
  - simpl. intros [E|[E|[E|[]]]]; discriminate.
  - discriminate.
  - vm_compute. reflexivity.
  - split; [exact Hpd|exact Hadv].
Defined.

(** X17: the stale scratch class keeps AUTO_PD_SITE_ID. *)
Lemma stale_output_field_survives_witness :
  still_has "S\scratch" "AUTO_PD_SITE_ID"
    (snd (delete_stale (toy_runtime false) "S\scratch" "PD_Site_ID"
            ["PD_Site_ID"; "AUTO_PD_SITE_ID"] stale_world)).
Proof.
  apply delete_stale_still_has.
  - discriminate.
  - exists stale_scratch. split; [vm_compute; reflexivity|simpl; tauto].
Defined.

(** X16: the stale scratch class on the strict engine. *)
Lemma delete_stale_strict_witness :
  fst (delete_stale (toy_runtime true) "S\scratch" "PD_Site_ID"
         ["PD_Site_ID"; "AUTO_PD_SITE_ID"] stale_world)
  = Raise (ExecuteError "ERROR 000728: Field does not exist within table").
Proof.
  apply (delete_stale_fails_on_two_stale_fields_when_the_engine_is_strict (toy_runtime true)
           "S\scratch" "PD_Site_ID" "AUTO_PD_SITE_ID" stale_world stale_scratch).
  - reflexivity.
  - vm_compute. reflexivity.
  - simpl. tauto.
  - simpl. tauto.
  - discriminate.
  - discriminate.
Defined.

(** X3: a working table with missing identifiers against a registry with
    a missing SITE_ID; the missing identifiers are reported, with 30. *)
Lemma step_3_report_witness :
  fst (step_3 sample_self_with_missing_identifiers world_with_missing_registry_identifier)
  = Ok tt /\
  log (snd (step_3 sample_self_with_missing_identifiers
              world_with_missing_registry_identifier))
  = [Info "Site_P points missing from matched site_ids (count): PDs: 2, ADVs:2";
     InfoIds [VNull; VInt 30];
     InfoIds [VNull; VNull]].
Proof.
  destruct (step_3_reports_the_identifiers_missing_from_the_registry
              sample_self_with_missing_identifiers world_with_missing_registry_identifier
              (mkFC ["SITE_ID"]
                 [mkFeature [VInt 101] (1, 1); mkFeature [VNull] (2, 2);
                  mkFeature [VInt 103] (32, 32)])
              [VInt 101; VNull; VInt 30] [VInt 103; VNull; VNull]) as (Hrun & _).
  - vm_compute. reflexivity.
  - vm_compute. reflexivity.
  - vm_compute. reflexivity.
  - simpl. tauto.
  - rewrite Hrun. split; vm_compute; reflexivity.
Defined.

(** X4: a site point class without SITE_ID and a working table with
    rows. *)
Lemma step_3_registry_without_SITE_ID_witness :
  step_3 sample_self_resolved world_without_registry_field
  = (Raise (KeyError "SITE_ID"), world_without_registry_field).
Proof.
  apply (step_3_fails_on_a_registry_without_SITE_ID_unless_the_table_is_empty
           sample_self_resolved world_without_registry_field sample_points).
  - simpl. tauto.
  - simpl. tauto.
  - vm_compute. reflexivity.
  - simpl. intros [E|[E|[]]]; discriminate.
Defined.

(** X5: the sample object has the scratch workspace S; the class is
    written under the scratch workspace of the main block. *)
Lemma step_4_as_script_witness :
  exists joined,
    step_4 (toy_runtime false) (data_prepper_globals "__main__") sample_self_resolved
      sample_world_ready
    = (Ok tt,
       set_fcs (<[path_join "C:\proximity_analysis\data\Proximity_ON\scratch.gdb"
                    (out_fc_nme sample_self_resolved) := toy_frame_to_fc joined]>
                  (fcs sample_world_ready)) sample_world_ready).
Proof.
  eexists.
  eapply (step_4_as_script_writes_under_the_scratch_gdb_of_the_main_block (toy_runtime false)
            sample_self_resolved sample_world_ready); vm_compute; reflexivity.
Defined.

(** X15: a complete run of the four steps on the sample project. *)
Lemma run_steps_as_script_witness :
  is_Some (fcs (snd (run_steps (toy_runtime false) (data_prepper_globals "__main__")
                       sample_self_keeping_identifiers sample_world_with_identifiers))
           !! "C:\proximity_analysis\data\Proximity_ON\scratch.gdb\bld_p_processed").
Proof.
  apply (run_steps_as_script_persists_under_the_scratch_gdb_of_the_main_block
           (toy_runtime false) sample_self_keeping_identifiers
           (set_bld_p "BP_ap" "S\BP_ap" "bld_p" sample_self_both_resolved)
           sample_world_with_identifiers
           (snd (run_steps (toy_runtime false) (data_prepper_globals "__main__")
                   sample_self_keeping_identifiers sample_world_with_identifiers))).
  vm_compute. reflexivity.
Defined.
